(** * A diagnostic recorder for an inference proxy

    Shallow embedding of [pkg/metrics/openai_recorder.go] and of the
    [runnermap] package it stores its data in, with the properties of the
    bounded request history, of the response capture and of the
    reconstruction of a streamed (server-sent-event) response.

    Go strings are byte strings: they are modelled by [string], whose
    characters are the 256 values of [ascii]. *)

From Stdlib Require Import ZArith String Ascii List Lia.
From Stdlib Require Import Floats.SpecFloat.
From stdpp Require Import gmap strings list pretty.

Open Scope string_scope.

(** * Package [runnermap] *)

Module runnermap.

(** Modelled from the spec: [inference.BackendMode] is declared outside the
    files at hand; the spec describes it as an enumeration (completion,
    embedding, ...).  It is an unsigned integer tag, [BackendModeCompletion]
    being the first one. *)
Definition BackendMode : Type := N.
Definition BackendModeCompletion : BackendMode := 0%N.
Definition BackendModeEmbedding : BackendMode := 1%N.

(** [Key] is used to index runners. *)
Record Key : Type := mkKey {
  Backend : string;
  Model : string;
  Mode : BackendMode
}.

#[global] Instance Key_eq_dec : EqDecision Key.
Proof. solve_decision. Defined.

#[global] Instance Key_countable : Countable Key.
Proof.
  apply (inj_countable'
           (fun k => (Backend k, Model k, Mode k))
           (fun t => mkKey t.1.1 t.1.2 t.2)).
  by intros [].
Defined.

(** [Map[T]]: two Go maps and the normalization function. *)
Record Map (T : Type) : Type := mkMap {
  m : gmap Key T;
  initialModel : gmap Key string;
  normalizeFn : string -> string
}.
Arguments mkMap {T}.
Arguments m {T}.
Arguments initialModel {T}.
Arguments normalizeFn {T}.

Section ops.
Context {T : Type}.

Definition New (normalizeFn : string -> string) : Map T :=
  mkMap ∅ ∅ normalizeFn.

Definition normalizeKey (rm : Map T) (key : Key) : Key :=
  mkKey (Backend key) (normalizeFn rm (Model key)) (Mode key).

(** [Set] is a reserved word: the methods carry the receiver's name. *)
Definition Map_Set (key : Key) (value : T) (rm : Map T) : Map T :=
  let normKey := normalizeKey rm key in
  mkMap (<[normKey := value]> (m rm))
        (<[normKey := Model key]> (initialModel rm))
        (normalizeFn rm).

(** [(val, ok)]: [Some val] when [ok], [None] for the zero value and
    [false]. *)
Definition Map_Get (key : Key) (rm : Map T) : option T :=
  let normKey := normalizeKey rm key in
  m rm !! normKey.

(** Indexing a Go map at a missing key gives the zero value, here the
    empty string. *)
Definition Map_GetInitialModel (key : Key) (rm : Map T) : string :=
  let normKey := normalizeKey rm key in
  default "" (initialModel rm !! normKey).

Definition Map_Delete (key : Key) (rm : Map T) : Map T :=
  let normKey := normalizeKey rm key in
  mkMap (delete normKey (m rm))
        (delete normKey (initialModel rm))
        (normalizeFn rm).

(** A new map filled by ranging over [rm.m]. *)
Definition Map_Items (rm : Map T) : gmap Key T :=
  map_fold (fun k v rmCopy => <[k := v]> rmCopy) ∅ (m rm).

End ops.

(** Two keys address the same slot when they agree on backend and mode and
    their models normalize to the same string. *)
Definition same_slot {T} (rm : Map T) (k1 k2 : Key) : Prop :=
  Backend k1 = Backend k2 /\ Mode k1 = Mode k2 /\
  normalizeFn rm (Model k1) = normalizeFn rm (Model k2).

End runnermap.

(** An ASCII case folding, as an instance of the caller-supplied
    normalization function. *)
Definition lower_ascii (c : ascii) : ascii :=
  let n := nat_of_ascii c in
  if (65 <=? n)%nat && (n <=? 90)%nat then ascii_of_nat (n + 32) else c.

Fixpoint ToLower (s : string) : string :=
  match s with
  | EmptyString => EmptyString
  | String c s' => String (lower_ascii c) (ToLower s')
  end.

(** * Package [strings] *)

Definition strings_HasPrefix (s prefix : string) : bool := String.prefix prefix s.

Fixpoint string_drop (n : nat) (s : string) : string :=
  match n, s with
  | S n', String _ s' => string_drop n' s'
  | _, _ => s
  end.

Fixpoint string_take (n : nat) (s : string) : string :=
  match n, s with
  | S n', String c s' => String c (string_take n' s')
  | _, _ => EmptyString
  end.

Definition strings_TrimPrefix (s prefix : string) : string :=
  if strings_HasPrefix s prefix then string_drop (String.length prefix) s else s.

Fixpoint strings_Contains (s substr : string) : bool :=
  strings_HasPrefix s substr ||
  match s with
  | EmptyString => false
  | String _ s' => strings_Contains s' substr
  end.

(** [strings.Split] for a separator that is not empty.  [skip] counts the
    bytes of a separator just met that are still to be passed over, [cur]
    holds the bytes of the current piece in reverse. *)
Fixpoint Split_go (sep : string) (skip : nat) (cur : string) (s : string) : list string :=
  match s with
  | EmptyString => [String.rev cur]
  | String c s' =>
      match skip with
      | S skip' => Split_go sep skip' cur s'
      | O =>
          if strings_HasPrefix s sep
          then String.rev cur :: Split_go sep (String.length sep - 1) EmptyString s'
          else Split_go sep O (String c cur) s'
      end
  end.

Definition strings_Split (s sep : string) : list string := Split_go sep 0 EmptyString s.

(** * Package [strconv]: float64 and its decimal forms *)

(** A [float64] is an IEEE 754 binary64 value, as the standard library
    specifies it over integers. *)
Definition float64 : Type := spec_float.

#[global] Instance spec_float_eq_dec : EqDecision spec_float.
Proof. solve_decision. Defined.

Definition prec64 : Z := 53.
Definition emax64 : Z := 1024.

Definition digit_val (c : ascii) : option Z :=
  let n := Z.of_N (N_of_ascii c) in
  if (48 <=? n)%Z && (n <=? 57)%Z then Some (n - 48)%Z else None.

Definition is_digit (c : ascii) : bool :=
  match digit_val c with Some _ => true | None => false end.

Fixpoint digits_val (acc : Z) (s : string) : Z :=
  match s with
  | EmptyString => acc
  | String c s' => digits_val (10 * acc + default 0%Z (digit_val c)) s'
  end.

(** Number of decimal digits of a positive integer. *)
Definition ndigits10 (z : Z) : Z := Z.of_nat (String.length (pretty z)).

(** The float64 nearest to [mant * 10^exp10] (ties to even), [None] when it is
    out of range ([strconv.ErrRange]); tiny values round to zero. *)
Definition round_decimal (neg : bool) (mant exp10 : Z) : option float64 :=
  if (mant =? 0)%Z then Some (S754_zero neg)
  else if (310 <? ndigits10 mant + exp10)%Z then None
  else if (ndigits10 mant + exp10 <? -330)%Z then Some (S754_zero neg)
  else
    let r :=
      if (0 <=? exp10)%Z
      then binary_round prec64 emax64 neg (Z.to_pos (mant * 10 ^ exp10)) 0
      else
        let den := (10 ^ (- exp10))%Z in
        let sh := Z.max 0 (Z.log2 den + 66 - Z.log2 mant) in
        let num := (mant * 2 ^ sh)%Z in
        let q := (num / den)%Z in
        let rem := (num mod den)%Z in
        let l := if (rem =? 0)%Z then loc_Exact else loc_Inexact (2 * rem ?= den)%Z in
        binary_round_aux prec64 emax64 neg q (- sh) l in
    match r with
    | S754_zero _ | S754_finite _ _ _ => Some r
    | S754_infinity _ | S754_nan => None
    end.

(** A JSON number literal cut into its parts: sign, integer digits, fraction
    digits, exponent (sign and digits). *)
Record number_literal : Type := mkLit {
  lit_neg : bool;
  lit_int : string;
  lit_frac : string;
  lit_exp_neg : bool;
  lit_exp : string
}.

(** [strconv.ParseFloat(s, 64)] on a literal of the JSON grammar. *)
Definition ParseFloat (l : number_literal) : option float64 :=
  let mant := digits_val 0 (lit_int l ++ lit_frac l) in
  let e := digits_val 0 (lit_exp l) in
  let e := if lit_exp_neg l then (- e)%Z else e in
  round_decimal (lit_neg l) mant (e - Z.of_nat (String.length (lit_frac l))).

(** [floor (m * 2^e / 10^p)] and whether the division is exact. *)
Definition scaled_floor (m e p : Z) : Z * bool :=
  let num := (m * 2 ^ (Z.max 0 e) * 10 ^ (Z.max 0 (- p)))%Z in
  let den := (2 ^ (Z.max 0 (- e)) * 10 ^ (Z.max 0 p))%Z in
  ((num / den)%Z, (num mod den =? 0)%Z).

(** The decimal exponent [t] with [10^t <= m * 2^e < 10^(t+1)], searched
    downwards from an upper estimate. *)
Fixpoint find_exp10 (fuel : nat) (m e t : Z) : Z :=
  match fuel with
  | O => t
  | S fuel' =>
      if (1 <=? fst (scaled_floor m e t))%Z then t
      else find_exp10 fuel' m e (t - 1)%Z
  end.

Definition exp10_of (m e : Z) : Z :=
  find_exp10 800 m e (((Z.log2 m + e + 1) * 30103) / 100000 + 1)%Z.

(** Of the two decimals [lo * 10^p] and [(lo+1) * 10^p] around [m * 2^e],
    whether the lower one is at least as near. *)
Definition closer_low (m e p lo : Z) : bool :=
  let lhs := (2 * m * 2 ^ (Z.max 0 e) * 10 ^ (Z.max 0 (- p)))%Z in
  let rhs := ((2 * lo + 1) * 2 ^ (Z.max 0 (- e)) * 10 ^ (Z.max 0 p))%Z in
  (lhs <=? rhs)%Z.

(** The shortest decimal that reads back as [x]: tried with [n] digits, then
    with one more. *)
Fixpoint shortest_go (fuel : nat) (n : Z) (x : float64) (m e t : Z) : Z * Z :=
  let p := (t - (n - 1))%Z in
  let '(lo, exact) := scaled_floor m e p in
  match fuel with
  | O => (lo, p)
  | S fuel' =>
      let ok_lo := bool_decide (round_decimal false lo p = Some x) in
      let ok_hi := bool_decide (round_decimal false (lo + 1) p = Some x) in
      if exact && ok_lo then (lo, p)
      else if ok_lo && ok_hi then (if closer_low m e p lo then (lo, p) else ((lo + 1)%Z, p))
      else if ok_lo then (lo, p)
      else if ok_hi then ((lo + 1)%Z, p)
      else shortest_go fuel' (n + 1)%Z x m e t
  end.

Fixpoint strip_zeros (fuel : nat) (d p : Z) : Z * Z :=
  match fuel with
  | O => (d, p)
  | S fuel' =>
      if (d mod 10 =? 0)%Z && negb (d =? 0)%Z
      then strip_zeros fuel' (d / 10)%Z (p + 1)%Z else (d, p)
  end.

Definition shortest (m e : Z) : Z * Z :=
  let x := binary_round prec64 emax64 false (Z.to_pos m) e in
  let '(d, p) := shortest_go 17 1 x m e (exp10_of m e) in
  strip_zeros 20 d p.

Fixpoint zeros (n : nat) : string :=
  match n with O => EmptyString | S n' => String "0" (zeros n') end.

(** The float encoder of [encoding/json]: format 'e' below 1e-6 and from 1e21
    on, format 'f' otherwise, the shortest digits, and an exponent without a
    leading zero. *)
Definition format_finite (neg : bool) (m e : Z) : string :=
  let '(d, p) := shortest m e in
  let ds := pretty d in
  let n := Z.of_nat (String.length ds) in
  let x10 := (n + p)%Z in
  let sign := if neg then "-" else "" in
  if (x10 <? -5)%Z || (21 <? x10)%Z then
    let ex := (x10 - 1)%Z in
    let frac := string_drop 1 ds in
    let mant := string_take 1 ds ++ (if String.eqb frac "" then "" else "." ++ frac) in
    sign ++ mant ++ "e" ++ (if (ex <? 0)%Z then "-" else "+") ++ pretty (Z.abs ex)
  else if (x10 <=? 0)%Z then
    sign ++ "0." ++ zeros (Z.to_nat (- x10)) ++ ds
  else if (n <=? x10)%Z then
    sign ++ ds ++ zeros (Z.to_nat (x10 - n))
  else
    sign ++ string_take (Z.to_nat x10) ds ++ "." ++ string_drop (Z.to_nat x10) ds.

(** [None]: NaN and the infinities have no JSON form. *)
Definition FormatFloat (f : float64) : option string :=
  match f with
  | S754_zero neg => Some (if neg then "-0" else "0")
  | S754_finite neg m e => Some (format_finite neg (Zpos m) e)
  | S754_infinity _ => None
  | S754_nan => None
  end.

(** * Package [encoding/json] *)

(** What an [interface{}] holds after decoding: nil, bool, float64, string,
    [[]interface{}] or [map[string]interface{}].  A map is kept as the list of
    its entries, one for a key; the order of the list has no meaning, the
    encoder sorts the entries by key. *)
#[warnings="-register-all"]
Inductive value : Type :=
| VNil
| VBool (b : bool)
| VFloat (f : float64)
| VString (s : string)
| VSlice (l : list value)
| VMap (m : list (string * value)).

Definition object : Type := list (string * value).

Fixpoint map_get (k : string) (m : object) : option value :=
  match m with
  | [] => None
  | (k', v) :: m' => if String.eqb k k' then Some v else map_get k m'
  end.

(** [m[k] = v]: the entry of [k] is replaced where it stands, a new key goes
    to the end. *)
Fixpoint map_set (k : string) (v : value) (m : object) : object :=
  match m with
  | [] => [(k, v)]
  | (k', v') :: m' =>
      if String.eqb k k' then (k, v) :: m' else (k', v') :: map_set k v m'
  end.

Fixpoint map_delete (k : string) (m : object) : object :=
  match m with
  | [] => []
  | (k', v') :: m' => if String.eqb k k' then m' else (k', v') :: map_delete k m'
  end.

(** ** Strings *)

Definition byte (n : N) : ascii := ascii_of_N n.
Definition code (c : ascii) : N := N_of_ascii c.
Definition in_range (lo hi : N) (c : ascii) : bool :=
  (lo <=? code c)%N && (code c <=? hi)%N.

(** [utf8.DecodeRune]: the size of the valid encoding that starts [s], or 0
    when [s] starts with no valid encoding ([RuneError] of width 1). *)
Definition utf8_size (s : string) : nat :=
  match s with
  | EmptyString => 0
  | String c0 s1 =>
      let cont c := in_range 128%N 191%N c in
      let second lo hi n :=
        match s1 with
        | String c1 s2 =>
            if in_range lo hi c1 then
              match n, s2 with
              | 2, _ => 2
              | 3, String c2 _ => if cont c2 then 3 else 0
              | 4, String c2 (String c3 _) => if cont c2 && cont c3 then 4 else 0
              | _, _ => 0
              end
            else 0
        | EmptyString => 0
        end%nat in
      let b := code c0 in
      if (b <? 128)%N then 1
      else if (b <? 194)%N then 0
      else if (b <? 224)%N then second 128%N 191%N 2
      else if (b =? 224)%N then second 160%N 191%N 3
      else if (b =? 237)%N then second 128%N 159%N 3
      else if (b <? 240)%N then second 128%N 191%N 3
      else if (b =? 240)%N then second 144%N 191%N 4
      else if (b <? 244)%N then second 128%N 191%N 4
      else if (b =? 244)%N then second 128%N 143%N 4
      else 0
  end%nat.

(** [utf8.EncodeRune]; the surrogates and what lies beyond U+10FFFF become
    U+FFFD. *)
Definition RuneError : N := 65533%N.

Definition EncodeRune (r : N) : string :=
  (let r := if (55296 <=? r) && (r <=? 57343) || (1114111 <? r) then RuneError else r in
   if r <? 128 then String (byte r) EmptyString
   else if r <? 2048 then
     String (byte (192 + r / 64)) (String (byte (128 + r mod 64)) EmptyString)
   else if r <? 65536 then
     String (byte (224 + r / 4096))
       (String (byte (128 + (r / 64) mod 64)) (String (byte (128 + r mod 64)) EmptyString))
   else
     String (byte (240 + r / 262144))
       (String (byte (128 + (r / 4096) mod 64))
         (String (byte (128 + (r / 64) mod 64))
           (String (byte (128 + r mod 64)) EmptyString))))%N.

Definition hex_val (c : ascii) : option N :=
  let n := code c in
  if in_range 48%N 57%N c then Some (n - 48)%N
  else if in_range 97%N 102%N c then Some (n - 87)%N
  else if in_range 65%N 70%N c then Some (n - 55)%N
  else None.

(** [getu4] on the four bytes after a backslash and [u]. *)
Definition getu4 (h1 h2 h3 h4 : ascii) : option N :=
  match hex_val h1, hex_val h2, hex_val h3, hex_val h4 with
  | Some a, Some b, Some c, Some d => Some (((a * 16 + b) * 16 + c) * 16 + d)%N
  | _, _, _, _ => None
  end.

Definition is_surrogate (r : N) : bool := (55296 <=? r)%N && (r <? 57344)%N.

(** [utf16.DecodeRune]: a high surrogate followed by a low one. *)
Definition utf16_DecodeRune (r1 r2 : N) : option N :=
  if (55296 <=? r1)%N && (r1 <? 56320)%N && (56320 <=? r2)%N && (r2 <? 57344)%N
  then Some ((r1 - 55296) * 1024 + (r2 - 56320) + 65536)%N
  else None.

Definition simple_escape (c : ascii) : option ascii :=
  match c with
  | "034"%char => Some "034"%char
  | "\"%char => Some "\"%char
  | "/"%char => Some "/"%char
  | "b"%char => Some "008"%char
  | "f"%char => Some "012"%char
  | "n"%char => Some "010"%char
  | "r"%char => Some "013"%char
  | "t"%char => Some "009"%char
  | _ => None
  end.

Definition app_fst (p : string) (r : option (string * string)) : option (string * string) :=
  match r with
  | Some (s, rest) => Some (p ++ s, rest)
  | None => None
  end.

(** The scanner's string state and [unquote] in one pass: [s] starts after
    the opening quote; the result is the decoded string and what follows the
    closing quote.  [skip] counts the continuation bytes of a valid UTF-8
    encoding that are still to be copied. *)
Fixpoint unquote (skip : nat) (s : string) : option (string * string) :=
  match s with
  | EmptyString => None
  | String c rest =>
      match skip with
      | S skip' => app_fst (String c EmptyString) (unquote skip' rest)
      | O =>
          if Ascii.eqb c "034" then Some (EmptyString, rest)
          else if Ascii.eqb c "\" then
            match rest with
            | String "u" (String h1 (String h2 (String h3 (String h4 rest2)))) =>
                match getu4 h1 h2 h3 h4 with
                | None => None
                | Some rr =>
                    if is_surrogate rr then
                      match rest2 with
                      | String "\" (String "u" (String g1 (String g2 (String g3 (String g4 rest3))))) =>
                          match getu4 g1 g2 g3 g4 with
                          | Some rr1 =>
                              match utf16_DecodeRune rr rr1 with
                              | Some dec => app_fst (EncodeRune dec) (unquote O rest3)
                              | None => app_fst (EncodeRune RuneError) (unquote O rest2)
                              end
                          | None => app_fst (EncodeRune RuneError) (unquote O rest2)
                          end
                      | _ => app_fst (EncodeRune RuneError) (unquote O rest2)
                      end
                    else app_fst (EncodeRune rr) (unquote O rest2)
                end
            | String e rest1 =>
                match simple_escape e with
                | Some b => app_fst (String b EmptyString) (unquote O rest1)
                | None => None
                end
            | EmptyString => None
            end
          else if (code c <? 32)%N then None
          else if (code c <? 128)%N then app_fst (String c EmptyString) (unquote O rest)
          else
            match utf8_size s with
            | O => app_fst (EncodeRune RuneError) (unquote O rest)
            | S n => app_fst (String c EmptyString) (unquote n rest)
            end
      end
  end.

(** ** Numbers *)

Fixpoint take_digits (s : string) : string * string :=
  match s with
  | String c s' =>
      if is_digit c then let '(d, rest) := take_digits s' in (String c d, rest)
      else (EmptyString, s)
  | EmptyString => (EmptyString, EmptyString)
  end.

(** The byte that starts [s], if any, and what follows it. *)
Definition uncons (s : string) : option (ascii * string) :=
  match s with
  | String c s' => Some (c, s')
  | EmptyString => None
  end.

Definition starts_with (c : ascii) (s : string) : option string :=
  match s with
  | String c' s' => if Ascii.eqb c c' then Some s' else None
  | EmptyString => None
  end.

(** The number states of the scanner: an optional minus, [0] or a digit from
    1 to 9 and digits, an optional fraction, an optional exponent. *)
Definition scan_number (s : string) : option (number_literal * string) :=
  let digits s' :=
    match take_digits s' with
    | (EmptyString, _) => None
    | (d, rest) => Some (d, rest)
    end in
  let '(neg, s1) :=
    match starts_with "-" s with
    | Some s' => (true, s')
    | None => (false, s)
    end in
  let int_part :=
    match starts_with "0" s1 with
    | Some s' => Some ("0", s')
    | None => digits s1
    end in
  match int_part with
  | None => None
  | Some (int, s2) =>
      let frac_part :=
        match starts_with "." s2 with
        | Some s' => digits s'
        | None => Some (EmptyString, s2)
        end in
      match frac_part with
      | None => None
      | Some (frac, s3) =>
          let exp_digits eneg s' :=
            match digits s' with
            | Some (d, rest) => Some (mkLit neg int frac eneg d, rest)
            | None => None
            end in
          let exp_part s' :=
            match starts_with "+" s' with
            | Some s'' => exp_digits false s''
            | None =>
                match starts_with "-" s' with
                | Some s'' => exp_digits true s''
                | None => exp_digits false s'
                end
            end in
          match uncons s3 with
          | Some (c, s') =>
              if Ascii.eqb c "e" || Ascii.eqb c "E" then exp_part s'
              else Some (mkLit neg int frac false EmptyString, s3)
          | None => Some (mkLit neg int frac false EmptyString, s3)
          end
      end
  end.

(** ** Decoding *)

Definition is_space (c : ascii) : bool :=
  match c with
  | " "%char | "009"%char | "013"%char | "010"%char => true
  | _ => false
  end.

Fixpoint skip_space (s : string) : string :=
  match s with
  | String c s' => if is_space c then skip_space s' else s
  | EmptyString => EmptyString
  end.

Definition maxNestingDepth : N := 10000%N.

(** One JSON value at the head of [s], decoded as into an [interface{}], and
    the rest of the input.  [fuel] bounds the nesting of the calls: a call is
    made on a shorter input, or follows one that was, so twice the length of
    the input and one is enough.  In an object a key met again replaces the
    earlier entry. *)
Fixpoint decode_value (fuel : nat) (depth : N) (s : string) {struct fuel}
  : option (value * string) :=
  match fuel with
  | O => None
  | S fuel' =>
      let s0 := skip_space s in
      match uncons s0 with
      | None => None
      | Some (c, rest) =>
          if Ascii.eqb c "{" then
            if (maxNestingDepth <=? depth)%N then None
            else
              match starts_with "}" (skip_space rest) with
              | Some rest' => Some (VMap [], rest')
              | None => decode_members fuel' (depth + 1)%N [] rest
              end
          else if Ascii.eqb c "[" then
            if (maxNestingDepth <=? depth)%N then None
            else
              match starts_with "]" (skip_space rest) with
              | Some rest' => Some (VSlice [], rest')
              | None => decode_elements fuel' (depth + 1)%N [] rest
              end
          else if Ascii.eqb c "034" then
            match unquote O rest with
            | Some (str, rest') => Some (VString str, rest')
            | None => None
            end
          else if strings_HasPrefix s0 "true" then Some (VBool true, string_drop 4 s0)
          else if strings_HasPrefix s0 "false" then Some (VBool false, string_drop 5 s0)
          else if strings_HasPrefix s0 "null" then Some (VNil, string_drop 4 s0)
          else
            match scan_number s0 with
            | Some (lit, rest') =>
                match ParseFloat lit with
                | Some f => Some (VFloat f, rest')
                | None => None
                end
            | None => None
            end
      end
  end
with decode_members (fuel : nat) (depth : N) (acc : list (string * value)) (s : string)
  {struct fuel} : option (value * string) :=
  match fuel with
  | O => None
  | S fuel' =>
      match starts_with "034" (skip_space s) with
      | None => None
      | Some rest =>
          match unquote O rest with
          | None => None
          | Some (key, rest1) =>
              match starts_with ":" (skip_space rest1) with
              | None => None
              | Some rest2 =>
                  match decode_value fuel' depth rest2 with
                  | None => None
                  | Some (v, rest3) =>
                      let acc' := map_set key v acc in
                      match uncons (skip_space rest3) with
                      | None => None
                      | Some (c, rest4) =>
                          if Ascii.eqb c "," then decode_members fuel' depth acc' rest4
                          else if Ascii.eqb c "}" then Some (VMap acc', rest4)
                          else None
                      end
                  end
              end
          end
      end
  end
with decode_elements (fuel : nat) (depth : N) (acc : list value) (s : string)
  {struct fuel} : option (value * string) :=
  match fuel with
  | O => None
  | S fuel' =>
      match decode_value fuel' depth s with
      | None => None
      | Some (v, rest) =>
          match uncons (skip_space rest) with
          | None => None
          | Some (c, rest') =>
              if Ascii.eqb c "," then decode_elements fuel' depth (v :: acc) rest'
              else if Ascii.eqb c "]" then Some (VSlice (rev (v :: acc)), rest')
              else None
          end
      end
  end.

(** What [json.Unmarshal(data, &chunk)] leaves for a fresh
    [chunk map[string]interface{}]: an error, or no error and the map, which
    stays nil when the text is [null]. *)
Inductive unmarshaled : Type :=
| UnmarshalError
| UnmarshalOk (chunk : option object).

Definition json_Unmarshal (data : string) : unmarshaled :=
  match decode_value (2 * String.length data + 1) 0%N data with
  | Some (v, rest) =>
      match skip_space rest with
      | EmptyString =>
          match v with
          | VMap m => UnmarshalOk (Some m)
          | VNil => UnmarshalOk None
          | _ => UnmarshalError
          end
      | _ => UnmarshalError
      end
  | None => UnmarshalError
  end.

(** ** Encoding *)

Definition hex_digit (n : N) : ascii :=
  if (n <? 10)%N then byte (48 + n) else byte (87 + n).

Definition escape_byte (c : ascii) : string :=
  match c with
  | "034"%char => "\" ++ String "034" EmptyString
  | "\"%char => "\\"
  | "008"%char => "\b"
  | "012"%char => "\f"
  | "010"%char => "\n"
  | "013"%char => "\r"
  | "009"%char => "\t"
  | _ =>
      if (code c <? 32)%N || Ascii.eqb c "<" || Ascii.eqb c ">" || Ascii.eqb c "&"
      then "\u00" ++ String (hex_digit (code c / 16)) (String (hex_digit (code c mod 16)) EmptyString)
      else String c EmptyString
  end.

(** The body of [appendString] with HTML escaping on, as [json.Marshal] has
    it.  [skip] bytes of an encoding already dealt with are copied when
    [copy] holds and dropped otherwise. *)
Fixpoint appendString (skip : nat) (copy : bool) (s : string) : string :=
  match s with
  | EmptyString => EmptyString
  | String c rest =>
      match skip with
      | S skip' =>
          if copy then String c (appendString skip' copy rest)
          else appendString skip' copy rest
      | O =>
          if (code c <? 128)%N then escape_byte c ++ appendString O true rest
          else
            match utf8_size s with
            | O => "\" ++ "ufffd" ++ appendString O true rest
            | S n =>
                if strings_HasPrefix s (String (byte 226) (String (byte 128) (String (byte 168) EmptyString)))
                then "\" ++ "u2028" ++ appendString n false rest
                else if strings_HasPrefix s (String (byte 226) (String (byte 128) (String (byte 169) EmptyString)))
                then "\" ++ "u2029" ++ appendString n false rest
                else String c (appendString n true rest)
            end
      end
  end.

Definition quote (s : string) : string :=
  String "034" (appendString O true s) ++ String "034" EmptyString.

Fixpoint insert_sorted (e : string * string) (l : list (string * string)) : list (string * string) :=
  match l with
  | [] => [e]
  | e' :: l' =>
      match String.compare (fst e) (fst e') with
      | Gt => e' :: insert_sorted e l'
      | _ => e :: l
      end
  end.

Definition sort_entries (l : list (string * string)) : list (string * string) :=
  fold_right insert_sorted [] l.

(** The encoder on what an [interface{}] holds; map entries are written in
    sorted key order.  [None] is the encoder's error: a float without a JSON
    form. *)
Fixpoint encode_value (v : value) : option string :=
  match v with
  | VNil => Some "null"
  | VBool b => Some (if b then "true" else "false")
  | VFloat f => FormatFloat f
  | VString s => Some (quote s)
  | VSlice l =>
      let fix go (l : list value) : option (list string) :=
        match l with
        | [] => Some []
        | x :: l' =>
            match encode_value x, go l' with
            | Some t, Some ts => Some (t :: ts)
            | _, _ => None
            end
        end in
      match go l with
      | Some ts => Some ("[" ++ String.concat "," ts ++ "]")
      | None => None
      end
  | VMap m =>
      let fix go (m : list (string * value)) : option (list (string * string)) :=
        match m with
        | [] => Some []
        | (k, x) :: m' =>
            match encode_value x, go m' with
            | Some t, Some ts => Some ((k, t) :: ts)
            | _, _ => None
            end
        end in
      match go m with
      | Some es =>
          Some ("{" ++ String.concat "," (map (fun e => quote (fst e) ++ ":" ++ snd e) (sort_entries es)) ++ "}")
      | None => None
      end
  end.

Definition json_Marshal (m : object) : option string := encode_value (VMap m).

Fixpoint dquote (s : string) : string :=
  match s with
  | EmptyString => EmptyString
  | String c s' => String (if Ascii.eqb c "'" then "034"%char else c) (dquote s')
  end.

(** * Package [net/http], as far as the recorder uses it *)

Module http.

Definition StatusOK : Z := 200.
Definition StatusBadRequest : Z := 400.
Definition StatusNotFound : Z := 404.
Definition StatusInternalServerError : Z := 500.

(** [url.Values.Get]: the first value of the key, the empty string when
    there is none. *)
Definition Values_Get (v : gmap string (list string)) (key : string) : string :=
  match v !! key with
  | Some (x :: _) => x
  | _ => EmptyString
  end.

(** The parts of a [*http.Request] that are read. *)
Record Request : Type := mkRequest {
  Method : string;
  URL_Path : string;
  URL_Query : gmap string (list string);
  UserAgent : string
}.

(** A response writer of some other type, seen through the calls it has
    received; [is_flusher] tells whether it is an [http.Flusher] too. *)
Inductive call : Type :=
| call_Write (b : string)
| call_WriteHeader (statusCode : Z)
| call_Flush.

Record conn : Type := mkConn {
  calls : list call;
  is_flusher : bool
}.

End http.

(** * Package [metrics] *)

(** An [http.ResponseWriter] is either a writer of some other type or a
    [*responseRecorder], which embeds a writer. *)
Inductive ResponseWriter : Type :=
| otherWriter (c : http.conn)
| recorderWriter (rr : responseRecorder)
with responseRecorder : Type :=
| mkResponseRecorder (inner : ResponseWriter) (body : string) (statusCode : Z).

Definition rr_ResponseWriter (rr : responseRecorder) : ResponseWriter :=
  let '(mkResponseRecorder w _ _) := rr in w.
Definition rr_body (rr : responseRecorder) : string :=
  let '(mkResponseRecorder _ b _) := rr in b.
Definition rr_statusCode (rr : responseRecorder) : Z :=
  let '(mkResponseRecorder _ _ c) := rr in c.

(** Whether the dynamic type of a writer is a pointer to [responseRecorder]:
    the [ok] of the type assertion. *)
Definition is_responseRecorder (rw : ResponseWriter) : bool :=
  match rw with
  | recorderWriter _ => true
  | otherWriter _ => false
  end.

(** [Write], [WriteHeader] and [Flush] of a writer; on a [*responseRecorder]
    they are the methods of the source, which keep a copy and forward. *)
Fixpoint Write (w : ResponseWriter) (b : string) : ResponseWriter :=
  match w with
  | otherWriter c =>
      otherWriter (http.mkConn (http.calls c ++ [http.call_Write b]) (http.is_flusher c))
  | recorderWriter (mkResponseRecorder inner body statusCode) =>
      recorderWriter (mkResponseRecorder (Write inner b) (body ++ b) statusCode)
  end.

Fixpoint WriteHeader (w : ResponseWriter) (statusCode : Z) : ResponseWriter :=
  match w with
  | otherWriter c =>
      otherWriter (http.mkConn (http.calls c ++ [http.call_WriteHeader statusCode]) (http.is_flusher c))
  | recorderWriter (mkResponseRecorder inner body _) =>
      recorderWriter (mkResponseRecorder (WriteHeader inner statusCode) body statusCode)
  end.

Definition is_Flusher (w : ResponseWriter) : bool :=
  match w with
  | otherWriter c => http.is_flusher c
  | recorderWriter _ => true
  end.

Fixpoint Flush (w : ResponseWriter) : ResponseWriter :=
  match w with
  | otherWriter c =>
      otherWriter (http.mkConn (http.calls c ++ [http.call_Flush]) (http.is_flusher c))
  | recorderWriter (mkResponseRecorder inner body statusCode) =>
      if is_Flusher inner
      then recorderWriter (mkResponseRecorder (Flush inner) body statusCode)
      else w
  end.

(** [time.Time], as the nanoseconds since the epoch that [UnixNano] gives. *)
Definition Time : Type := Z.

(** What an encoder returns: the text, or an error and its description. *)
Inductive encoded : Type :=
| Encoded (text : string)
| EncodeError (err : string).

(** What the package takes from its collaborators: the backend configuration
    type, its zero value and its JSON encoder, the name of the llama.cpp
    backend, the JSON encoder of [time.Time], and the spare capacity the
    runtime adds when [append] has to move a slice of a given capacity. *)
Class Collaborators : Type := {
  BackendConfiguration : Type;
  BackendConfiguration_zero : BackendConfiguration;
  BackendConfiguration_MarshalJSON : BackendConfiguration -> encoded;
  llamacpp_Name : string;
  Time_MarshalJSON : Time -> encoded;
  growslice_spare : nat -> nat
}.

Record RequestResponsePair : Type := mkPair {
  ID : string;
  Model : string;
  Method : string;
  URL : string;
  Request : string;
  Response : string;
  Timestamp : Time;
  StatusCode : Z;
  UserAgent : string
}.

Definition set_Response (response : string) (p : RequestResponsePair) : RequestResponsePair :=
  mkPair (ID p) (Model p) (Method p) (URL p) (Request p) response
         (Timestamp p) (StatusCode p) (UserAgent p).

Definition set_StatusCode (statusCode : Z) (p : RequestResponsePair) : RequestResponsePair :=
  mkPair (ID p) (Model p) (Method p) (URL p) (Request p) (Response p)
         (Timestamp p) statusCode (UserAgent p).

(** A slice header: the backing array, the index of the first element in it
    and the length.  The capacity is what the array holds from the first
    element on. *)
Record slice : Type := mkSlice {
  s_array : nat;
  s_off : nat;
  s_len : nat
}.

Inductive level : Type := Info | Warn | Error.

(** ** Stream reconstruction *)

Definition nl : string := String "010"%char EmptyString.

(** Indexing a map that may be nil. *)
Definition map_index (m : option object) (k : string) : option value :=
  match m with
  | Some m => map_get k m
  | None => None
  end.

(** The type assertions [x.([]interface{})], [x.(map[string]interface{})] and
    [x.(string)] with their [ok]. *)
Definition as_slice (x : option value) : option (list value) :=
  match x with Some (VSlice l) => Some l | _ => None end.
Definition as_map (x : option value) : option object :=
  match x with Some (VMap m) => Some m | _ => None end.
Definition as_string (x : option value) : option string :=
  match x with Some (VString s) => Some s | _ => None end.

(** The content fragment of a chunk, when
    [chunk["choices"][0]["delta"]["content"]] is there and is a string. *)
Definition delta_content (chunk : option object) : option string :=
  match as_slice (map_index chunk "choices") with
  | Some (c0 :: _) =>
      match as_map (Some c0) with
      | Some choice =>
          match as_map (map_get "delta" choice) with
          | Some delta => as_string (map_get "content" delta)
          | None => None
          end
      | None => None
      end
  | _ => None
  end.

(** The loop over the lines, with [contentBuilder] and [lastChunk]. *)
Fixpoint scan_lines (lines : list string) (contentBuilder : string) (lastChunk : option object)
  : string * option object :=
  match lines with
  | [] => (contentBuilder, lastChunk)
  | line :: lines' =>
      if strings_HasPrefix line "data: " then
        let data := strings_TrimPrefix line "data: " in
        if String.eqb data "[DONE]" then (contentBuilder, lastChunk)
        else
          match json_Unmarshal data with
          | UnmarshalError => scan_lines lines' contentBuilder lastChunk
          | UnmarshalOk chunk =>
              scan_lines lines'
                (contentBuilder ++ default EmptyString (delta_content chunk)) chunk
          end
      else scan_lines lines' contentBuilder lastChunk
  end.

(** [finalResponse], a new map filled by ranging over [lastChunk]. *)
Definition copy_chunk (lastChunk : object) : object :=
  fold_left (fun finalResponse kv => map_set (fst kv) (snd kv) finalResponse) lastChunk [].

(** The writes to [choice], the map the first choice refers to. *)
Definition first_choice (content : string) (choice : object) : object :=
  let choice :=
    map_set "message"
      (VMap [("role", VString "assistant"); ("content", VString content)])
      choice in
  let choice := map_delete "delta" choice in
  match map_get "finish_reason" choice with
  | Some _ => choice
  | None => map_set "finish_reason" (VString "stop") choice
  end.

(** The writes reach [finalResponse]: [choice] is the map the first element
    of the slice refers to, and the slice is the one [finalResponse] holds
    under ["choices"]. *)
Definition materialize (content : string) (finalResponse : object) : object :=
  match as_slice (map_get "choices" finalResponse) with
  | Some (c0 :: choices') =>
      match as_map (Some c0) with
      | Some choice =>
          map_set "choices" (VSlice (VMap (first_choice content choice) :: choices'))
            finalResponse
      | None => finalResponse
      end
  | _ => finalResponse
  end.

(** The object handed to the encoder, for a [lastChunk] that is not nil. *)
Definition rebuild (content : string) (lastChunk : object) : object :=
  let finalResponse := copy_chunk lastChunk in
  let finalResponse := materialize content finalResponse in
  map_set "object" (VString "chat.completion") finalResponse.

(** What follows the loop: a nil [lastChunk] and an encoder error both give
    the body back. *)
Definition finalize (streamingBody content : string) (lastChunk : option object) : string :=
  match lastChunk with
  | None => streamingBody
  | Some lastChunk =>
      match json_Marshal (rebuild content lastChunk) with
      | Some jsonResult => jsonResult
      | None => streamingBody
      end
  end.

Definition convertStreamingResponse (streamingBody : string) : string :=
  let lines := strings_Split streamingBody nl in
  let '(content, lastChunk) := scan_lines lines EmptyString None in
  finalize streamingBody content lastChunk.

(** ** The recorder *)

(** What the handler does with its writer: [http.Error(w, error, code)], or
    the body the encoder has written, the status being 200 then. *)
Inductive reply : Type :=
| reply_Error (error : string) (code : Z)
| reply_Body (body : string).

Section metrics.
Context `{Collaborators}.

Record ModelData : Type := mkModelData {
  Config : BackendConfiguration;
  Records : slice
}.

(** The recorder and the memory it lives in.  [records] maps a key to a
    [*ModelData], an index into [datas]; the elements of a
    [[]*RequestResponsePair] are in [arrays], each one nil ([None]) or an
    index into [pairs].  A cell is allocated at the end of its list and
    never freed.  [log] holds what has been sent to the logger.  The
    mutex is not modelled: the methods run one at a time. *)
Record OpenAIRecorder : Type := mkRecorder {
  log : list (level * string);
  records : runnermap.Map nat;
  datas : list ModelData;
  arrays : list (list (option nat));
  pairs : list RequestResponsePair
}.

Definition with_log (f : list (level * string) -> list (level * string))
           (r : OpenAIRecorder) : OpenAIRecorder :=
  mkRecorder (f (log r)) (records r) (datas r) (arrays r) (pairs r).
Definition with_records (f : runnermap.Map nat -> runnermap.Map nat)
           (r : OpenAIRecorder) : OpenAIRecorder :=
  mkRecorder (log r) (f (records r)) (datas r) (arrays r) (pairs r).
Definition with_datas (f : list ModelData -> list ModelData)
           (r : OpenAIRecorder) : OpenAIRecorder :=
  mkRecorder (log r) (records r) (f (datas r)) (arrays r) (pairs r).
Definition with_arrays (f : list (list (option nat)) -> list (list (option nat)))
           (r : OpenAIRecorder) : OpenAIRecorder :=
  mkRecorder (log r) (records r) (datas r) (f (arrays r)) (pairs r).
Definition with_pairs (f : list RequestResponsePair -> list RequestResponsePair)
           (r : OpenAIRecorder) : OpenAIRecorder :=
  mkRecorder (log r) (records r) (datas r) (arrays r) (f (pairs r)).

(** *** Statements: a state monad with panics *)

Inductive outcome (A : Type) : Type :=
| Returned (a : A) (r : OpenAIRecorder)
| Panicked (r : OpenAIRecorder).
Arguments Returned {A}.
Arguments Panicked {A}.

Definition M (A : Type) : Type := OpenAIRecorder -> outcome A.

Definition ret {A} (a : A) : M A := fun r => Returned a r.
Definition panic {A} : M A := fun r => Panicked r.
Definition bind {A B} (c : M A) (k : A -> M B) : M B :=
  fun r => match c r with
           | Returned a r' => k a r'
           | Panicked r' => Panicked r'
           end.

Notation "'let*' x ':=' c 'in' k" := (bind c (fun x => k))
  (at level 10, x name, c at level 100, k at level 200).
Notation "'do' c 'then' k" := (bind c (fun _ => k))
  (at level 10, c at level 100, k at level 200).

Definition modify (f : OpenAIRecorder -> OpenAIRecorder) : M unit :=
  fun r => Returned tt (f r).
Definition gets {A} (f : OpenAIRecorder -> A) : M A :=
  fun r => Returned (f r) r.
Definition lift {A} (o : option A) : M A :=
  match o with Some a => ret a | None => panic end.

(** A pointer is an index into the list of the cells of its type, or nil. *)
Definition deref {A} (h : list A) (p : option nat) : option A :=
  match p with Some a => h !! a | None => None end.

(** *** The logger *)
Definition Logf (l : level) (msg : string) : M unit :=
  modify (with_log (fun lg => (lg ++ [(l, msg)])%list)).

(** *** [*RequestResponsePair]; reading or writing through a nil pointer
    panics *)
Definition new_pair (p : RequestResponsePair) : M nat :=
  let* n := gets (fun r => length (pairs r)) in
  do modify (with_pairs (fun h => (h ++ [p])%list)) then
  ret n.

Definition load_pair (p : option nat) : M RequestResponsePair :=
  let* h := gets pairs in lift (deref h p).

Definition store_pair (p : option nat) (v : RequestResponsePair) : M unit :=
  do load_pair p then
  modify (with_pairs (fun h => match p with Some a => <[a := v]> h | None => h end)).

(** *** [*ModelData] *)
Definition new_data (d : ModelData) : M nat :=
  let* n := gets (fun r => length (datas r)) in
  do modify (with_datas (fun h => (h ++ [d])%list)) then
  ret n.

Definition load_data (p : option nat) : M ModelData :=
  let* h := gets datas in lift (deref h p).

Definition store_data (p : option nat) (v : ModelData) : M unit :=
  do load_data p then
  modify (with_datas (fun h => match p with Some a => <[a := v]> h | None => h end)).

(** *** Slices of [*RequestResponsePair] *)

(** [make([]*RequestResponsePair, len, cap)]: a new array of nil pointers. *)
Definition make (len cap : nat) : M slice :=
  let* n := gets (fun r => length (arrays r)) in
  do modify (with_arrays (fun h => (h ++ [replicate cap None])%list)) then
  ret (mkSlice n 0 len).

Definition load_array (s : slice) : M (list (option nat)) :=
  let* h := gets arrays in lift (h !! s_array s).

(** The elements of a slice, as [range] goes through them. *)
Definition elements (s : slice) : M (list (option nat)) :=
  let* a := load_array s in
  ret (take (s_len s) (drop (s_off s) a)).

Definition cap (s : slice) : M nat :=
  let* a := load_array s in
  ret (length a - s_off s).

(** [append(s, x)]: in place while the capacity allows it, into a new and
    larger array otherwise. *)
Definition append (s : slice) (x : option nat) : M slice :=
  let* a := load_array s in
  let* c := cap s in
  if (s_len s <? c)%nat then
    do modify (with_arrays (fun h => <[s_array s := <[s_off s + s_len s := x]> a]> h)) then
    ret (mkSlice (s_array s) (s_off s) (S (s_len s)))
  else
    let* es := elements s in
    let* n := gets (fun r => length (arrays r)) in
    do modify (with_arrays (fun h =>
         (h ++ [es ++ x :: replicate (growslice_spare c) None])%list)) then
    ret (mkSlice n 0 (S (s_len s))).

(** [s[low:]]; out of range panics. *)
Definition slice_from (s : slice) (low : nat) : M slice :=
  if (s_len s <? low)%nat then panic
  else ret (mkSlice (s_array s) (s_off s + low) (s_len s - low)).

(** [copy(dst, src)]: as many elements as the shorter one has. *)
Definition copy (dst src : slice) : M nat :=
  let* es := elements src in
  let* a := load_array dst in
  let n := min (s_len dst) (s_len src) in
  do modify (with_arrays (fun h =>
       <[s_array dst := (take (s_off dst) a ++ take n es ++ drop (s_off dst + n) a)%list]> h)) then
  ret n.

(** *** The map of records *)
Definition records_Get (key : runnermap.Key) : M (option nat) :=
  gets (fun r => runnermap.Map_Get key (records r)).

Definition records_Set (key : runnermap.Key) (value : nat) : M unit :=
  modify (with_records (runnermap.Map_Set key value)).

Definition records_Delete (key : runnermap.Key) : M unit :=
  modify (with_records (runnermap.Map_Delete key)).

(** *** The methods *)

Definition NewOpenAIRecorder (runnerMapNormalizeFn : string -> string) : OpenAIRecorder :=
  mkRecorder [] (runnermap.New runnerMapNormalizeFn) [] [] [].

(** [&ModelData{Records: make([]*RequestResponsePair, 0, 10),
    Config: inference.BackendConfiguration{}}] *)
Definition new_ModelData : M nat :=
  let* s := make 0 10 in
  new_data (mkModelData BackendConfiguration_zero s).

(** [config] is a pointer: [None] is nil. *)
Definition SetConfigForModel (runner : runnermap.Key) (config : option BackendConfiguration)
  : M unit :=
  match config with
  | None =>
      Logf Warn ("SetConfigForModel called with nil config for model "
                   ++ runnermap.Model runner)
  | Some c =>
      let* g := records_Get runner in
      do match g with
         | None => let* d := new_ModelData in records_Set runner d
         | Some _ => ret tt
         end then
      let* rr := records_Get runner in
      let* d := load_data rr in
      store_data rr (mkModelData c (Records d))
  end.

(** [now_id] and [now] are the two readings of [time.Now()]. *)
Definition RecordRequest (runner : runnermap.Key) (req : http.Request) (body : string)
           (now_id now : Time) : M string :=
  let recordID := runnermap.Model runner ++ "_" ++ pretty now_id in
  let* record := new_pair
    (mkPair recordID (runnermap.Model runner) (http.Method req) (http.URL_Path req)
            body EmptyString now 0%Z (http.UserAgent req)) in
  let* g := records_Get runner in
  do match g with
     | None => let* d := new_ModelData in records_Set runner d
     | Some _ => ret tt
     end then
  let* rr := records_Get runner in
  let* d := load_data rr in
  let* s := append (Records d) (Some record) in
  do store_data rr (mkModelData (Config d) s) then
  let* d := load_data rr in
  do (if (10 <? s_len (Records d))%nat then
        let* s := slice_from (Records d) 1 in
        store_data rr (mkModelData (Config d) s)
      else ret tt) then
  ret recordID.

Definition NewResponseRecorder (w : ResponseWriter) : ResponseWriter :=
  recorderWriter (mkResponseRecorder w EmptyString http.StatusOK).

(** The loop of [RecordResponse] over the records: the first one with the
    id gets the response and the status code; the result tells whether
    there was one. *)
Fixpoint fill_response (rs : list (option nat)) (id response : string) (statusCode : Z)
  : M bool :=
  match rs with
  | [] => ret false
  | record :: rs' =>
      let* p := load_pair record in
      if String.eqb (ID p) id then
        do store_pair record (set_StatusCode statusCode (set_Response response p)) then
        ret true
      else fill_response rs' id response statusCode
  end.

(** The type assertion of [rw] to a pointer to [responseRecorder] panics for
    a writer of another type. *)
Definition RecordResponse (id : string) (runner : runnermap.Key) (rw : ResponseWriter)
  : M unit :=
  match rw with
  | otherWriter _ => panic
  | recorderWriter rr =>
      let responseBody := rr_body rr in
      let statusCode := rr_statusCode rr in
      let response :=
        if strings_Contains responseBody "data: "
        then convertStreamingResponse responseBody
        else responseBody in
      let* g := records_Get runner in
      match g with
      | Some _ =>
          let* modelData := load_data g in
          let* rs := elements (Records modelData) in
          let* found := fill_response rs id response statusCode in
          if found then ret tt
          else
            Logf Error ("Matching request (id=" ++ id ++ ") not found for model "
                          ++ runnermap.Model runner ++ " - " ++ pretty statusCode
                          ++ nl ++ response)
      | None =>
          Logf Error ("Model " ++ runnermap.Model runner ++ " not found in records - "
                        ++ pretty statusCode ++ nl ++ response)
      end
  end.

Definition runnerKey (model : string) : runnermap.Key :=
  runnermap.mkKey llamacpp_Name model runnermap.BackendModeCompletion.

(** The result is a [*ModelData]: nil or a new cell. *)
Definition GetModelData (model : string) : M (option nat) :=
  let* g := records_Get (runnerKey model) in
  match g with
  | Some _ =>
      let* modelData := load_data g in
      let* records := make (s_len (Records modelData)) (s_len (Records modelData)) in
      do copy records (Records modelData) then
      let* d := new_data (mkModelData (Config modelData) records) in
      ret (Some d)
  | None => ret None
  end.

Definition RemoveModel (model : string) : M unit :=
  let* g := records_Get (runnerKey model) in
  match g with
  | Some _ =>
      do records_Delete (runnerKey model) then
      Logf Info ("Removed records for model: " ++ model)
  | None => Logf Warn ("No records found for model: " ++ model)
  end.

(** *** The query handler *)

(** The encoder on a [*RequestResponsePair]: [null] for nil, else the
    fields in the order of the struct, [user_agent] left out when empty. *)
Definition encode_pair (p : option RequestResponsePair) : encoded :=
  match p with
  | None => Encoded "null"
  | Some p =>
      match Time_MarshalJSON (Timestamp p) with
      | EncodeError e => EncodeError e
      | Encoded ts =>
          Encoded
            ("{" ++ quote "id" ++ ":" ++ quote (ID p)
                 ++ "," ++ quote "model" ++ ":" ++ quote (Model p)
                 ++ "," ++ quote "method" ++ ":" ++ quote (Method p)
                 ++ "," ++ quote "url" ++ ":" ++ quote (URL p)
                 ++ "," ++ quote "request" ++ ":" ++ quote (Request p)
                 ++ "," ++ quote "response" ++ ":" ++ quote (Response p)
                 ++ "," ++ quote "timestamp" ++ ":" ++ ts
                 ++ "," ++ quote "status_code" ++ ":" ++ pretty (StatusCode p)
                 ++ (if String.eqb (UserAgent p) EmptyString then EmptyString
                     else "," ++ quote "user_agent" ++ ":" ++ quote (UserAgent p))
                 ++ "}")
      end
  end.

Fixpoint encode_pairs (ps : list (option RequestResponsePair)) : list string + string :=
  match ps with
  | [] => inl []
  | p :: ps' =>
      match encode_pair p with
      | EncodeError e => inr e
      | Encoded t =>
          match encode_pairs ps' with
          | inl ts => inl (t :: ts)
          | inr e => inr e
          end
      end
  end.

(** The value handed to the encoder:
    [map[string]interface{}{"model": .., "records": .., "count": .., "config": ..}],
    the records seen through their pointers. *)
Record payload : Type := mkPayload {
  payload_model : string;
  payload_records : list (option RequestResponsePair);
  payload_count : Z;
  payload_config : BackendConfiguration
}.

(** [json.NewEncoder(w).Encode]: the keys of the map in sorted order and a
    newline at the end. *)
Definition Encode (v : payload) : encoded :=
  match BackendConfiguration_MarshalJSON (payload_config v) with
  | EncodeError e => EncodeError e
  | Encoded cfg =>
      match encode_pairs (payload_records v) with
      | inr e => EncodeError e
      | inl ts =>
          Encoded
            ("{" ++ quote "config" ++ ":" ++ cfg
                 ++ "," ++ quote "count" ++ ":" ++ pretty (payload_count v)
                 ++ "," ++ quote "model" ++ ":" ++ quote (payload_model v)
                 ++ "," ++ quote "records" ++ ":" ++ "[" ++ String.concat "," ts ++ "]"
                 ++ "}" ++ nl)
      end
  end.

(** The records behind the pointers of a slice; a nil pointer stays nil. *)
Definition pointees (rs : list (option nat)) : M (list (option RequestResponsePair)) :=
  let* h := gets pairs in
  ret (map (deref h) rs).

(** The handler, on the request; the content type header it sets first is
    left out. *)
Definition GetRecordsByModelHandler (req : http.Request) : M reply :=
  let model := http.Values_Get (http.URL_Query req) "model" in
  if String.eqb model EmptyString then
    ret (reply_Error "A 'model' query parameter is required" http.StatusBadRequest)
  else
    let* modelData := GetModelData model in
    match modelData with
    | None =>
        ret (reply_Error ("No records found for model '" ++ model ++ "'")
                         http.StatusNotFound)
    | Some _ =>
        let* d := load_data modelData in
        let* rs := elements (Records d) in
        let* ps := pointees rs in
        match Encode (mkPayload model ps (Z.of_nat (s_len (Records d))) (Config d)) with
        | Encoded body => ret (reply_Body body)
        | EncodeError err =>
            ret (reply_Error ("Failed to encode records for model '" ++ model ++ "': " ++ err)
                             http.StatusInternalServerError)
        end
    end.

End metrics.

Arguments Returned {H A} a r.
Arguments Panicked {H A} r.

(** * Notions the properties are stated with *)

(** The keys of a map of JSON values. *)
Definition keys (m : object) : list string := map fst m.

(** A float64 that is a number: neither NaN nor an infinity. *)
Definition is_finite (f : float64) : bool :=
  match f with
  | S754_zero _ | S754_finite _ _ _ => true
  | S754_infinity _ | S754_nan => false
  end.

(** What the decoder builds: at every depth a map has one entry for a key
    and a number is finite. *)
Fixpoint decoded (v : value) : Prop :=
  match v with
  | VNil | VBool _ | VString _ => True
  | VFloat f => is_finite f = true
  | VSlice l => fold_right (fun x P => decoded x /\ P) True l
  | VMap m => NoDup (keys m) /\ fold_right (fun e P => decoded (snd e) /\ P) True m
  end.

(** A text without a line feed. *)
Definition single_line (s : string) : Prop := strings_Contains s nl = false.

(** A line that carries a chunk: it has the data prefix and what follows
    decodes without error. *)
Definition parses_as_chunk (line : string) : bool :=
  strings_HasPrefix line "data: " &&
  match json_Unmarshal (strings_TrimPrefix line "data: ") with
  | UnmarshalOk _ => true
  | UnmarshalError => false
  end.

(** A line that carries something that is neither the terminator nor a
    chunk. *)
Definition malformed_chunk (line : string) : bool :=
  strings_HasPrefix line "data: " &&
  negb (String.eqb (strings_TrimPrefix line "data: ") "[DONE]") &&
  match json_Unmarshal (strings_TrimPrefix line "data: ") with
  | UnmarshalOk _ => false
  | UnmarshalError => true
  end.

(** A text [member] of the chunk is reproduced when the output contains it
    byte for byte. *)
Definition reproduces (out member : string) : bool := strings_Contains out member.


Section memory.
Context `{Collaborators}.
Local Open Scope list_scope.
Local Open Scope nat_scope.

(** The pointers a slice holds. *)
Definition slots_of (arrs : list (list (option nat))) (s : slice) : list (option nat) :=
  match arrs !! s_array s with
  | Some a => take (s_len s) (drop (s_off s) a)
  | None => []
  end.

(** The pointers of the records kept for a key, oldest first; none when the
    key has no entry. *)
Definition slots (r : OpenAIRecorder) (runner : runnermap.Key) : list (option nat) :=
  match runnermap.Map_Get runner (records r) with
  | Some p =>
      match datas r !! p with
      | Some d => slots_of (arrays r) (Records d)
      | None => []
      end
  | None => []
  end.

(** The records kept for a key, seen through the pointers. *)
Definition history (r : OpenAIRecorder) (runner : runnermap.Key)
  : list (option RequestResponsePair) :=
  map (deref (pairs r)) (slots r runner).

(** The first pointer of [rs] whose record has the id. *)
Fixpoint first_match (h : list RequestResponsePair) (id : string) (rs : list (option nat))
  : option nat :=
  match rs with
  | [] => None
  | e :: rs' =>
      match deref h e with
      | Some v => if String.eqb (ID v) id then e else first_match h id rs'
      | None => None
      end
  end.

(** Well-formed memory: every [*ModelData] in the map is allocated, its
    slice lies within its array and holds at most 10 pointers, none of them
    nil, each to an allocated record. *)
Definition ptr_ok (npairs : nat) (e : option nat) : Prop :=
  match e with
  | Some n => n < npairs
  | None => False
  end.

Definition slice_ok (arrs : list (list (option nat))) (npairs : nat) (s : slice) : Prop :=
  match arrs !! s_array s with
  | Some a =>
      s_off s + s_len s <= length a /\ s_len s <= 10 /\
      Forall (ptr_ok npairs) (take (s_len s) (drop (s_off s) a))
  | None => False
  end.

Definition data_ok (r : OpenAIRecorder) (p : nat) : Prop :=
  match datas r !! p with
  | Some d => slice_ok (arrays r) (length (pairs r)) (Records d)
  | None => False
  end.

Definition wf (r : OpenAIRecorder) : Prop :=
  map_Forall (fun _ p => data_ok r p) (runnermap.m (records r)).

#[global] Instance ptr_ok_dec n e : Decision (ptr_ok n e).
Proof. destruct e; simpl; apply _. Defined.

#[global] Instance slice_ok_dec arrs n s : Decision (slice_ok arrs n s).
Proof. unfold slice_ok. destruct (arrs !! s_array s); simpl; apply _. Defined.

#[global] Instance data_ok_dec r p : Decision (data_ok r p).
Proof. unfold data_ok. destruct (datas r !! p); simpl; apply _. Defined.

#[global] Instance wf_dec r : Decision (wf r).
Proof. unfold wf. apply _. Defined.

(** The last ten elements of a list. *)
Definition last10 {A} (l : list A) : list A := drop (length l - 10) l.

(** The response that [RecordResponse] stores for a captured body. *)
Definition response_of (responseBody : string) : string :=
  if strings_Contains responseBody "data: "
  then convertStreamingResponse responseBody
  else responseBody.

(** The statements of [RecordRequest] that follow the making of the
    entry. *)
Definition RecordRequest_tail (runner : runnermap.Key) (record : nat) (recordID : string)
  : M string :=
  bind (records_Get runner) (fun rr =>
  bind (load_data rr) (fun d =>
  bind (append (Records d) (Some record)) (fun s =>
  bind (store_data rr (mkModelData (Config d) s)) (fun _ =>
  bind (load_data rr) (fun d =>
  bind (if 10 <? s_len (Records d) then
          bind (slice_from (Records d) 1) (fun s =>
          store_data rr (mkModelData (Config d) s))
        else ret tt) (fun _ =>
  ret recordID)))))).

Definition new_record (runner : runnermap.Key) (req : http.Request) (body : string)
           (now_id now : Time) : RequestResponsePair :=
  mkPair (runnermap.Model runner +:+ "_" +:+ pretty now_id) (runnermap.Model runner)
         (http.Method req) (http.URL_Path req) body "" now 0%Z (http.UserAgent req).

End memory.

(** ** Sequences of captures *)

(** What one call of [RecordRequest] takes besides the key: the request, the
    body and the two readings of the clock. *)
Record capture : Type := mkCapture {
  c_req : http.Request;
  c_body : string;
  c_now_id : Time;
  c_now : Time
}.

Section captures.
Context `{Collaborators}.

(** The captures of a list, one after the other, against one key; the
    result is the list of the ids. *)
Fixpoint capture_all (runner : runnermap.Key) (cs : list capture) : M (list string) :=
  match cs with
  | [] => ret []
  | c :: cs' =>
      bind (RecordRequest runner (c_req c) (c_body c) (c_now_id c) (c_now c)) (fun id =>
      bind (capture_all runner cs') (fun ids =>
      ret (id :: ids)))
  end.

(** The record that a capture makes. *)
Definition record_of (runner : runnermap.Key) (c : capture) : RequestResponsePair :=
  new_record runner (c_req c) (c_body c) (c_now_id c) (c_now c).

(** The state an outcome ends in. *)
Definition state_of {A} (o : outcome A) : OpenAIRecorder :=
  match o with
  | Returned _ r => r
  | Panicked r => r
  end.

(** The value an outcome returns; none after a panic. *)
Definition value_of {A} (o : outcome A) : option A :=
  match o with
  | Returned a _ => Some a
  | Panicked _ => None
  end.

End captures.

(** ** An instance for the examples *)

(** The configuration is a context size, times are encoded as numbers, and a
    slice that has to move doubles its capacity. *)
#[global] Instance example_collaborators : Collaborators := {|
  BackendConfiguration := Z;
  BackendConfiguration_zero := 0%Z;
  BackendConfiguration_MarshalJSON := fun c => Encoded (pretty c);
  llamacpp_Name := "llama.cpp";
  Time_MarshalJSON := fun t => Encoded (pretty t);
  growslice_spare := fun c => (c - 1)%nat
|}.

Definition example_key : runnermap.Key :=
  runnermap.mkKey "llama.cpp" "ai/smollm2" runnermap.BackendModeCompletion.

Definition example_request : http.Request :=
  http.mkRequest "POST" "/engines/v1/chat/completions" ∅ "curl/8.5.0".

(** The capture number [n], at time [n]. *)
Definition example_capture (n : nat) : capture :=
  mkCapture example_request (dquote "{'n':" ++ pretty n ++ "}") (Z.of_nat n) (Z.of_nat n).

(** The recorder after the captures 1 to [n] against [example_key]. *)
Definition example_recorder (n : nat) : OpenAIRecorder :=
  state_of (capture_all example_key (map example_capture (seq 1 n))
                        (NewOpenAIRecorder ToLower)).

(** ** Queries and what a caller may do with their result *)

Section queries.
Context `{Collaborators}.
Local Open Scope list_scope.
Local Open Scope nat_scope.

(** The status the client gets for a reply. *)
Definition status_of (rp : reply) : Z :=
  match rp with
  | reply_Error _ code => code
  | reply_Body _ => http.StatusOK
  end.

(** The reply the handler gives for a model whose key has an entry. *)
Definition reply_for (model : string) (cfg : BackendConfiguration)
           (rs : list (option RequestResponsePair)) : reply :=
  match Encode (mkPayload model rs (Z.of_nat (length rs)) cfg) with
  | Encoded body => reply_Body body
  | EncodeError err =>
      reply_Error ("Failed to encode records for model '" +:+ model +:+ "': " +:+ err)
                  http.StatusInternalServerError
  end.

(** The configuration kept for a key. *)
Definition stored_config (r : OpenAIRecorder) (runner : runnermap.Key)
  : option BackendConfiguration :=
  match runnermap.Map_Get runner (records r) with
  | Some p => Config <$> datas r !! p
  | None => None
  end.






End queries.

Section privacy.
Context `{Collaborators}.
Local Open Scope list_scope.
Local Open Scope nat_scope.


End privacy.

(** * Sequences of calls *)

(** ** On a map of runners *)

Inductive map_op (T : Type) : Type :=
| op_Set (key : runnermap.Key) (value : T)
| op_Delete (key : runnermap.Key).
Arguments op_Set {T} key value.
Arguments op_Delete {T} key.

Definition map_step {T} (rm : runnermap.Map T) (o : map_op T) : runnermap.Map T :=
  match o with
  | op_Set key value => runnermap.Map_Set key value rm
  | op_Delete key => runnermap.Map_Delete key rm
  end.

(** The map after the calls of a list, the first one first. *)
Definition map_run {T} (ops : list (map_op T)) (rm : runnermap.Map T) : runnermap.Map T :=
  fold_left map_step ops rm.

(** ** On a response writer *)

(** A call of one of the three methods. *)
Definition perform (w : ResponseWriter) (c : http.call) : ResponseWriter :=
  match c with
  | http.call_Write b => Write w b
  | http.call_WriteHeader statusCode => WriteHeader w statusCode
  | http.call_Flush => Flush w
  end.

Definition perform_all (cs : list http.call) (w : ResponseWriter) : ResponseWriter :=
  fold_left perform cs w.

(** The bytes that the [Write] calls of a list carry, in order. *)
Fixpoint written (cs : list http.call) : string :=
  match cs with
  | [] => EmptyString
  | http.call_Write b :: cs' => b ++ written cs'
  | _ :: cs' => written cs'
  end.

(** The status of the last [WriteHeader] call of a list, [dflt] when it has
    none. *)
Fixpoint last_status (dflt : Z) (cs : list http.call) : Z :=
  match cs with
  | [] => dflt
  | http.call_WriteHeader statusCode :: cs' => last_status statusCode cs'
  | _ :: cs' => last_status dflt cs'
  end.

(** The calls that reach the writer behind a recorder: all of them when it
    is an [http.Flusher], all but the [Flush] calls otherwise. *)
Definition forwarded (flusher : bool) (cs : list http.call) : list http.call :=
  List.filter (fun c => match c with http.call_Flush => flusher | _ => true end) cs.

(** ** On a streamed body *)

(** The line of a server-sent event that carries [data]. *)
Definition data_line (data : string) : string := "data: " ++ data.

(** What the chunks of a list add to the content, in order. *)
Definition fragments (chunks : list (option object)) : string :=
  String.concat EmptyString (map (fun chunk => default EmptyString (delta_content chunk)) chunks).

(** Whether the writes to the first choice take place: the chunk has a
    [choices] slice that is not empty and starts with a map. *)
Definition has_first_choice (chunk : object) : bool :=
  match as_slice (map_get "choices" chunk) with
  | Some (VMap _ :: _) => true
  | _ => false
  end.

(** ** On a recorder *)

Section calls.
Context `{Collaborators}.
Local Open Scope list_scope.
Local Open Scope nat_scope.

(** A call of one of the methods of the recorder; the writer of
    [RecordResponse] is one that [NewResponseRecorder] has made, seen
    through the recorder it points to. *)
Inductive call : Type :=
| call_SetConfigForModel (runner : runnermap.Key) (config : option BackendConfiguration)
| call_RecordRequest (runner : runnermap.Key) (req : http.Request) (body : string)
                     (now_id now : Time)
| call_RecordResponse (id : string) (runner : runnermap.Key) (rr : responseRecorder)
| call_GetModelData (model : string)
| call_RemoveModel (model : string)
| call_GetRecordsByModelHandler (req : http.Request).

Definition run_call (c : call) : M unit :=
  match c with
  | call_SetConfigForModel runner config => SetConfigForModel runner config
  | call_RecordRequest runner req body now_id now =>
      bind (RecordRequest runner req body now_id now) (fun _ => ret tt)
  | call_RecordResponse id runner rr => RecordResponse id runner (recorderWriter rr)
  | call_GetModelData model => bind (GetModelData model) (fun _ => ret tt)
  | call_RemoveModel model => RemoveModel model
  | call_GetRecordsByModelHandler req =>
      bind (GetRecordsByModelHandler req) (fun _ => ret tt)
  end.

(** The calls of a list, the first one first. *)
Fixpoint run_calls (cs : list call) : M unit :=
  match cs with
  | [] => ret tt
  | c :: cs' => bind (run_call c) (fun _ => run_calls cs')
  end.

(** The key whose entry a call works on; a query changes no entry. *)
Definition key_of (c : call) : option runnermap.Key :=
  match c with
  | call_SetConfigForModel runner _ => Some runner
  | call_RecordRequest runner _ _ _ _ => Some runner
  | call_RecordResponse _ runner _ => Some runner
  | call_RemoveModel model => Some (runnerKey model)
  | call_GetModelData _ => None
  | call_GetRecordsByModelHandler _ => None
  end.

(** The pointers of the slice of a [*ModelData]. *)
Definition slots_at (r : OpenAIRecorder) (p : nat) : list (option nat) :=
  match datas r !! p with
  | Some d => slots_of (arrays r) (Records d)
  | None => []
  end.

(** The entries of two keys share nothing: they are two cells, with two
    arrays, and no record is in both. *)
Definition separate (r : OpenAIRecorder) : Prop :=
  forall k1 k2 p1 p2,
    k1 <> k2 ->
    runnermap.m (records r) !! k1 = Some p1 ->
    runnermap.m (records r) !! k2 = Some p2 ->
    p1 <> p2 /\
    (forall d1 d2, datas r !! p1 = Some d1 -> datas r !! p2 = Some d2 ->
                   s_array (Records d1) <> s_array (Records d2)) /\
    (forall e, e ∈ slots_at r p1 -> e ∉ slots_at r p2).

(** What the key [k] of the map reaches is in [r'] as it is in [r]: the
    entry, the cell, the array of its slice and the records. *)
Definition untouched (r r' : OpenAIRecorder) (k : runnermap.Key) : Prop :=
  runnermap.m (records r') !! k = runnermap.m (records r) !! k /\
  forall p d, runnermap.m (records r) !! k = Some p -> datas r !! p = Some d ->
    datas r' !! p = Some d /\
    arrays r' !! s_array (Records d) = arrays r !! s_array (Records d) /\
    (forall e, e ∈ slots_at r p -> deref (pairs r') e = deref (pairs r) e).

(** Where a step from [r] to [r'] may have written: a cell that no key
    has and an array that no entry has are kept, and an entry of [r'] is
    made of what its key had in [r] or of cells and arrays made since. *)
Definition footprint (r r' : OpenAIRecorder) : Prop :=
  (forall q d, datas r !! q = Some d ->
     (forall k, runnermap.m (records r) !! k <> Some q) -> datas r' !! q = Some d) /\
  (forall j a, arrays r !! j = Some a ->
     (forall k p d, runnermap.m (records r) !! k = Some p -> datas r !! p = Some d ->
                    s_array (Records d) <> j) ->
     arrays r' !! j = Some a) /\
  (forall k p', runnermap.m (records r') !! k = Some p' ->
     (runnermap.m (records r) !! k = Some p' \/ length (datas r) <= p') /\
     (forall d', datas r' !! p' = Some d' ->
        (exists p d, runnermap.m (records r) !! k = Some p /\ datas r !! p = Some d /\
                     s_array (Records d') = s_array (Records d)) \/
        length (arrays r) <= s_array (Records d'))).

(** What a call leaves when it works on the entry of [target], a key of
    the map, or on none: memory that is well formed and separate, the same
    normalization, every other key untouched, and writes within the
    footprint. *)
Definition step_ok (target : option runnermap.Key) (r r' : OpenAIRecorder) : Prop :=
  wf r' /\ separate r' /\
  runnermap.normalizeFn (records r') = runnermap.normalizeFn (records r) /\
  (forall k, target <> Some k -> untouched r r' k) /\
  footprint r r'.

(** A [*ModelData] that no key has, with an array that no entry has: what
    a query has returned. *)
Definition detached (r : OpenAIRecorder) (q : nat) : Prop :=
  exists dq,
    datas r !! q = Some dq /\
    is_Some (arrays r !! s_array (Records dq)) /\
    forall k p, runnermap.m (records r) !! k = Some p ->
      p <> q /\
      forall d, datas r !! p = Some d -> s_array (Records d) <> s_array (Records dq).

End calls.

(** * Proofs *)

(** * Facts about the map of runners *)

Section runnermap_facts.
Import runnermap.

Lemma same_slot_normalizeKey {T} (rm : Map T) k1 k2 :
  same_slot rm k1 k2 -> normalizeKey rm k1 = normalizeKey rm k2.
Proof.
  intros (Hb & Hm & Hn). unfold normalizeKey. by rewrite Hb, Hm, Hn.
Qed.

Lemma normalizeKey_Set {T} (rm : Map T) k v k' :
  normalizeKey (Map_Set k v rm) k' = normalizeKey rm k'.
Proof. reflexivity. Qed.

Lemma normalizeKey_Delete {T} (rm : Map T) k k' :
  normalizeKey (Map_Delete k rm) k' = normalizeKey rm k'.
Proof. reflexivity. Qed.

Lemma Get_Set_same {T} (rm : Map T) k1 k2 v :
  normalizeKey rm k1 = normalizeKey rm k2 ->
  Map_Get k2 (Map_Set k1 v rm) = Some v.
Proof.
  intros E. unfold Map_Get. rewrite normalizeKey_Set, <- E. simpl.
  apply lookup_insert_eq.
Qed.

Lemma Get_Set_other {T} (rm : Map T) k1 k2 v :
  normalizeKey rm k1 <> normalizeKey rm k2 ->
  Map_Get k2 (Map_Set k1 v rm) = Map_Get k2 rm.
Proof.
  intros E. unfold Map_Get. rewrite normalizeKey_Set. simpl.
  by apply lookup_insert_ne.
Qed.

Lemma Items_m {T} (rm : Map T) : Map_Items rm = m rm.
Proof.
  unfold Map_Items.
  apply (map_fold_weak_ind (fun r mm => r = mm)); [done|].
  by intros i x mm r Hi ->.
Qed.

(** C9: [Set], [Get] and [Delete] work on the key whose model has been
    normalized; so for two keys that differ only in model spellings with the
    same normal form, [Get] with one after [Set] with the other returns the
    stored value, [GetInitialModel] returns the raw model string of the last
    [Set], and [Delete] with one removes what was stored with the other. *)
Theorem C9_normalized_map {T : Type} (rm : Map T) (k1 k2 : Key) (v : T) :
  same_slot rm k1 k2 ->
  m (Map_Set k1 v rm) = <[normalizeKey rm k1 := v]> (m rm) /\
  Map_Get k2 rm = m rm !! normalizeKey rm k2 /\
  m (Map_Delete k1 rm) = delete (normalizeKey rm k1) (m rm) /\
  Map_Get k2 (Map_Set k1 v rm) = Some v /\
  Map_GetInitialModel k2 (Map_Set k1 v rm) = Model k1 /\
  (forall v', Map_GetInitialModel k1 (Map_Set k2 v' (Map_Set k1 v rm)) = Model k2) /\
  Map_Get k2 (Map_Delete k1 (Map_Set k2 v rm)) = None /\
  Map_GetInitialModel k2 (Map_Delete k1 (Map_Set k2 v rm)) = "".
Proof.
  intros Hs. pose proof (same_slot_normalizeKey rm k1 k2 Hs) as E.
  repeat split.
  - by apply Get_Set_same.
  - unfold Map_GetInitialModel. rewrite normalizeKey_Set, <- E. simpl.
    by rewrite lookup_insert_eq.
  - intros v'. unfold Map_GetInitialModel.
    rewrite !normalizeKey_Set. simpl. rewrite !normalizeKey_Set, E.
    by rewrite lookup_insert_eq.
  - unfold Map_Get. rewrite normalizeKey_Delete, normalizeKey_Set. simpl.
    rewrite normalizeKey_Set, E. by rewrite lookup_delete_eq.
  - unfold Map_GetInitialModel.
    rewrite normalizeKey_Delete, normalizeKey_Set. simpl.
    rewrite normalizeKey_Set, E. by rewrite lookup_delete_eq.
Qed.

Lemma C9_normalized_map_witness :
  let rm : Map nat := New ToLower in
  let k1 := mkKey "llama.cpp" "AI/SmolLM2" BackendModeCompletion in
  let k2 := mkKey "llama.cpp" "ai/smollm2" BackendModeCompletion in
  same_slot rm k1 k2 /\
  Map_Get k2 (Map_Set k1 7 rm) = Some 7 /\
  Map_GetInitialModel k2 (Map_Set k1 7 rm) = "AI/SmolLM2".
Proof.
  intros rm k1 k2.
  assert (Hs : same_slot rm k1 k2) by (repeat split; reflexivity).
  split; [exact Hs|].
  destruct (C9_normalized_map rm k1 k2 7 Hs) as (_ & _ & _ & Hg & Hi & _).
  split; [exact Hg | exact Hi].
Defined.

End runnermap_facts.

(** * Facts about maps of JSON values *)

Section objects.
Local Open Scope list_scope.

Lemma map_get_set_eq k v m : map_get k (map_set k v m) = Some v.
Proof.
  induction m as [|[k' v'] m IH]; simpl.
  - by rewrite String.eqb_refl.
  - destruct (String.eqb k k') eqn:E; simpl.
    + by rewrite String.eqb_refl.
    + by rewrite E.
Qed.

Lemma map_get_set_ne k k' v m : k <> k' -> map_get k (map_set k' v m) = map_get k m.
Proof.
  intros Hne. induction m as [|[k0 v0] m IH]; simpl.
  - apply String.eqb_neq in Hne. by rewrite Hne.
  - destruct (String.eqb k' k0) eqn:E; simpl.
    + apply String.eqb_eq in E. subst k0.
      apply String.eqb_neq in Hne. by rewrite Hne.
    + by rewrite IH.
Qed.


Lemma map_set_fresh k v m : k ∉ keys m -> map_set k v m = m ++ [(k, v)].
Proof.
  induction m as [|[k' v'] m IH]; simpl; [done|].
  rewrite not_elem_of_cons. intros [Hne Hnin].
  apply String.eqb_neq in Hne. rewrite Hne. by rewrite IH.
Qed.

Lemma keys_map_set k v m :
  keys (map_set k v m) = if bool_decide (k ∈ keys m) then keys m else keys m ++ [k].
Proof.
  induction m as [|[k' v'] m IH]; simpl; [done|].
  destruct (String.eqb k k') eqn:E; simpl.
  - apply String.eqb_eq in E. subst k'.
    rewrite bool_decide_eq_true_2; [done | apply elem_of_cons; by left].
  - apply String.eqb_neq in E. rewrite IH.
    destruct (bool_decide (k ∈ keys m)) eqn:B.
    + apply bool_decide_eq_true in B.
      rewrite bool_decide_eq_true_2; [done | apply elem_of_cons; by right].
    + apply bool_decide_eq_false in B.
      rewrite bool_decide_eq_false_2; [done|].
      rewrite elem_of_cons. intros [?|?]; done.
Qed.

Lemma NoDup_keys_map_set k v m : NoDup (keys m) -> NoDup (keys (map_set k v m)).
Proof.
  intros Hnd. rewrite keys_map_set. case_bool_decide as B; [done|].
  apply NoDup_app. split; [done|]. split.
  - intros x Hx Hk. apply list_elem_of_singleton in Hk. by subst.
  - apply NoDup_singleton.
Qed.

Lemma copy_chunk_from acc m :
  NoDup (keys (acc ++ m)) ->
  fold_left (fun finalResponse kv => map_set (fst kv) (snd kv) finalResponse) m acc = acc ++ m.
Proof.
  revert acc. induction m as [|[k v] m IH]; intros acc Hnd; simpl.
  - by rewrite app_nil_r.
  - rewrite map_set_fresh.
    + rewrite IH; rewrite <- app_assoc; done.
    + unfold keys in Hnd. rewrite map_app in Hnd. simpl in Hnd.
      apply NoDup_app in Hnd as (_ & Hd & _).
      intros Hin. apply (Hd k Hin). apply elem_of_cons; by left.
Qed.

Lemma copy_chunk_id m : NoDup (keys m) -> copy_chunk m = m.
Proof. intros Hnd. unfold copy_chunk. by rewrite copy_chunk_from. Qed.

Lemma map_get_delete_ne k k' m : k <> k' -> map_get k (map_delete k' m) = map_get k m.
Proof.
  intros Hne. induction m as [|[k0 v0] m IH]; simpl; [done|].
  destruct (String.eqb k' k0) eqn:E; simpl.
  - apply String.eqb_eq in E. subst k0.
    apply String.eqb_neq in Hne. by rewrite Hne.
  - by rewrite IH.
Qed.


End objects.
(** * Facts about decoding *)

Section decoding.
Local Open Scope list_scope.

Lemma decode_members_keys fuel depth acc s v rest :
  decode_members fuel depth acc s = Some (v, rest) ->
  NoDup (keys acc) ->
  exists m, v = VMap m /\ NoDup (keys m).
Proof.
  revert depth acc s. induction fuel as [|fuel IH]; intros depth acc s; simpl; [done|].
  intros Hd Hnd. repeat case_match; simplify_eq.
  - eapply IH; [eassumption|]. by apply NoDup_keys_map_set.
  - eexists. split; [done|]. by apply NoDup_keys_map_set.
Qed.

Lemma decode_elements_slice fuel depth acc s v rest :
  decode_elements fuel depth acc s = Some (v, rest) -> exists l, v = VSlice l.
Proof.
  revert depth acc s. induction fuel as [|fuel IH]; intros depth acc s; simpl; [done|].
  intros Hd. repeat case_match; simplify_eq; eauto.
Qed.

Lemma decode_value_keys fuel depth s m rest :
  decode_value fuel depth s = Some (VMap m, rest) -> NoDup (keys m).
Proof.
  destruct fuel as [|fuel]; simpl; [done|].
  intros Hd. repeat case_match; simplify_eq.
  - apply NoDup_nil_2.
  - match goal with
    | Hm : decode_members _ _ _ _ = Some _ |- _ =>
        apply decode_members_keys in Hm as (m' & Hm & Hnd); [|apply NoDup_nil_2]
    end.
    by simplify_eq.
  - match goal with
    | Hm : decode_elements _ _ _ _ = Some _ |- _ =>
        apply decode_elements_slice in Hm as (l & Hl)
    end.
    done.
Qed.

Lemma json_Unmarshal_keys data m :
  json_Unmarshal data = UnmarshalOk (Some m) -> NoDup (keys m).
Proof.
  unfold json_Unmarshal. intros Hu. repeat case_match; simplify_eq.
  eapply decode_value_keys; eassumption.
Qed.

End decoding.

(** * Stream reconstruction *)

Section reconstruction.
Local Open Scope list_scope.

Lemma scan_lines_no_chunk lines content lastChunk :
  Forall (fun line => parses_as_chunk line = false) lines ->
  scan_lines lines content lastChunk = (content, lastChunk).
Proof.
  induction 1 as [|line lines Hline _ IH]; simpl; [done|].
  unfold parses_as_chunk in Hline.
  destruct (strings_HasPrefix line "data: "); simpl in Hline; [|done].
  destruct (String.eqb _ "[DONE]"); [done|].
  destruct (json_Unmarshal _); [done | discriminate].
Qed.

Lemma scan_lines_skip pre bad post content lastChunk :
  malformed_chunk bad = true ->
  scan_lines (pre ++ bad :: post) content lastChunk =
  scan_lines (pre ++ post) content lastChunk.
Proof.
  intros Hbad. revert content lastChunk.
  induction pre as [|line pre IH]; intros content lastChunk; simpl.
  - unfold malformed_chunk in Hbad.
    destruct (strings_HasPrefix bad "data: "); simpl in Hbad; [|done].
    destruct (String.eqb _ "[DONE]"); simpl in Hbad; [done|].
    destruct (json_Unmarshal _); [done | discriminate].
  - repeat case_match; auto.
Qed.

Lemma scan_lines_keys lines content lastChunk content' lastChunk' :
  scan_lines lines content lastChunk = (content', Some lastChunk') ->
  (forall m, lastChunk = Some m -> NoDup (keys m)) ->
  NoDup (keys lastChunk').
Proof.
  revert content lastChunk.
  induction lines as [|line lines IH]; intros content lastChunk; simpl.
  - intros [= _ ->] Hm. by apply Hm.
  - intros Hs Hm. repeat case_match; simplify_eq; try (by eapply IH; eauto).
    + by apply Hm.
    + eapply IH; [eassumption|]. intros m ->. by eapply json_Unmarshal_keys.
Qed.

Lemma materialize_other content finalResponse k :
  k <> "choices" ->
  map_get k (materialize content finalResponse) = map_get k finalResponse.
Proof.
  intros Hk. unfold materialize.
  repeat case_match; try done; by apply map_get_set_ne.
Qed.

Lemma rebuild_object content lastChunk :
  map_get "object" (rebuild content lastChunk) = Some (VString "chat.completion").
Proof. apply map_get_set_eq. Qed.

Lemma rebuild_other content lastChunk k :
  NoDup (keys lastChunk) -> k <> "object" -> k <> "choices" ->
  map_get k (rebuild content lastChunk) = map_get k lastChunk.
Proof.
  intros Hnd Ho Hc. unfold rebuild.
  rewrite map_get_set_ne by done. rewrite materialize_other by done.
  by rewrite copy_chunk_id.
Qed.

Lemma convertStreamingResponse_finalize streamingBody :
  convertStreamingResponse streamingBody =
  finalize streamingBody
    (fst (scan_lines (strings_Split streamingBody nl) "" None))
    (snd (scan_lines (strings_Split streamingBody nl) "" None)).
Proof. unfold convertStreamingResponse. by destruct (scan_lines _ _ _). Qed.

End reconstruction.
(** * The fuel of the decoder *)

Section fuel.
Local Open Scope list_scope.
Local Open Scope nat_scope.

Lemma app_fst_Some p r str rest :
  app_fst p r = Some (str, rest) -> exists str', r = Some (str', rest).
Proof. destruct r as [[s0 r0]|]; simpl; [|done]. intros [= _ ->]. eauto. Qed.

Lemma unquote_length n : forall skip s str rest,
  String.length s <= n -> unquote skip s = Some (str, rest) ->
  String.length rest < String.length s.
Proof.
  induction n as [|n IH]; intros skip [|c s] str rest Hn; simpl; try done.
  { simpl in Hn. lia. }
  simpl in Hn. intros Hu.
  repeat case_match; simplify_eq;
    repeat match goal with
           | H : app_fst _ _ = Some _ |- _ => apply app_fst_Some in H as [? H]
           | H : unquote _ _ = Some _ |- _ => apply IH in H; [|simpl in *; lia]
           end; simpl in *; try lia.
Qed.

Lemma skip_space_length s : String.length (skip_space s) <= String.length s.
Proof. induction s as [|c s IH]; simpl; [done|]. destruct (is_space c); simpl; lia. Qed.

Lemma uncons_length s c rest :
  uncons s = Some (c, rest) -> String.length s = S (String.length rest).
Proof. destruct s; simpl; [done|]. by intros [= _ ->]. Qed.

Lemma starts_with_length c s rest :
  starts_with c s = Some rest -> String.length s = S (String.length rest).
Proof.
  destruct s as [|c' s]; simpl; [done|].
  destruct (Ascii.eqb c c'); [|done]. by intros [= ->].
Qed.

Lemma take_digits_length s d rest :
  take_digits s = (d, rest) ->
  String.length s = String.length d + String.length rest.
Proof.
  revert d rest. induction s as [|c s IH]; intros d rest; simpl.
  - by intros [= <- <-].
  - destruct (is_digit c).
    + destruct (take_digits s) as [d' rest'] eqn:E. intros [= <- <-].
      simpl. by rewrite (IH _ _ eq_refl).
    + by intros [= <- <-].
Qed.

Lemma string_drop_length n s :
  String.length (string_drop n s) = String.length s - n.
Proof. revert s. induction n as [|n IH]; intros [|c s]; simpl; try done; lia. Qed.

Lemma scan_number_length s lit rest :
  scan_number s = Some (lit, rest) -> String.length rest < String.length s.
Proof.
  unfold scan_number. intros Hs.
  repeat case_match; simplify_eq;
    repeat match goal with
           | H : take_digits _ = _ |- _ => apply take_digits_length in H
           | H : starts_with _ _ = Some _ |- _ => apply starts_with_length in H
           | H : uncons _ = Some _ |- _ => apply uncons_length in H
           end; simpl in *; lia.
Qed.

(** The bytes a step has passed over. *)
Ltac passed :=
  repeat match goal with
         | H : unquote _ _ = Some _ |- _ => apply (unquote_length _ _ _ _ _ (le_n _)) in H
         | H : scan_number _ = Some _ |- _ => apply scan_number_length in H
         | H : starts_with _ _ = Some _ |- _ => apply starts_with_length in H
         | H : uncons _ = Some _ |- _ => apply uncons_length in H
         | |- context [skip_space ?s] =>
             lazymatch goal with
             | _ : String.length (skip_space s) <= String.length s |- _ => fail
             | _ => pose proof (skip_space_length s)
             end
         | _ : context [skip_space ?s] |- _ =>
             lazymatch goal with
             | _ : String.length (skip_space s) <= String.length s |- _ => fail
             | _ => pose proof (skip_space_length s)
             end
         end.

Local Arguments strings_HasPrefix : simpl never.
Local Arguments uncons : simpl never.
Local Arguments starts_with : simpl never.
Local Arguments skip_space : simpl never.
Local Arguments unquote : simpl never.
Local Arguments scan_number : simpl never.
Local Arguments string_drop : simpl never.

(** A value that has been decoded has taken bytes from the input. *)
Lemma decode_length fuel :
  (forall depth s v rest,
     decode_value fuel depth s = Some (v, rest) -> String.length rest < String.length s) /\
  (forall depth acc s v rest,
     decode_members fuel depth acc s = Some (v, rest) -> String.length rest < String.length s) /\
  (forall depth acc s v rest,
     decode_elements fuel depth acc s = Some (v, rest) -> String.length rest < String.length s).
Proof.
  induction fuel as [|fuel (IHv & IHm & IHe)]; [by repeat split|].
  repeat split.
  - intros depth s v rest Hd. simpl in Hd.
    repeat case_match; simplify_eq;
      repeat match goal with
             | H : decode_members _ _ _ _ = Some _ |- _ => apply IHm in H
             | H : decode_elements _ _ _ _ = Some _ |- _ => apply IHe in H
             end;
      passed; rewrite ?string_drop_length; simpl in *; lia.
  - intros depth acc s v rest Hd. simpl in Hd.
    repeat case_match; simplify_eq;
      repeat match goal with
             | H : decode_value _ _ _ = Some _ |- _ => apply IHv in H
             | H : decode_members _ _ _ _ = Some _ |- _ => apply IHm in H
             end;
      passed; simpl in *; lia.
  - intros depth acc s v rest Hd. simpl in Hd.
    repeat case_match; simplify_eq;
      repeat match goal with
             | H : decode_value _ _ _ = Some _ |- _ => apply IHv in H
             | H : decode_elements _ _ _ _ = Some _ |- _ => apply IHe in H
             end;
      passed; simpl in *; lia.
Qed.

Ltac lengths :=
  repeat match goal with
         | H : decode_value _ _ _ = Some _ |- _ => apply (proj1 (decode_length _)) in H
         | H : decode_members _ _ _ _ = Some _ |- _ =>
             apply (proj1 (proj2 (decode_length _))) in H
         | H : decode_elements _ _ _ _ = Some _ |- _ =>
             apply (proj2 (proj2 (decode_length _))) in H
         end;
  passed; simpl in *; lia.

(** With enough fuel for the input, the result is the one of any larger
    fuel. *)
Lemma decode_fuel f1 : forall f2,
  (forall depth s,
     2 * String.length s + 1 <= f1 -> 2 * String.length s + 1 <= f2 ->
     decode_value f1 depth s = decode_value f2 depth s) /\
  (forall depth acc s,
     2 * String.length s + 2 <= f1 -> 2 * String.length s + 2 <= f2 ->
     decode_members f1 depth acc s = decode_members f2 depth acc s) /\
  (forall depth acc s,
     2 * String.length s + 2 <= f1 -> 2 * String.length s + 2 <= f2 ->
     decode_elements f1 depth acc s = decode_elements f2 depth acc s).
Proof.
  induction f1 as [|f1 IH]; intros [|f2]; try (repeat split; intros; lia).
  destruct (IH f2) as (IHv & IHm & IHe). repeat split.
  - intros depth s H1 H2. simpl.
    repeat case_match; try done; (apply IHm || apply IHe); lengths.
  - intros depth acc s H1 H2. simpl.
    repeat first [rewrite IHv by lengths | case_match]; try done.
    apply IHm; lengths.
  - intros depth acc s H1 H2. simpl.
    repeat first [rewrite IHv by lengths | case_match]; try done.
    apply IHe; lengths.
Qed.

(** The fuel [json_Unmarshal] gives is enough: more of it changes
    nothing. *)
Lemma decode_value_enough data fuel :
  2 * String.length data + 1 <= fuel ->
  decode_value fuel 0 data = decode_value (2 * String.length data + 1) 0 data.
Proof. intros Hf. by apply decode_fuel. Qed.

End fuel.
(** * What the decoder builds, and that the encoder accepts it *)

Section decoded_values.
Local Open Scope list_scope.

Lemma value_ind_deep (P : value -> Prop) :
  P VNil -> (forall b, P (VBool b)) -> (forall f, P (VFloat f)) ->
  (forall s, P (VString s)) ->
  (forall l, Forall P l -> P (VSlice l)) ->
  (forall m, Forall (fun e => P (snd e)) m -> P (VMap m)) ->
  forall v, P v.
Proof.
  intros Hn Hb Hf Hs Hl Hm. fix IH 1. intros [| b | f | s | l | m]; [apply Hn | apply Hb | apply Hf | apply Hs | |].
  - apply Hl. revert l. fix IHl 1. intros [|x l]; constructor; [apply IH | apply IHl].
  - apply Hm. revert m. fix IHm 1. intros [|[k x] m]; constructor; [apply IH | apply IHm].
Qed.

Lemma decoded_VSlice l : decoded (VSlice l) <-> Forall decoded l.
Proof.
  simpl. induction l as [|x l IH]; simpl.
  - split; [constructor | done].
  - rewrite Forall_cons. by rewrite IH.
Qed.

Lemma decoded_VMap m :
  decoded (VMap m) <-> NoDup (keys m) /\ Forall (fun e => decoded (snd e)) m.
Proof.
  simpl. apply and_iff_compat_l. induction m as [|e m IH]; simpl.
  - split; [constructor | done].
  - rewrite Forall_cons. by rewrite IH.
Qed.

Lemma Forall_map_set (P : value -> Prop) k v m :
  P v -> Forall (fun e => P (snd e)) m -> Forall (fun e => P (snd e)) (map_set k v m).
Proof.
  intros Hv. induction 1 as [|[k' v'] m Hx Hm IH]; simpl.
  - by repeat constructor.
  - destruct (String.eqb k k'); constructor; auto.
Qed.

Lemma Forall_map_delete (P : value -> Prop) k m :
  Forall (fun e => P (snd e)) m -> Forall (fun e => P (snd e)) (map_delete k m).
Proof.
  induction 1 as [|[k' v'] m Hx Hm IH]; simpl; [constructor|].
  destruct (String.eqb k k'); [done | by constructor].
Qed.

Lemma keys_map_delete k m : keys (map_delete k m) `sublist_of` keys m.
Proof.
  induction m as [|[k' v'] m IH]; simpl; [done|].
  destruct (String.eqb k k'); simpl.
  - by apply sublist_cons.
  - by apply sublist_skip.
Qed.

Lemma decoded_map_set k v m :
  decoded v -> decoded (VMap m) -> decoded (VMap (map_set k v m)).
Proof.
  rewrite !decoded_VMap. intros Hv [Hnd Hm]. split.
  - by apply NoDup_keys_map_set.
  - by apply Forall_map_set.
Qed.

Lemma decoded_map_delete k m : decoded (VMap m) -> decoded (VMap (map_delete k m)).
Proof.
  rewrite !decoded_VMap. intros [Hnd Hm]. split.
  - eapply sublist_NoDup; [|apply keys_map_delete]. done.
  - by apply Forall_map_delete.
Qed.

Lemma decoded_map_get k m v : decoded (VMap m) -> map_get k m = Some v -> decoded v.
Proof.
  rewrite decoded_VMap. intros [_ Hm]. induction Hm as [|[k' v'] m Hx Hm IH]; simpl; [done|].
  destruct (String.eqb k k'); [by intros [= <-] | done].
Qed.

Lemma round_decimal_finite neg mant exp10 f :
  round_decimal neg mant exp10 = Some f -> is_finite f = true.
Proof.
  unfold round_decimal. intros Hr. repeat case_match; by simplify_eq.
Qed.

Lemma ParseFloat_finite l f : ParseFloat l = Some f -> is_finite f = true.
Proof. apply round_decimal_finite. Qed.

Lemma decode_decoded fuel :
  (forall depth s v rest, decode_value fuel depth s = Some (v, rest) -> decoded v) /\
  (forall depth acc s v rest,
     decode_members fuel depth acc s = Some (v, rest) -> decoded (VMap acc) -> decoded v) /\
  (forall depth acc s v rest,
     decode_elements fuel depth acc s = Some (v, rest) -> Forall decoded acc -> decoded v).
Proof.
  assert (Hnil : decoded (VMap [])) by (apply decoded_VMap; split; [apply NoDup_nil_2 | constructor]).
  induction fuel as [|fuel (IHv & IHm & IHe)]; [by repeat split|].
  repeat split.
  - intros depth s v rest Hd. simpl in Hd.
    repeat case_match; simplify_eq; try done.
    + by eapply IHm.
    + by eapply IHe.
    + by eapply ParseFloat_finite.
  - intros depth acc s v rest Hd Hacc. simpl in Hd.
    repeat case_match; simplify_eq.
    + eapply IHm; [eassumption|]. apply decoded_map_set; [|done]. by eapply IHv.
    + apply decoded_map_set; [|done]. by eapply IHv.
  - intros depth acc s v rest Hd Hacc. simpl in Hd.
    repeat case_match; simplify_eq.
    + eapply IHe; [eassumption|]. constructor; [|done]. by eapply IHv.
    + apply decoded_VSlice. change (Forall decoded (rev (v0 :: acc))).
      apply Forall_rev. constructor; [|done]. by eapply IHv.
Qed.

Lemma json_Unmarshal_decoded data m :
  json_Unmarshal data = UnmarshalOk (Some m) -> decoded (VMap m).
Proof.
  unfold json_Unmarshal. intros Hu. repeat case_match; simplify_eq.
  eapply (proj1 (decode_decoded _)); eassumption.
Qed.

(** The encoder has no error on such a value. *)
Lemma encode_decoded v : decoded v -> is_Some (encode_value v).
Proof.
  induction v as [| b | f | s | l IH | m IH] using value_ind_deep; try (by eexists).
  - simpl. destruct f; by eauto.
  - rewrite decoded_VSlice. intros Hl. simpl.
    match goal with
    | |- is_Some (match ?g l with _ => _ end) => assert (is_Some (g l)) as [ts ->]; [|by eexists]
    end.
    induction l as [|x l IHl]; [by eexists|].
    apply Forall_cons in IH as [Hx IH]. apply Forall_cons in Hl as [Hdx Hl].
    destruct (Hx Hdx) as [t ->]. destruct (IHl IH Hl) as [ts ->]. by eexists.
  - rewrite decoded_VMap. intros [_ Hm]. simpl.
    match goal with
    | |- is_Some (match ?g m with _ => _ end) => assert (is_Some (g m)) as [ts ->]; [|by eexists]
    end.
    induction m as [|[k x] m IHm]; [by eexists|].
    apply Forall_cons in IH as [Hx IH]. apply Forall_cons in Hm as [Hdx Hm].
    simpl in Hx, Hdx.
    destruct (Hx Hdx) as [t ->]. destruct (IHm IH Hm) as [ts ->]. by eexists.
Qed.

End decoded_values.

(** * Lines *)

Section lines.
Local Open Scope list_scope.

Lemma prefix_empty s : String.prefix "" s = true.
Proof. by destruct s. Qed.

Lemma string_app_cons c (s t : string) : String c s +:+ t = String c (s +:+ t).
Proof. done. Qed.

Lemma HasPrefix_nl c s :
  strings_HasPrefix (String c s) nl = bool_decide (c = "010"%char).
Proof.
  unfold strings_HasPrefix, nl. cbn [String.prefix].
  destruct (ascii_dec "010" c) as [<-|Hne].
  - by rewrite prefix_empty, bool_decide_eq_true_2.
  - rewrite bool_decide_eq_false_2; [done | congruence].
Qed.

Lemma single_line_cons c s :
  single_line (String c s) -> c <> "010"%char /\ single_line s.
Proof.
  unfold single_line. cbn [strings_Contains]. rewrite HasPrefix_nl.
  case_bool_decide; [done|]. simpl. by intros ->.
Qed.

Lemma Split_go_line cur line :
  single_line line -> Split_go nl 0 cur line = [String.rev_app cur line].
Proof.
  revert cur. induction line as [|c line IH]; intros cur Hl; [done|].
  apply single_line_cons in Hl as [Hc Hl].
  cbn [Split_go]. rewrite HasPrefix_nl, bool_decide_eq_false_2 by done.
  by rewrite IH.
Qed.

Lemma Split_go_lines cur line rest :
  single_line line ->
  Split_go nl 0 cur (line +:+ nl +:+ rest) =
  String.rev_app cur line :: Split_go nl 0 "" rest.
Proof.
  revert cur. induction line as [|c line IH]; intros cur Hl.
  - change ("" +:+ nl +:+ rest) with (String "010" rest).
    cbn [Split_go]. by rewrite HasPrefix_nl, bool_decide_eq_true_2.
  - apply single_line_cons in Hl as [Hc Hl].
    rewrite string_app_cons. cbn [Split_go].
    rewrite HasPrefix_nl, bool_decide_eq_false_2 by done.
    by rewrite IH.
Qed.

(** Splitting at the line feeds gives back the lines that were joined with
    them. *)
Lemma Split_concat lines :
  lines <> [] -> Forall single_line lines ->
  strings_Split (String.concat nl lines) nl = lines.
Proof.
  unfold strings_Split. destruct lines as [|line lines]; [done|]. intros _.
  revert line. induction lines as [|l lines IH]; intros line Hl.
  - simpl. apply Forall_cons in Hl as [Hl _]. by rewrite Split_go_line.
  - apply Forall_cons in Hl as [Hl Hls].
    change (String.concat nl (line :: l :: lines))
      with (line +:+ nl +:+ String.concat nl (l :: lines)).
    rewrite Split_go_lines by done. by rewrite IH.
Qed.

Lemma HasPrefix_data t : strings_HasPrefix ("data: " +:+ t) "data: " = true.
Proof. unfold strings_HasPrefix. simpl. apply prefix_empty. Qed.

Lemma TrimPrefix_data t : strings_TrimPrefix ("data: " +:+ t) "data: " = t.
Proof. unfold strings_TrimPrefix. by rewrite HasPrefix_data. Qed.

Lemma scan_lines_other pre post content lastChunk :
  Forall (fun line => strings_HasPrefix line "data: " = false) pre ->
  scan_lines (pre ++ post) content lastChunk = scan_lines post content lastChunk.
Proof. induction 1 as [|line pre Hl _ IH]; simpl; [done|]. by rewrite Hl. Qed.

Lemma scan_lines_chunk t chunk post content lastChunk :
  json_Unmarshal t = UnmarshalOk chunk ->
  scan_lines (("data: " +:+ t) :: post) content lastChunk =
  scan_lines post (content +:+ default "" (delta_content chunk)) chunk.
Proof.
  intros Hu. cbn [scan_lines]. rewrite HasPrefix_data, TrimPrefix_data.
  destruct (String.eqb t "[DONE]") eqn:E.
  - apply String.eqb_eq in E. subst t. vm_compute in Hu. discriminate.
  - by rewrite Hu.
Qed.

Lemma scan_lines_done post content lastChunk :
  scan_lines ("data: [DONE]" :: post) content lastChunk = (content, lastChunk).
Proof. done. Qed.

End lines.

(** * The rebuilt object *)

Section rebuilt.
Local Open Scope list_scope.

Lemma scan_lines_decoded lines content lastChunk content' lastChunk' :
  scan_lines lines content lastChunk = (content', Some lastChunk') ->
  (forall m, lastChunk = Some m -> decoded (VMap m)) ->
  decoded (VMap lastChunk').
Proof.
  revert content lastChunk.
  induction lines as [|line lines IH]; intros content lastChunk; cbn [scan_lines].
  - intros [= _ ->] Hm. by apply Hm.
  - intros Hs Hm. repeat case_match; simplify_eq; try (by eapply IH; eauto).
    + by apply Hm.
    + eapply IH; [eassumption|]. intros m ->. by eapply json_Unmarshal_decoded.
Qed.

Lemma first_choice_decoded content choice :
  decoded (VMap choice) ->
  decoded (VMap (first_choice content choice)).
Proof.
  intros Hc. unfold first_choice.
  assert (Hd : decoded (VMap (map_delete "delta" (map_set "message"
            (VMap [("role", VString "assistant"); ("content", VString content)]) choice)))).
  { apply decoded_map_delete, decoded_map_set; [|done].
    apply decoded_VMap. split; [|by repeat constructor].
    apply (bool_decide_unpack _). by vm_compute. }
  destruct (map_get "finish_reason" _); [done|]. by apply decoded_map_set.
Qed.

Lemma materialize_decoded content m :
  decoded (VMap m) -> decoded (VMap (materialize content m)).
Proof.
  intros Hm. unfold materialize.
  destruct (map_get "choices" m) as [[| | | |[|[| | | | |choice] choices']|]|] eqn:Hc;
    simpl; try done.
  apply decoded_map_set; [|done].
  apply (decoded_map_get _ _ _ Hm) in Hc.
  apply decoded_VSlice in Hc. apply Forall_cons in Hc as [Hc Hcs].
  apply decoded_VSlice. constructor; [|done]. by apply first_choice_decoded.
Qed.

Lemma rebuild_decoded content lastChunk :
  decoded (VMap lastChunk) -> decoded (VMap (rebuild content lastChunk)).
Proof.
  intros Hl. unfold rebuild. apply decoded_map_set; [done|].
  apply materialize_decoded. rewrite copy_chunk_id; [done|].
  by apply decoded_VMap in Hl as [? _].
Qed.

(** Once a chunk has been kept, the encoder has no error and the result is
    its text. *)
Lemma convertStreamingResponse_encodes streamingBody content lastChunk :
  scan_lines (strings_Split streamingBody nl) "" None = (content, Some lastChunk) ->
  json_Marshal (rebuild content lastChunk) = Some (convertStreamingResponse streamingBody).
Proof.
  intros Hs. rewrite convertStreamingResponse_finalize, Hs. simpl.
  destruct (encode_decoded (VMap (rebuild content lastChunk))) as [text Ht].
  - apply rebuild_decoded. eapply scan_lines_decoded; [exact Hs | done].
  - unfold json_Marshal. by rewrite Ht.
Qed.

Lemma first_choice_message content choice :
  map_get "message" (first_choice content choice) =
  Some (VMap [("role", VString "assistant"); ("content", VString content)]).
Proof.
  unfold first_choice.
  assert (Hm : forall c, map_get "message" (map_delete "delta" (map_set "message" c choice)) = Some c).
  { intros c. rewrite map_get_delete_ne by done. apply map_get_set_eq. }
  destruct (map_get "finish_reason" _); [apply Hm|].
  rewrite map_get_set_ne by done. apply Hm.
Qed.


Lemma first_choice_finish_reason content choice :
  map_get "finish_reason" (first_choice content choice) =
  Some (default (VString "stop") (map_get "finish_reason" choice)).
Proof.
  unfold first_choice.
  rewrite map_get_delete_ne, map_get_set_ne by done.
  destruct (map_get "finish_reason" choice) as [x|] eqn:Hf; simpl.
  - by rewrite map_get_delete_ne, map_get_set_ne by done.
  - apply map_get_set_eq.
Qed.

Lemma first_choice_other content choice k :
  k <> "message" -> k <> "delta" -> k <> "finish_reason" ->
  map_get k (first_choice content choice) = map_get k choice.
Proof.
  intros H1 H2 H3. unfold first_choice.
  destruct (map_get "finish_reason" _);
    rewrite ?(map_get_set_ne k "finish_reason") by done;
    by rewrite map_get_delete_ne, map_get_set_ne by done.
Qed.

Lemma rebuild_choices content lastChunk choice choices' :
  NoDup (keys lastChunk) ->
  map_get "choices" lastChunk = Some (VSlice (VMap choice :: choices')) ->
  map_get "choices" (rebuild content lastChunk) =
  Some (VSlice (VMap (first_choice content choice) :: choices')).
Proof.
  intros Hnd Hc. unfold rebuild.
  rewrite map_get_set_ne by done. rewrite copy_chunk_id by done.
  unfold materialize. rewrite Hc. simpl. apply map_get_set_eq.
Qed.

End rebuilt.

(** * Properties of the stream reconstruction *)



(** C5: the reconstruction fails open.  When no line carries a chunk that
    decodes, the body comes back as it is; a data line that does not decode is
    passed over as if it were not there; when the encoder rejects the rebuilt
    object, the body comes back as it is; and in every case the result is the
    body or the encoding of the rebuilt object, never an error. *)
Theorem C5_fail_open (streamingBody : string) :
  (Forall (fun line => parses_as_chunk line = false) (strings_Split streamingBody nl) ->
   convertStreamingResponse streamingBody = streamingBody) /\
  (forall pre bad post content lastChunk,
     malformed_chunk bad = true ->
     scan_lines (pre ++ bad :: post)%list content lastChunk =
     scan_lines (pre ++ post)%list content lastChunk) /\
  (forall content lastChunk,
     json_Marshal (rebuild content lastChunk) = None ->
     finalize streamingBody content (Some lastChunk) = streamingBody) /\
  (convertStreamingResponse streamingBody = streamingBody \/
   exists content lastChunk,
     scan_lines (strings_Split streamingBody nl) "" None = (content, Some lastChunk) /\
     json_Marshal (rebuild content lastChunk) = Some (convertStreamingResponse streamingBody)).
Proof.
  repeat split.
  - intros Hno. rewrite convertStreamingResponse_finalize.
    by rewrite (scan_lines_no_chunk _ _ _ Hno).
  - intros. by apply scan_lines_skip.
  - intros content lastChunk Hm. unfold finalize. by rewrite Hm.
  - rewrite convertStreamingResponse_finalize.
    destruct (scan_lines _ _ _) as [content [lastChunk|]] eqn:Hs; simpl; [|by left].
    destruct (json_Marshal _) as [jsonResult|] eqn:Hm; [|by left].
    right. by exists content, lastChunk.
Qed.

Lemma C5_fail_open_witness :
  let body := String.concat nl [dquote "data: {'choices':[{'delta'"; ": keep-alive"; "data: [DONE]"] in
  let bad := dquote "data: {'id': oops" in
  let good := dquote "data: {'choices':[{'delta':{'content':'Hi'}}]}" in
  let nan := [("usage", VFloat S754_nan)] in
  Forall (fun line => parses_as_chunk line = false) (strings_Split body nl) /\
  convertStreamingResponse body = body /\
  malformed_chunk bad = true /\
  scan_lines [good; bad; good] "" None = scan_lines [good; good] "" None /\
  json_Marshal (rebuild "Hi" nan) = None /\
  finalize body "Hi" (Some nan) = body.
Proof.
  intros body bad good nan.
  assert (Hno : Forall (fun line => parses_as_chunk line = false) (strings_Split body nl))
    by (repeat constructor; vm_compute; reflexivity).
  assert (Hbad : malformed_chunk bad = true) by (vm_compute; reflexivity).
  assert (Hnan : json_Marshal (rebuild "Hi" nan) = None) by (vm_compute; reflexivity).
  destruct (C5_fail_open body) as (H1 & H2 & H3 & _).
  split; [exact Hno|]. split; [exact (H1 Hno)|]. split; [exact Hbad|].
  split; [exact (H2 [good] bad [good] "" None Hbad)|].
  split; [exact Hnan | exact (H3 "Hi" nan Hnan)].
Defined.

(** C7, as stated, fails: an escaped solidus in a string and a number written
    with a fraction are fields of the last chunk that the output does not
    reproduce byte for byte, although their values are kept. *)
Lemma C7_bytes_not_preserved :
  let chunk := dquote "{'id':'a\/b','timings':35.0,'choices':[{'delta':{'content':'Hi'}}]}" in
  let body := String.concat nl ["data: " ++ chunk; "data: [DONE]"] in
  reproduces chunk (dquote "'id':'a\/b'") = true /\
  reproduces chunk (dquote "'timings':35.0") = true /\
  convertStreamingResponse body =
    dquote "{'choices':[{'finish_reason':'stop','message':{'content':'Hi','role':'assistant'}}],'id':'a/b','object':'chat.completion','timings':35}" /\
  reproduces (convertStreamingResponse body) (dquote "'id':'a\/b'") = false /\
  reproduces (convertStreamingResponse body) (dquote "'timings':35.0") = false.
Proof. vm_compute. repeat split. Qed.

(** C7, amended: when a chunk has been decoded, the output is the encoding of
    an object that has, under every key other than "object" and "choices",
    the value the last decoded chunk has under it, and under "choices" the
    same elements after the first one. *)
Theorem C7_fields_preserved (streamingBody content : string) (lastChunk : object) :
  scan_lines (strings_Split streamingBody nl) "" None = (content, Some lastChunk) ->
  json_Marshal (rebuild content lastChunk) = Some (convertStreamingResponse streamingBody) /\
  map_get "object" (rebuild content lastChunk) = Some (VString "chat.completion") /\
  (forall k, k <> "object" -> k <> "choices" ->
     map_get k (rebuild content lastChunk) = map_get k lastChunk) /\
  (forall c0 choices',
     map_get "choices" lastChunk = Some (VSlice (c0 :: choices')) ->
     exists c0', map_get "choices" (rebuild content lastChunk) = Some (VSlice (c0' :: choices'))).
Proof.
  intros Hs.
  assert (Hnd : NoDup (keys lastChunk)) by (eapply scan_lines_keys; [exact Hs | done]).
  repeat split.
  - by apply convertStreamingResponse_encodes.
  - apply rebuild_object.
  - intros k Ho Hc. by apply rebuild_other.
  - intros c0 choices' Hc. unfold rebuild.
    rewrite map_get_set_ne by done. rewrite copy_chunk_id by done.
    unfold materialize. rewrite Hc. simpl.
    destruct c0; simpl; eauto. rewrite map_get_set_eq. eauto.
Qed.

Lemma C7_fields_preserved_witness :
  let chunk := dquote "{'id':'a\/b','timings':35.0,'choices':[{'delta':{'content':'Hi'}}]}" in
  let body := String.concat nl ["data: " ++ chunk; "data: [DONE]"] in
  let lastChunk :=
    [("id", VString "a/b");
     ("timings", VFloat (S754_finite false 4925812092436480 (-47)));
     ("choices", VSlice [VMap [("delta", VMap [("content", VString "Hi")])]])] in
  scan_lines (strings_Split body nl) "" None = ("Hi", Some lastChunk) /\
  map_get "id" (rebuild "Hi" lastChunk) = Some (VString "a/b") /\
  map_get "timings" (rebuild "Hi" lastChunk) = map_get "timings" lastChunk.
Proof.
  intros chunk body lastChunk.
  assert (Hs : scan_lines (strings_Split body nl) "" None = ("Hi", Some lastChunk))
    by (vm_compute; reflexivity).
  destruct (C7_fields_preserved body "Hi" lastChunk Hs) as (_ & _ & Hk & _).
  split; [exact Hs|]. split.
  - rewrite (Hk "id"); [reflexivity | discriminate | discriminate].
  - apply Hk; discriminate.
Defined.

(** * Running the statements *)

Section running.
Context `{Collaborators}.
Local Open Scope list_scope.
Local Open Scope nat_scope.

Lemma bind_Returned {A B} (c : M A) (k : A -> M B) r a r' :
  c r = Returned a r' -> bind c k r = k a r'.
Proof. unfold bind. by intros ->. Qed.

Lemma load_data_Some r p d :
  datas r !! p = Some d -> load_data (Some p) r = Returned d r.
Proof. intros Hd. unfold load_data, bind, gets, lift, deref, ret. by rewrite Hd. Qed.

Lemma store_data_Some r p d v :
  datas r !! p = Some d ->
  store_data (Some p) v r = Returned tt (with_datas (fun h => <[p := v]> h) r).
Proof. intros Hd. unfold store_data, bind. by rewrite (load_data_Some _ _ _ Hd). Qed.

Lemma load_pair_Some r p v :
  pairs r !! p = Some v -> load_pair (Some p) r = Returned v r.
Proof. intros Hp. unfold load_pair, bind, gets, lift, deref, ret. by rewrite Hp. Qed.

Lemma store_pair_Some r p v0 v :
  pairs r !! p = Some v0 ->
  store_pair (Some p) v r = Returned tt (with_pairs (fun h => <[p := v]> h) r).
Proof. intros Hp. unfold store_pair, bind. by rewrite (load_pair_Some _ _ _ Hp). Qed.

Lemma elements_Some r s a :
  arrays r !! s_array s = Some a ->
  elements s r = Returned (take (s_len s) (drop (s_off s) a)) r.
Proof. intros Ha. unfold elements, load_array, bind, gets, lift, ret. by rewrite Ha. Qed.

Lemma ptr_ok_Some n e : ptr_ok n e -> exists a, e = Some a /\ a < n.
Proof. destruct e as [a|]; simpl; [eauto | done]. Qed.

Lemma ptr_ok_deref r e :
  ptr_ok (length (pairs r)) e ->
  exists a v, e = Some a /\ pairs r !! a = Some v.
Proof.
  intros (a & -> & Ha)%ptr_ok_Some.
  destruct (lookup_lt_is_Some_2 (pairs r) a Ha) as [v Hv]. eauto.
Qed.

(** What well-formedness gives for a key that has an entry. *)
Lemma wf_Get r runner p :
  wf r -> runnermap.Map_Get runner (records r) = Some p ->
  exists d a,
    datas r !! p = Some d /\
    arrays r !! s_array (Records d) = Some a /\
    s_off (Records d) + s_len (Records d) <= length a /\
    s_len (Records d) <= 10 /\
    Forall (ptr_ok (length (pairs r))) (take (s_len (Records d)) (drop (s_off (Records d)) a)) /\
    slots r runner = take (s_len (Records d)) (drop (s_off (Records d)) a).
Proof.
  intros Hwf Hg. unfold runnermap.Map_Get in Hg.
  pose proof (Hwf _ _ Hg) as Hok. unfold data_ok in Hok.
  destruct (datas r !! p) as [d|] eqn:Hd; [|done].
  unfold slice_ok in Hok.
  destruct (arrays r !! s_array (Records d)) as [a|] eqn:Ha; [|done].
  destruct Hok as (Hb & Hl & Hall).
  exists d, a. repeat split; try done.
  unfold slots, runnermap.Map_Get, slots_of. by rewrite Hg, Hd, Ha.
Qed.

Lemma slots_no_entry r runner :
  runnermap.Map_Get runner (records r) = None -> slots r runner = [].
Proof. intros Hg. unfold slots. by rewrite Hg. Qed.

(** The loop of [RecordResponse]. *)
Lemma fill_response_none r rs id response statusCode :
  Forall (ptr_ok (length (pairs r))) rs ->
  first_match (pairs r) id rs = None ->
  fill_response rs id response statusCode r = Returned false r.
Proof.
  induction 1 as [|e rs He Hrs IH]; simpl; [done|].
  intros Hm.
  destruct (ptr_ok_deref _ _ He) as (a & v & -> & Hv).
  simpl in Hm. rewrite Hv in Hm.
  unfold bind. rewrite (load_pair_Some _ _ _ Hv).
  destruct (String.eqb (ID v) id); [done|]. by apply IH.
Qed.

Lemma fill_response_some r rs id response statusCode p :
  Forall (ptr_ok (length (pairs r))) rs ->
  first_match (pairs r) id rs = Some p ->
  exists v,
    pairs r !! p = Some v /\ ID v = id /\
    fill_response rs id response statusCode r =
      Returned true
        (with_pairs (fun h => <[p := set_StatusCode statusCode (set_Response response v)]> h) r).
Proof.
  induction 1 as [|e rs He Hrs IH]; simpl; [done|].
  intros Hm.
  destruct (ptr_ok_deref _ _ He) as (a & v & -> & Hv).
  simpl in Hm. rewrite Hv in Hm.
  unfold bind. rewrite (load_pair_Some _ _ _ Hv).
  destruct (String.eqb (ID v) id) eqn:E.
  - simplify_eq. apply String.eqb_eq in E. exists v. repeat split; [done..|].
    by rewrite (store_pair_Some _ _ _ _ Hv).
  - by apply IH.
Qed.

Lemma RecordResponse_no_entry r id runner rr :
  runnermap.Map_Get runner (records r) = None ->
  RecordResponse id runner (recorderWriter rr) r =
    Returned tt
      (with_log (fun lg => lg ++
         [(Error, "Model " +:+ runnermap.Model runner +:+ " not found in records - "
                    +:+ pretty (rr_statusCode rr) +:+ nl +:+ response_of (rr_body rr))]) r).
Proof.
  intros Hg. unfold RecordResponse, bind, records_Get, gets. by rewrite Hg.
Qed.

Lemma RecordResponse_no_match r id runner rr :
  wf r ->
  is_Some (runnermap.Map_Get runner (records r)) ->
  first_match (pairs r) id (slots r runner) = None ->
  RecordResponse id runner (recorderWriter rr) r =
    Returned tt
      (with_log (fun lg => lg ++
         [(Error, "Matching request (id=" +:+ id +:+ ") not found for model "
                    +:+ runnermap.Model runner +:+ " - " +:+ pretty (rr_statusCode rr)
                    +:+ nl +:+ response_of (rr_body rr))]) r).
Proof.
  intros Hwf [p Hg] Hm.
  destruct (wf_Get _ _ _ Hwf Hg) as (d & a & Hd & Ha & Hb & Hl & Hall & Hs).
  rewrite Hs in Hm.
  unfold RecordResponse, bind, records_Get, gets. rewrite Hg.
  rewrite (load_data_Some _ _ _ Hd), (elements_Some _ _ _ Ha).
  by rewrite (fill_response_none _ _ _ _ _ Hall Hm).
Qed.

Lemma RecordResponse_match r id runner rr p :
  wf r ->
  first_match (pairs r) id (slots r runner) = Some p ->
  exists v,
    pairs r !! p = Some v /\ ID v = id /\
    RecordResponse id runner (recorderWriter rr) r =
      Returned tt
        (with_pairs (fun h =>
           <[p := set_StatusCode (rr_statusCode rr) (set_Response (response_of (rr_body rr)) v)]> h) r).
Proof.
  intros Hwf Hm.
  destruct (runnermap.Map_Get runner (records r)) as [q|] eqn:Hg;
    [|by rewrite (slots_no_entry _ _ Hg) in Hm].
  destruct (wf_Get _ _ _ Hwf Hg) as (d & a & Hd & Ha & Hb & Hl & Hall & Hs).
  rewrite Hs in Hm.
  destruct (fill_response_some _ _ _ (response_of (rr_body rr)) (rr_statusCode rr) _ Hall Hm)
    as (v & Hv & Hid & Hf).
  exists v. repeat split; [done..|].
  unfold RecordResponse, bind, records_Get, gets. rewrite Hg.
  rewrite (load_data_Some _ _ _ Hd), (elements_Some _ _ _ Ha).
  unfold response_of in Hf. by rewrite Hf.
Qed.

End running.

(** * Request capture *)

Section capture.
Context `{Collaborators}.
Local Open Scope list_scope.
Local Open Scope nat_scope.

Lemma ptr_ok_mono n n' e : n <= n' -> ptr_ok n e -> ptr_ok n' e.
Proof. destruct e; simpl; [lia | done]. Qed.

Lemma slice_ok_pairs_mono arrs n n' t :
  n <= n' -> slice_ok arrs n t -> slice_ok arrs n' t.
Proof.
  intros Hn. unfold slice_ok. destruct (arrs !! s_array t); [|done].
  intros (? & ? & Hall). repeat split; [done..|].
  eapply Forall_impl; [exact Hall|]. intros e. by apply ptr_ok_mono.
Qed.

Lemma slice_ok_arrays_app arrs l n t :
  slice_ok arrs n t -> slice_ok (arrs ++ l) n t.
Proof.
  unfold slice_ok. destruct (arrs !! s_array t) as [a|] eqn:Ha; [|done].
  by rewrite (lookup_app_l_Some _ _ _ _ Ha).
Qed.

Lemma slice_ok_arrays_insert arrs i j a x n t :
  arrs !! i = Some a -> ptr_ok n x ->
  slice_ok arrs n t -> slice_ok (<[i := <[j := x]> a]> arrs) n t.
Proof.
  intros Ha Hx. unfold slice_ok.
  destruct (decide (i = s_array t)) as [->|Hne].
  - rewrite Ha. rewrite list_lookup_insert_eq by (by eapply lookup_lt_Some).
    intros (Hb & Hl & Hall). rewrite length_insert. repeat split; [done..|].
    apply Forall_lookup. intros k e Hk.
    apply lookup_take_Some in Hk as [Hk Hlt]. rewrite lookup_drop in Hk.
    destruct (decide (j = s_off t + k)) as [->|Hjk].
    + rewrite list_lookup_insert_eq in Hk by lia. by simplify_eq.
    + rewrite list_lookup_insert_ne in Hk by done.
      eapply Forall_lookup_1; [exact Hall|].
      apply lookup_take_Some. split; [|done]. by rewrite lookup_drop.
  - by rewrite list_lookup_insert_ne.
Qed.

Lemma gets_run {A} (f : OpenAIRecorder -> A) r : gets f r = Returned (f r) r.
Proof. reflexivity. Qed.

Lemma modify_run f r : modify f r = Returned tt (f r).
Proof. reflexivity. Qed.

Lemma load_array_Some r s a :
  arrays r !! s_array s = Some a -> load_array s r = Returned a r.
Proof. intros Ha. unfold load_array, bind, gets, lift, ret. by rewrite Ha. Qed.

Lemma cap_Some r s a :
  arrays r !! s_array s = Some a -> cap s r = Returned (length a - s_off s) r.
Proof. intros Ha. unfold cap, bind. by rewrite (load_array_Some _ _ _ Ha). Qed.

Lemma append_spec r s x a :
  arrays r !! s_array s = Some a ->
  s_off s + s_len s <= length a ->
  exists s' r' a',
    append s x r = Returned s' r' /\
    log r' = log r /\ records r' = records r /\ datas r' = datas r /\ pairs r' = pairs r /\
    s_len s' = S (s_len s) /\
    arrays r' !! s_array s' = Some a' /\
    s_off s' + s_len s' <= length a' /\
    take (s_len s') (drop (s_off s') a') = take (s_len s) (drop (s_off s) a) ++ [x] /\
    (forall t n, ptr_ok n x -> slice_ok (arrays r) n t -> slice_ok (arrays r') n t).
Proof.
  intros Ha Hb. unfold append.
  rewrite (bind_Returned _ _ _ _ _ (load_array_Some _ _ _ Ha)).
  rewrite (bind_Returned _ _ _ _ _ (cap_Some _ _ _ Ha)).
  destruct (s_len s <? length a - s_off s) eqn:E.
  - apply Nat.ltb_lt in E.
    rewrite (bind_Returned _ _ _ _ _ (modify_run _ _)).
    eexists _, _, _. split; [reflexivity|]. simpl.
    repeat split; try done.
    + apply list_lookup_insert_eq. by eapply lookup_lt_Some.
    + rewrite length_insert. lia.
    + rewrite drop_insert_ge by lia.
      replace (s_off s + s_len s - s_off s) with (s_len s) by lia.
      rewrite (take_S_r _ _ x).
      * by rewrite take_insert_ge.
      * apply list_lookup_insert_eq. rewrite length_drop. lia.
    + intros t n Hx. by apply slice_ok_arrays_insert.
  - apply Nat.ltb_ge in E.
    rewrite (bind_Returned _ _ _ _ _ (elements_Some _ _ _ Ha)).
    rewrite (bind_Returned _ _ _ _ _ (gets_run _ _)).
    rewrite (bind_Returned _ _ _ _ _ (modify_run _ _)).
    eexists _, _, _. split; [reflexivity|]. simpl.
    assert (Hlen : length (take (s_len s) (drop (s_off s) a)) = s_len s)
      by (rewrite length_take, length_drop; lia).
    repeat split; try done.
    + by apply list_lookup_middle.
    + rewrite length_app, Hlen. simpl. lia.
    + rewrite drop_0. rewrite (cons_middle x), app_assoc.
      apply take_app_length'. rewrite length_app, Hlen. simpl. lia.
    + intros t n _. apply slice_ok_arrays_app.
Qed.

Lemma RecordRequest_unfold runner req body now_id now :
  RecordRequest runner req body now_id now =
  bind (new_pair (new_record runner req body now_id now)) (fun record =>
  bind (records_Get runner) (fun g =>
  bind (match g with
        | None => bind new_ModelData (fun d => records_Set runner d)
        | Some _ => ret tt
        end) (fun _ =>
  RecordRequest_tail runner record (runnermap.Model runner +:+ "_" +:+ pretty now_id)))).
Proof. reflexivity. Qed.

Lemma last10_short {A} (l : list A) : length l <= 10 -> last10 l = l.
Proof. intros Hl. unfold last10. replace (length l - 10) with 0 by lia. apply drop_0. Qed.

Lemma RecordRequest_tail_spec r runner n id p d a :
  runnermap.Map_Get runner (records r) = Some p ->
  datas r !! p = Some d ->
  arrays r !! s_array (Records d) = Some a ->
  s_off (Records d) + s_len (Records d) <= length a ->
  s_len (Records d) <= 10 ->
  exists r' d' a',
    RecordRequest_tail runner n id r = Returned id r' /\
    log r' = log r /\ records r' = records r /\ pairs r' = pairs r /\
    datas r' = <[p := d']> (datas r) /\ Config d' = Config d /\
    arrays r' !! s_array (Records d') = Some a' /\
    s_off (Records d') + s_len (Records d') <= length a' /\
    s_len (Records d') <= 10 /\
    take (s_len (Records d')) (drop (s_off (Records d')) a') =
      last10 (take (s_len (Records d)) (drop (s_off (Records d)) a) ++ [Some n]) /\
    (forall t N, ptr_ok N (Some n) -> slice_ok (arrays r) N t -> slice_ok (arrays r') N t).
Proof.
  intros Hg Hd Ha Hb Hl.
  destruct (append_spec r (Records d) (Some n) a Ha Hb)
    as (s1 & r1 & a1 & Happ & Hlog1 & Hrec1 & Hdat1 & Hpairs1 & Hlen1 & Ha1 & Hb1 & Hel1 & Hfr1).
  assert (Hp : p < length (datas r)) by (by eapply lookup_lt_Some).
  assert (Hold : length (take (s_len (Records d)) (drop (s_off (Records d)) a)) = s_len (Records d))
    by (rewrite length_take, length_drop; lia).
  unfold RecordRequest_tail.
  rewrite (bind_Returned _ _ r (Some p) r) by (unfold records_Get, gets; by rewrite Hg).
  rewrite (bind_Returned _ _ r d r) by (by apply load_data_Some).
  rewrite (bind_Returned _ _ _ _ _ Happ).
  assert (Hd1 : datas r1 !! p = Some d) by (by rewrite Hdat1).
  rewrite (bind_Returned _ _ _ _ _ (store_data_Some _ _ _ _ Hd1)).
  set (r2 := with_datas _ r1).
  assert (Hd2 : datas r2 !! p = Some (mkModelData (Config d) s1)).
  { subst r2. simpl. rewrite Hdat1. by apply list_lookup_insert_eq. }
  rewrite (bind_Returned _ _ _ _ _ (load_data_Some _ _ _ Hd2)). cbn [Records Config].
  destruct (10 <? s_len s1) eqn:E.
  - apply Nat.ltb_lt in E.
    assert (Hsl : slice_from s1 1 r2 =
                  Returned (mkSlice (s_array s1) (s_off s1 + 1) (s_len s1 - 1)) r2).
    { unfold slice_from.
      by replace (s_len s1 <? 1) with false by (symmetry; apply Nat.ltb_ge; lia). }
    rewrite (bind_Returned (bind (slice_from s1 1) _) _ r2 tt _)
      by (rewrite (bind_Returned _ _ _ _ _ Hsl); apply (store_data_Some _ _ _ _ Hd2)).
    eexists _, (mkModelData (Config d) (mkSlice (s_array s1) (s_off s1 + 1) (s_len s1 - 1))), a1.
    split; [reflexivity|]. simpl.
    repeat split; try done.
    + rewrite Hdat1. by rewrite list_insert_insert_eq.
    + lia.
    + lia.
    + rewrite <- Hel1.
      unfold last10. rewrite length_take, length_drop.
      replace (s_len s1 `min` (length a1 - s_off s1) - 10) with 1 by lia.
      rewrite <- drop_drop. rewrite take_drop_commute.
      by replace (1 + (s_len s1 - 1)) with (s_len s1) by lia.
  - apply Nat.ltb_ge in E.
    rewrite (bind_Returned _ _ r2 tt r2) by reflexivity.
    eexists _, (mkModelData (Config d) s1), a1.
    split; [reflexivity|]. simpl.
    repeat split; try done.
    + by rewrite Hdat1.
    + rewrite Hel1. symmetry. apply last10_short.
      rewrite length_app, Hold. simpl. lia.
Qed.

End capture.

Section capture_wf.
Context `{Collaborators}.
Local Open Scope list_scope.
Local Open Scope nat_scope.

Lemma data_ok_frame r r' p :
  data_ok r p ->
  datas r' !! p = datas r !! p ->
  (forall t, slice_ok (arrays r) (length (pairs r)) t ->
             slice_ok (arrays r') (length (pairs r')) t) ->
  data_ok r' p.
Proof.
  unfold data_ok. intros Hok -> Hfr. destruct (datas r !! p); [|done]. by apply Hfr.
Qed.

Lemma data_ok_lt r p : data_ok r p -> p < length (datas r).
Proof.
  unfold data_ok. destruct (datas r !! p) eqn:Hd; [|done].
  intros _. by eapply lookup_lt_Some.
Qed.

Lemma RecordRequest_tail_wf r runner n id p d a :
  (forall k p', runnermap.m (records r) !! k = Some p' -> p' <> p -> data_ok r p') ->
  runnermap.Map_Get runner (records r) = Some p ->
  datas r !! p = Some d ->
  arrays r !! s_array (Records d) = Some a ->
  s_off (Records d) + s_len (Records d) <= length a ->
  s_len (Records d) <= 10 ->
  Forall (ptr_ok (length (pairs r))) (take (s_len (Records d)) (drop (s_off (Records d)) a)) ->
  n < length (pairs r) ->
  exists r',
    RecordRequest_tail runner n id r = Returned id r' /\
    wf r' /\ log r' = log r /\ pairs r' = pairs r /\ records r' = records r /\
    slots r' runner =
      last10 (take (s_len (Records d)) (drop (s_off (Records d)) a) ++ [Some n]).
Proof.
  intros Hothers Hg Hd Ha Hb Hl Hall Hn.
  destruct (RecordRequest_tail_spec r runner n id p d a Hg Hd Ha Hb Hl)
    as (r' & d' & a' & Hrun & Hlog & Hrec & Hpairs & Hdat & Hcfg & Ha' & Hb' & Hl' & Hel & Hfr).
  assert (Hp : p < length (datas r)) by (by eapply lookup_lt_Some).
  assert (Hd' : datas r' !! p = Some d') by (rewrite Hdat; by apply list_lookup_insert_eq).
  exists r'. repeat split; try done.
  - intros k p' Hk. rewrite Hrec in Hk.
    destruct (decide (p' = p)) as [->|Hne].
    + unfold data_ok. rewrite Hd'. unfold slice_ok. rewrite Ha'.
      repeat split; [done..|]. rewrite Hel, Hpairs. unfold last10.
      apply Forall_drop, Forall_app. split; [done|]. by apply Forall_singleton.
    + apply (data_ok_frame r); [by eapply Hothers | |].
      * rewrite Hdat. by apply list_lookup_insert_ne.
      * intros t Ht. rewrite Hpairs. by apply Hfr.
  - unfold slots. rewrite Hrec, Hg, Hd'. unfold slots_of. by rewrite Ha'.
Qed.

Lemma records_Get_run key r :
  records_Get key r = Returned (runnermap.Map_Get key (records r)) r.
Proof. reflexivity. Qed.

Lemma new_pair_run v r :
  new_pair v r = Returned (length (pairs r)) (with_pairs (fun h => h ++ [v]) r).
Proof. reflexivity. Qed.

Lemma new_ModelData_run r :
  new_ModelData r =
  Returned (length (datas r))
    (with_datas (fun h => h ++ [mkModelData BackendConfiguration_zero
                                            (mkSlice (length (arrays r)) 0 0)])
       (with_arrays (fun h => h ++ [replicate 10 None]) r)).
Proof. reflexivity. Qed.

Lemma RecordRequest_spec r runner req body now_id now :
  wf r ->
  exists r',
    RecordRequest runner req body now_id now r =
      Returned (runnermap.Model runner +:+ "_" +:+ pretty now_id) r' /\
    wf r' /\ log r' = log r /\
    pairs r' = pairs r ++ [new_record runner req body now_id now] /\
    slots r' runner = last10 (slots r runner ++ [Some (length (pairs r))]) /\
    runnermap.normalizeFn (records r') = runnermap.normalizeFn (records r).
Proof.
  intros Hwf. rewrite RecordRequest_unfold.
  rewrite (bind_Returned _ _ _ _ _ (new_pair_run _ _)).
  set (v := new_record runner req body now_id now).
  set (r1 := with_pairs _ r).
  rewrite (bind_Returned _ _ _ _ _ (records_Get_run _ _)).
  change (records r1) with (records r).
  destruct (runnermap.Map_Get runner (records r)) as [p|] eqn:Hg.
  - rewrite (bind_Returned _ _ r1 tt r1) by reflexivity.
    destruct (wf_Get _ _ _ Hwf Hg) as (d & a & Hd & Ha & Hb & Hl & Hall & Hs).
    destruct (RecordRequest_tail_wf r1 runner (length (pairs r))
                (runnermap.Model runner +:+ "_" +:+ pretty now_id) p d a)
      as (r' & Hrun & Hwf' & Hlog & Hpairs & Hrec & Hslots); try done.
    + intros k p' Hk _. apply (data_ok_frame r); [by apply (Hwf k) | done |].
      intros t. simpl. rewrite length_app. apply slice_ok_pairs_mono. lia.
    + simpl. rewrite length_app. eapply Forall_impl; [exact Hall|].
      intros e. apply ptr_ok_mono. lia.
    + simpl. rewrite length_app. simpl. lia.
    + exists r'. repeat split; try done.
      * by rewrite Hslots, Hs.
      * by rewrite Hrec.
  - rewrite (bind_Returned (bind new_ModelData _) _ r1 tt
               (with_records (runnermap.Map_Set runner (length (datas r)))
                  (with_datas (fun h => h ++ [mkModelData BackendConfiguration_zero
                                                (mkSlice (length (arrays r)) 0 0)])
                     (with_arrays (fun h => h ++ [replicate 10 None]) r1))))
      by reflexivity.
    set (r3 := with_records _ _).
    destruct (RecordRequest_tail_wf r3 runner (length (pairs r))
                (runnermap.Model runner +:+ "_" +:+ pretty now_id) (length (datas r))
                (mkModelData BackendConfiguration_zero (mkSlice (length (arrays r)) 0 0))
                (replicate 10 None))
      as (r' & Hrun & Hwf' & Hlog & Hpairs & Hrec & Hslots); try done.
    + intros k p' Hk Hne. simpl in Hk.
      apply lookup_insert_Some in Hk as [[_ <-]|[_ Hk]]; [done|].
      pose proof (Hwf k p' Hk) as Hok.
      apply (data_ok_frame r); [done | |].
      * simpl. apply lookup_app_l. by apply data_ok_lt.
      * intros t Ht. simpl. rewrite length_app. apply slice_ok_arrays_app.
        eapply slice_ok_pairs_mono; [|exact Ht]. lia.
    + by apply Get_Set_same.
    + simpl. by apply list_lookup_middle.
    + simpl. by apply list_lookup_middle.
    + simpl. lia.
    + simpl. lia.
    + simpl. rewrite length_app. simpl. lia.
    + exists r'. repeat split; try done.
      * rewrite Hslots. by rewrite (slots_no_entry _ _ Hg).
      * by rewrite Hrec.
Qed.

End capture_wf.

(** * The bound on the history *)

Section history_facts.
Context `{Collaborators}.
Local Open Scope list_scope.
Local Open Scope nat_scope.

Lemma last10_app_last10 {A} (x y : list A) : last10 (last10 x ++ y) = last10 (x ++ y).
Proof.
  destruct (decide (length x <= 10)) as [Hle|Hgt].
  - by rewrite (last10_short x).
  - unfold last10. rewrite !length_app, length_drop.
    rewrite !drop_app, drop_drop, length_drop.
    f_equal; f_equal; lia.
Qed.

Lemma last10_map {A B} (f : A -> B) (l : list A) : map f (last10 l) = last10 (map f l).
Proof. unfold last10. by rewrite length_map, skipn_map. Qed.

Lemma length_last10 {A} (l : list A) : length (last10 l) = min (length l) 10.
Proof. unfold last10. rewrite length_drop. lia. Qed.

Lemma wf_slots r runner : wf r -> Forall (ptr_ok (length (pairs r))) (slots r runner).
Proof.
  intros Hwf. destruct (runnermap.Map_Get runner (records r)) as [p|] eqn:Hg.
  - destruct (wf_Get _ _ _ Hwf Hg) as (d & a & _ & _ & _ & _ & Hall & ->). done.
  - by rewrite (slots_no_entry _ _ Hg).
Qed.

Lemma map_deref_app (h : list RequestResponsePair) v rs :
  Forall (ptr_ok (length h)) rs -> map (deref (h ++ [v])) rs = map (deref h) rs.
Proof.
  induction 1 as [|e rs He _ IH]; simpl; [done|]. rewrite IH. f_equal.
  destruct e as [n|]; simpl in *; [|done]. by apply lookup_app_l.
Qed.

Lemma history_RecordRequest r r' runner v :
  wf r ->
  pairs r' = pairs r ++ [v] ->
  slots r' runner = last10 (slots r runner ++ [Some (length (pairs r))]) ->
  history r' runner = last10 (history r runner ++ [Some v]).
Proof.
  intros Hwf Hp Hs. unfold history. rewrite Hs, Hp, last10_map, map_app.
  rewrite (map_deref_app _ _ _ (wf_slots _ runner Hwf)). simpl.
  by rewrite list_lookup_middle.
Qed.

Lemma capture_all_spec runner cs : forall r,
  wf r ->
  exists ids r',
    capture_all runner cs r = Returned ids r' /\
    wf r' /\
    length ids = length cs /\
    history r' runner =
      last10 (history r runner ++ map (fun c => Some (record_of runner c)) cs).
Proof.
  induction cs as [|c cs IH]; intros r Hwf; simpl.
  - exists [], r. repeat split; [done..|].
    rewrite app_nil_r. symmetry. apply last10_short.
    unfold history. rewrite length_map.
    destruct (runnermap.Map_Get runner (records r)) as [p|] eqn:Hg.
    + destruct (wf_Get _ _ _ Hwf Hg) as (d & a & _ & _ & Hb & Hl & _ & ->).
      rewrite length_take. lia.
    + rewrite (slots_no_entry _ _ Hg). simpl. lia.
  - destruct (RecordRequest_spec r runner (c_req c) (c_body c) (c_now_id c) (c_now c) Hwf)
      as (r1 & Hrun & Hwf1 & _ & Hp1 & Hs1 & _).
    destruct (IH r1 Hwf1) as (ids & r' & Hrun' & Hwf' & Hlen & Hh).
    rewrite (bind_Returned _ _ _ _ _ Hrun), (bind_Returned _ _ _ _ _ Hrun').
    eexists _, r'. split; [reflexivity|]. repeat split; [done | simpl; lia |].
    rewrite Hh, (history_RecordRequest r r1 runner _ Hwf Hp1 Hs1).
    rewrite last10_app_last10. by rewrite <- app_assoc.
Qed.

Lemma wf_NewOpenAIRecorder f : wf (NewOpenAIRecorder f).
Proof. apply map_Forall_empty. Qed.

End history_facts.

(** C2: N captures against a key leave the last ten of the records the key
    had and the ones captured, in the order of capture, so never more than
    ten; for a key that had no record, that is min(N, 10) records, the last
    ones captured, and once N > 10 the earliest one kept is the one captured
    at position N - 9. *)
Theorem C2_fifo_bound `{Collaborators} (r : OpenAIRecorder) (runner : runnermap.Key)
        (cs : list capture) :
  wf r ->
  exists ids r',
    capture_all runner cs r = Returned ids r' /\
    history r' runner =
      last10 (history r runner ++ map (fun c => Some (record_of runner c)) cs) /\
    length (history r' runner) = min (length (history r runner) + length cs) 10 /\
    (history r runner = [] ->
     history r' runner = map (fun c => Some (record_of runner c)) (drop (length cs - 10) cs) /\
     length (history r' runner) = min (length cs) 10 /\
     (10 < length cs ->
      head (history r' runner) =
        (fun c => Some (record_of runner c)) <$> cs !! (length cs - 10))).
Proof.
  intros Hwf.
  destruct (capture_all_spec runner cs r Hwf) as (ids & r' & Hrun & _ & _ & Hh).
  exists ids, r'. split; [done|]. split; [done|]. split.
  { rewrite Hh, length_last10, length_app, length_map. done. }
  intros Hnil.
  assert (Hh' : history r' runner =
                map (fun c => Some (record_of runner c)) (drop (length cs - 10) cs)).
  { rewrite Hh, Hnil. simpl. rewrite <- last10_map. reflexivity. }
  repeat split; [done | |].
  - rewrite Hh', length_map, length_drop. lia.
  - intros Hlt. rewrite Hh'.
    destruct (lookup_lt_is_Some_2 cs (length cs - 10)) as [c Hc]; [lia|].
    rewrite Hc. simpl.
    rewrite (drop_S _ _ _ Hc). reflexivity.
Qed.

Lemma C2_fifo_bound_witness :
  let r := NewOpenAIRecorder ToLower in
  let cs := map example_capture (seq 1 12) in
  wf r /\
  history r example_key = [] /\
  exists ids r',
    capture_all example_key cs r = Returned ids r' /\
    length (history r' example_key) = 10 /\
    head (history r' example_key) = Some (Some (record_of example_key (example_capture 3))).
Proof.
  intros r cs.
  assert (Hwf : wf r) by apply wf_NewOpenAIRecorder.
  assert (Hnil : history r example_key = []) by reflexivity.
  destruct (C2_fifo_bound r example_key cs Hwf) as (ids & r' & Hrun & _ & _ & Hempty).
  destruct (Hempty Hnil) as (_ & Hlen & Hhead).
  split; [exact Hwf|]. split; [exact Hnil|].
  exists ids, r'. split; [exact Hrun|]. split; [exact Hlen|].
  apply Hhead. simpl. lia.
Defined.

(** * Response capture *)

Lemma wf_example_recorder n : wf (example_recorder n).
Proof.
  unfold example_recorder.
  destruct (capture_all_spec example_key (map example_capture (seq 1 n))
              (NewOpenAIRecorder ToLower) (wf_NewOpenAIRecorder _))
    as (ids & r' & -> & Hwf & _).
  exact Hwf.
Qed.

(** C4: a response whose id is the id of no current record of its key, or
    whose key has no entry, changes no record and nothing else of what is
    stored: the call returns, and the only trace is one error sent to the
    logger. *)
Theorem C4_late_response_discarded `{Collaborators} (r : OpenAIRecorder) (id : string)
        (runner : runnermap.Key) (rr : responseRecorder) :
  wf r ->
  first_match (pairs r) id (slots r runner) = None ->
  exists msg r',
    RecordResponse id runner (recorderWriter rr) r = Returned tt r' /\
    pairs r' = pairs r /\ arrays r' = arrays r /\ datas r' = datas r /\
    records r' = records r /\
    history r' runner = history r runner /\
    log r' = (log r ++ [(Error, msg)])%list.
Proof.
  intros Hwf Hm.
  destruct (runnermap.Map_Get runner (records r)) as [p|] eqn:Hg.
  - eexists _, _. split.
    + apply RecordResponse_no_match; [done | by rewrite Hg | done].
    + repeat split.
  - eexists _, _. split.
    + by apply RecordResponse_no_entry.
    + repeat split.
Qed.

Lemma C4_late_response_discarded_witness :
  let r := example_recorder 11 in
  let rr := mkResponseRecorder (otherWriter (http.mkConn [] true)) (dquote "{'late':true}") 200 in
  wf r /\
  first_match (pairs r) "ai/smollm2_1" (slots r example_key) = None /\
  exists msg r',
    RecordResponse "ai/smollm2_1" example_key (recorderWriter rr) r = Returned tt r' /\
    pairs r' = pairs r /\
    log r' = (log r ++ [(Error, msg)])%list.
Proof.
  intros r rr.
  assert (Hwf : wf r) by apply wf_example_recorder.
  assert (Hm : first_match (pairs r) "ai/smollm2_1" (slots r example_key) = None)
    by (vm_compute; reflexivity).
  destruct (C4_late_response_discarded r "ai/smollm2_1" example_key rr Hwf Hm)
    as (msg & r' & Hrun & Hp & _ & _ & _ & _ & Hlog).
  split; [exact Hwf|]. split; [exact Hm|].
  exists msg, r'. split; [exact Hrun|]. split; [exact Hp | exact Hlog].
Defined.

(** C6: the response stored for the record with the id is the buffered body
    itself when the body does not contain "data: ", and the reconstruction of
    the body when it does; the status code stored is the one tracked. *)
Theorem C6_raw_body_unless_streamed `{Collaborators} (r : OpenAIRecorder) (id : string)
        (runner : runnermap.Key) (rr : responseRecorder) (p : nat) :
  wf r ->
  first_match (pairs r) id (slots r runner) = Some p ->
  exists v r',
    pairs r !! p = Some v /\ ID v = id /\
    RecordResponse id runner (recorderWriter rr) r = Returned tt r' /\
    Response <$> pairs r' !! p =
      Some (if strings_Contains (rr_body rr) "data: "
            then convertStreamingResponse (rr_body rr)
            else rr_body rr) /\
    (strings_Contains (rr_body rr) "data: " = false ->
     Response <$> pairs r' !! p = Some (rr_body rr)) /\
    (strings_Contains (rr_body rr) "data: " = true ->
     Response <$> pairs r' !! p = Some (convertStreamingResponse (rr_body rr))) /\
    StatusCode <$> pairs r' !! p = Some (rr_statusCode rr).
Proof.
  intros Hwf Hm.
  destruct (RecordResponse_match r id runner rr p Hwf Hm) as (v & Hv & Hid & Hrun).
  assert (Hp : p < length (pairs r)) by (by eapply lookup_lt_Some).
  eexists v, _. split; [done|]. split; [done|]. split; [exact Hrun|].
  simpl. rewrite list_lookup_insert_eq by done. simpl. unfold response_of.
  repeat split.
  - by intros ->.
  - by intros ->.
Qed.

Lemma C6_raw_body_unless_streamed_witness :
  let r := example_recorder 3 in
  let body := dquote "{'choices':[{'message':{'role':'assistant','content':'Hi'}}]}" in
  let rr := mkResponseRecorder (otherWriter (http.mkConn [] true)) body 200 in
  wf r /\
  first_match (pairs r) "ai/smollm2_2" (slots r example_key) = Some 1 /\
  strings_Contains body "data: " = false /\
  exists r',
    RecordResponse "ai/smollm2_2" example_key (recorderWriter rr) r = Returned tt r' /\
    Response <$> pairs r' !! 1 = Some body.
Proof.
  intros r body rr.
  assert (Hwf : wf r) by apply wf_example_recorder.
  assert (Hm : first_match (pairs r) "ai/smollm2_2" (slots r example_key) = Some 1)
    by (vm_compute; reflexivity).
  assert (Hc : strings_Contains body "data: " = false) by (vm_compute; reflexivity).
  destruct (C6_raw_body_unless_streamed r "ai/smollm2_2" example_key rr 1 Hwf Hm)
    as (v & r' & _ & _ & Hrun & _ & Hraw & _).
  split; [exact Hwf|]. split; [exact Hm|]. split; [exact Hc|].
  exists r'. split; [exact Hrun | exact (Hraw Hc)].
Defined.

(** C10: [RecordResponse] asserts that its writer is a [*responseRecorder].
    For a writer of another type the call panics with the state as it was;
    what [NewResponseRecorder] returns is a [*responseRecorder] and stays one
    under [Write], [WriteHeader] and [Flush]; and for such a writer, on
    well-formed memory, the call returns. *)
Theorem C10_unchecked_type_assertion `{Collaborators} (r : OpenAIRecorder) (id : string)
        (runner : runnermap.Key) :
  (forall c, RecordResponse id runner (otherWriter c) r = Panicked r) /\
  (forall w, is_responseRecorder (NewResponseRecorder w) = true) /\
  (forall rw b, is_responseRecorder rw = true -> is_responseRecorder (Write rw b) = true) /\
  (forall rw c, is_responseRecorder rw = true -> is_responseRecorder (WriteHeader rw c) = true) /\
  (forall rw, is_responseRecorder rw = true -> is_responseRecorder (Flush rw) = true) /\
  (forall rw, is_responseRecorder rw = false -> RecordResponse id runner rw r = Panicked r) /\
  (wf r ->
   forall rw, is_responseRecorder rw = true ->
     exists r', RecordResponse id runner rw r = Returned tt r').
Proof.
  repeat split.
  - intros [c|[inner body sc]] b; [done|]. by simpl.
  - intros [c|[inner body sc]] b; [done|]. by simpl.
  - intros [c|[inner body sc]]; [done|]. simpl. by destruct (is_Flusher inner).
  - intros [c|rr]; [done|]. by simpl.
  - intros Hwf [c|rr]; [done|]. intros _.
    destruct (first_match (pairs r) id (slots r runner)) as [p|] eqn:Hm.
    + destruct (RecordResponse_match r id runner rr p Hwf Hm) as (v & _ & _ & Hrun). eauto.
    + destruct (runnermap.Map_Get runner (records r)) as [q|] eqn:Hg.
      * eexists. apply RecordResponse_no_match; [done | by rewrite Hg | done].
      * eexists. by apply RecordResponse_no_entry.
Qed.

Lemma C10_unchecked_type_assertion_witness :
  let r := example_recorder 1 in
  let plain := otherWriter (http.mkConn [] true) in
  let rw := Write (WriteHeader (NewResponseRecorder plain) 200) "ok" in
  wf r /\
  is_responseRecorder rw = true /\
  RecordResponse "ai/smollm2_1" example_key plain r = Panicked r /\
  exists r', RecordResponse "ai/smollm2_1" example_key rw r = Returned tt r'.
Proof.
  intros r plain rw.
  assert (Hwf : wf r) by apply wf_example_recorder.
  destruct (C10_unchecked_type_assertion r "ai/smollm2_1" example_key)
    as (Hp & _ & _ & _ & _ & _ & Hret).
  split; [exact Hwf|]. split; [reflexivity|]. split; [exact (Hp _)|].
  exact (Hret Hwf rw eq_refl).
Defined.

(** * Queries *)

Section query_facts.
Context `{Collaborators}.
Local Open Scope list_scope.
Local Open Scope nat_scope.

Lemma make_run len c r :
  make len c r =
  Returned (mkSlice (length (arrays r)) 0 len)
           (with_arrays (fun h => h ++ [replicate c None]) r).
Proof. reflexivity. Qed.

Lemma new_data_run d r :
  new_data d r = Returned (length (datas r)) (with_datas (fun h => h ++ [d]) r).
Proof. reflexivity. Qed.

Lemma copy_fresh r src a :
  arrays r !! s_array src = Some a ->
  s_off src + s_len src <= length a ->
  copy (mkSlice (length (arrays r)) 0 (s_len src)) src
       (with_arrays (fun h => h ++ [replicate (s_len src) None]) r) =
  Returned (s_len src)
           (with_arrays (fun h => h ++ [take (s_len src) (drop (s_off src) a)]) r).
Proof.
  intros Ha Hb.
  set (r1 := with_arrays _ r).
  assert (Ha1 : arrays r1 !! s_array src = Some a) by (by apply lookup_app_l_Some).
  assert (Hd1 : arrays r1 !! s_array (mkSlice (length (arrays r)) 0 (s_len src)) =
                Some (replicate (s_len src) None)) by (by apply list_lookup_middle).
  unfold copy.
  rewrite (bind_Returned _ _ _ _ _ (elements_Some _ _ _ Ha1)).
  rewrite (bind_Returned _ _ _ _ _ (load_array_Some _ _ _ Hd1)).
  rewrite (bind_Returned _ _ _ _ _ (modify_run _ _)).
  unfold ret. simpl. rewrite Nat.min_id. f_equal.
  unfold with_arrays. simpl. f_equal.
  rewrite insert_app_r_alt by done. rewrite Nat.sub_diag. simpl.
  rewrite drop_replicate, Nat.sub_diag. simpl. rewrite app_nil_r.
  rewrite take_take, Nat.min_id. done.
Qed.

Lemma GetModelData_Some r model p d a :
  runnermap.Map_Get (runnerKey model) (records r) = Some p ->
  datas r !! p = Some d ->
  arrays r !! s_array (Records d) = Some a ->
  s_off (Records d) + s_len (Records d) <= length a ->
  GetModelData model r =
  Returned (Some (length (datas r)))
    (with_datas (fun h => h ++ [mkModelData (Config d)
                                  (mkSlice (length (arrays r)) 0 (s_len (Records d)))])
       (with_arrays (fun h => h ++ [take (s_len (Records d)) (drop (s_off (Records d)) a)]) r)).
Proof.
  intros Hg Hd Ha Hb. unfold GetModelData.
  rewrite (bind_Returned _ _ _ _ _ (records_Get_run _ _)). rewrite Hg.
  rewrite (bind_Returned _ _ _ _ _ (load_data_Some _ _ _ Hd)).
  rewrite (bind_Returned _ _ _ _ _ (make_run _ _ _)).
  rewrite (bind_Returned _ _ _ _ _ (copy_fresh _ _ _ Ha Hb)).
  rewrite (bind_Returned _ _ _ _ _ (new_data_run _ _)).
  reflexivity.
Qed.

Lemma GetModelData_None r model :
  runnermap.Map_Get (runnerKey model) (records r) = None ->
  GetModelData model r = Returned None r.
Proof.
  intros Hg. unfold GetModelData.
  rewrite (bind_Returned _ _ _ _ _ (records_Get_run _ _)). by rewrite Hg.
Qed.

End query_facts.

Section handler_facts.
Context `{Collaborators}.
Local Open Scope list_scope.
Local Open Scope nat_scope.

Lemma pointees_run rs r :
  pointees rs r = Returned (map (deref (pairs r)) rs) r.
Proof. reflexivity. Qed.

Lemma handler_known r req p d a :
  let model := http.Values_Get (http.URL_Query req) "model" in
  model <> "" ->
  runnermap.Map_Get (runnerKey model) (records r) = Some p ->
  datas r !! p = Some d ->
  arrays r !! s_array (Records d) = Some a ->
  s_off (Records d) + s_len (Records d) <= length a ->
  exists r',
    GetRecordsByModelHandler req r =
      Returned (reply_for model (Config d) (history r (runnerKey model))) r' /\
    log r' = log r /\ records r' = records r /\ pairs r' = pairs r /\
    history r' (runnerKey model) = history r (runnerKey model).
Proof.
  intros model Hne Hg Hd Ha Hb.
  assert (Hlen : length (take (s_len (Records d)) (drop (s_off (Records d)) a))
                 = s_len (Records d))
    by (rewrite length_take, length_drop; lia).
  assert (Hslots : slots r (runnerKey model) =
                   take (s_len (Records d)) (drop (s_off (Records d)) a)).
  { unfold slots, slots_of. by rewrite Hg, Hd, Ha. }
  unfold GetRecordsByModelHandler. fold model.
  apply String.eqb_neq in Hne. rewrite Hne.
  rewrite (bind_Returned _ _ _ _ _ (GetModelData_Some r model p d a Hg Hd Ha Hb)).
  set (r1 := with_datas _ _).
  assert (Hq : datas r1 !! length (datas r) =
               Some (mkModelData (Config d)
                       (mkSlice (length (arrays r)) 0 (s_len (Records d)))))
    by (by apply list_lookup_middle).
  rewrite (bind_Returned _ _ _ _ _ (load_data_Some _ _ _ Hq)).
  assert (Hes : arrays r1 !! s_array (mkSlice (length (arrays r)) 0 (s_len (Records d))) =
                Some (take (s_len (Records d)) (drop (s_off (Records d)) a)))
    by (by apply list_lookup_middle).
  rewrite (bind_Returned _ _ _ _ _ (elements_Some _ _ _ Hes)).
  rewrite (bind_Returned _ _ _ _ _ (pointees_run _ _)).
  cbn [Records Config s_len s_off]. rewrite drop_0.
  rewrite (take_ge _ (s_len (Records d))) by lia.
  change (pairs r1) with (pairs r).
  assert (Hh : history r (runnerKey model) =
               map (deref (pairs r)) (take (s_len (Records d)) (drop (s_off (Records d)) a)))
    by (unfold history; by rewrite Hslots).
  rewrite <- Hh.
  assert (Hn : s_len (Records d) = length (history r (runnerKey model))).
  { rewrite Hh, length_map. lia. }
  assert (Hh1 : history r1 (runnerKey model) = history r (runnerKey model)).
  { subst r1. unfold history, slots. simpl. rewrite Hg.
    rewrite (lookup_app_l_Some _ _ _ _ Hd), Hd. unfold slots_of.
    by rewrite (lookup_app_l_Some _ _ _ _ Ha), Ha. }
  rewrite Hn. fold (reply_for model (Config d) (history r (runnerKey model))).
  exists r1. split.
  - unfold reply_for. by destruct (Encode _).
  - by repeat split.
Qed.

End handler_facts.

(** C8: the handler replies 400 with "A 'model' query parameter is required"
    exactly when the model parameter is empty, 404 with "No records found for
    model '<model>'" exactly when it is not empty and the model has no entry,
    and otherwise with the encoding of {model, records, count, config}, where
    count is the length of the records, under status 200, or with 500 when
    the encoder fails.  The query leaves the history as it is. *)
Theorem C8_query_handler `{Collaborators} (r : OpenAIRecorder) (req : http.Request) :
  wf r ->
  let model := http.Values_Get (http.URL_Query req) "model" in
  let key := runnerKey model in
  exists rp r',
    GetRecordsByModelHandler req r = Returned rp r' /\
    history r' key = history r key /\
    (status_of rp = http.StatusBadRequest <-> model = "") /\
    (model = "" ->
     rp = reply_Error "A 'model' query parameter is required" http.StatusBadRequest) /\
    (status_of rp = http.StatusNotFound <->
     model <> "" /\ runnermap.Map_Get key (records r) = None) /\
    (model <> "" -> runnermap.Map_Get key (records r) = None ->
     rp = reply_Error ("No records found for model '" +:+ model +:+ "'") http.StatusNotFound) /\
    (model <> "" -> forall cfg, stored_config r key = Some cfg ->
     rp = reply_for model cfg (history r key)) /\
    (forall body, rp = reply_Body body ->
     exists cfg,
       stored_config r key = Some cfg /\
       Encode (mkPayload model (history r key) (Z.of_nat (length (history r key))) cfg)
         = Encoded body) /\
    (status_of rp = http.StatusInternalServerError ->
     exists cfg err,
       stored_config r key = Some cfg /\
       Encode (mkPayload model (history r key) (Z.of_nat (length (history r key))) cfg)
         = EncodeError err).
Proof.
  intros Hwf model key.
  destruct (String.eqb model "") eqn:Em.
  - apply String.eqb_eq in Em.
    exists (reply_Error "A 'model' query parameter is required" http.StatusBadRequest), r.
    split.
    { unfold GetRecordsByModelHandler. fold model. rewrite Em. reflexivity. }
    repeat split; try done; try (by intros []).
  - apply String.eqb_neq in Em.
    destruct (runnermap.Map_Get key (records r)) as [p|] eqn:Hg.
    + destruct (wf_Get _ _ _ Hwf Hg) as (d & a & Hd & Ha & Hb & _ & _ & _).
      destruct (handler_known r req p d a Em Hg Hd Ha Hb) as (r' & Hrun & _ & _ & _ & Hh).
      assert (Hcfg : stored_config r key = Some (Config d))
        by (unfold stored_config; by rewrite Hg, Hd).
      exists (reply_for model (Config d) (history r key)), r'.
      split; [exact Hrun|]. split; [exact Hh|].
      unfold reply_for.
      destruct (Encode _) as [body|err] eqn:He; simpl;
        repeat split;
        first [ done
              | by intros []
              | by (intros _ cfg Hc; rewrite Hcfg in Hc; simplify_eq; rewrite He)
              | by (intros body' Hb'; simplify_eq; eauto)
              | by (intros _; eauto) ].
    + exists (reply_Error ("No records found for model '" +:+ model +:+ "'") http.StatusNotFound), r.
      split.
      { unfold GetRecordsByModelHandler. fold model.
        apply String.eqb_neq in Em. rewrite Em.
        by rewrite (bind_Returned _ _ _ _ _ (GetModelData_None r model Hg)). }
      assert (Hcfg : stored_config r key = None) by (unfold stored_config; by rewrite Hg).
      repeat split;
        first [ done
              | by (intros _ cfg Hc; rewrite Hcfg in Hc) ].
Qed.

Lemma C8_query_handler_witness :
  let r := example_recorder 1 in
  let req := http.mkRequest "GET" "/requests" {[ "model" := ["ai/smollm2"] ]} "curl/8.5.0" in
  wf r /\
  exists r',
    GetRecordsByModelHandler req r =
      Returned
        (reply_Body
           (dquote "{'config':0,'count':1,'model':'ai/smollm2','records':[{'id':'ai/smollm2_1','model':'ai/smollm2','method':'POST','url':'/engines/v1/chat/completions','request':'{\'n\':1}','response':'','timestamp':1,'status_code':0,'user_agent':'curl/8.5.0'}]}" +:+ nl)) r'.
Proof.
  intros r req.
  assert (Hwf : wf r) by apply wf_example_recorder.
  split; [exact Hwf|].
  destruct (C8_query_handler r req Hwf) as (rp & r' & Hrun & _ & _ & _ & _ & _ & Hk & _).
  exists r'. rewrite Hrun. f_equal.
  rewrite (Hk ltac:(discriminate) 0%Z); vm_compute; reflexivity.
Defined.

(** * What a caller can reach through a query result *)

Section privacy_facts.
Context `{Collaborators}.
Local Open Scope list_scope.
Local Open Scope nat_scope.

Lemma Returned_state_of {A} (o : outcome A) a :
  value_of o = Some a -> o = Returned a (state_of o).
Proof. destruct o; simpl; [by intros [= ->] | done]. Qed.













End privacy_facts.



(** * More on the map of runners *)

Section runnermap_more.
Import runnermap.
Local Open Scope list_scope.

Lemma normalizeFn_map_run {T} (ops : list (map_op T)) rm :
  normalizeFn (map_run ops rm) = normalizeFn rm.
Proof.
  revert rm. induction ops as [|o ops IH]; intros rm; [done|].
  unfold map_run in *. simpl. rewrite IH. by destruct o.
Qed.

(** What the two Go maps have in common, and keep in common. *)
Lemma map_run_in_step {T} (ops : list (map_op T)) rm :
  (forall k, is_Some (m rm !! k) <-> is_Some (initialModel rm !! k)) ->
  (forall k raw, initialModel rm !! k = Some raw -> Model k = normalizeFn rm raw) ->
  (forall k, is_Some (m (map_run ops rm) !! k) <->
             is_Some (initialModel (map_run ops rm) !! k)) /\
  (forall k raw, initialModel (map_run ops rm) !! k = Some raw ->
                 Model k = normalizeFn rm raw).
Proof.
  revert rm. induction ops as [|o ops IH]; intros rm Hdom Hraw; [done|].
  unfold map_run in *. simpl.
  assert (Hn : normalizeFn (map_step rm o) = normalizeFn rm) by (by destruct o).
  rewrite <- Hn. apply IH; rewrite ?Hn.
  - intros k. destruct o as [key value|key]; simpl.
    + destruct (decide (normalizeKey rm key = k)) as [<-|Hne].
      * rewrite !lookup_insert_eq. by split.
      * rewrite !lookup_insert_ne by done. apply Hdom.
    + destruct (decide (normalizeKey rm key = k)) as [<-|Hne].
      * rewrite !lookup_delete_eq. by split; intros [? ?].
      * rewrite !lookup_delete_ne by done. apply Hdom.
  - intros k raw. destruct o as [key value|key]; simpl.
    + destruct (decide (normalizeKey rm key = k)) as [<-|Hne].
      * rewrite lookup_insert_eq. by intros [= <-].
      * rewrite lookup_insert_ne by done. apply Hraw.
    + destruct (decide (normalizeKey rm key = k)) as [<-|Hne].
      * by rewrite lookup_delete_eq.
      * rewrite lookup_delete_ne by done. apply Hraw.
Qed.

(** X1: after any sequence of [Set] and [Delete] on a new map, a key has a
    value exactly when it has a raw model in the side map, and that raw
    model normalizes to the model of the key: every stored key is in
    normal form.  So [GetInitialModel] gives the empty string for a key
    that [Get] does not find. *)
Theorem X1_maps_in_step {T} (f : string -> string) (ops : list (map_op T)) (k : Key) :
  let rm := map_run ops (New f) in
  (is_Some (m rm !! k) <-> is_Some (initialModel rm !! k)) /\
  (forall raw, initialModel rm !! k = Some raw -> Model k = f raw) /\
  (forall v, m rm !! k = Some v -> exists raw, Model k = f raw) /\
  (Map_Get k rm = None -> Map_GetInitialModel k rm = "").
Proof.
  intros rm.
  destruct (map_run_in_step ops (New f)) as [Hdom Hraw].
  { intros k'. simpl. rewrite !lookup_empty. by split; intros [? ?]. }
  { intros k' raw. simpl. by rewrite lookup_empty. }
  fold rm in Hdom, Hraw. simpl in Hraw.
  split; [apply Hdom|]. split; [apply Hraw|]. split.
  - intros v Hv. destruct (proj1 (Hdom k)) as [raw Hr]; [by eexists|].
    exists raw. by apply Hraw.
  - unfold Map_Get, Map_GetInitialModel. intros Hg.
    destruct (initialModel rm !! normalizeKey rm k) as [raw|] eqn:Hi; [|done].
    destruct (proj2 (Hdom (normalizeKey rm k))) as [v Hv]; [by eexists|]. congruence.
Qed.

Lemma X1_maps_in_step_witness :
  let k1 := mkKey "llama.cpp" "AI/SmolLM2" BackendModeCompletion in
  let k2 := mkKey "llama.cpp" "ai/smollm2" BackendModeCompletion in
  let rm : Map nat := map_run [op_Set k1 1; op_Delete k2] (New ToLower) in
  Map_Get k1 rm = None /\ Map_GetInitialModel k1 rm = "".
Proof.
  intros k1 k2 rm.
  assert (Hg : Map_Get k1 rm = None) by (vm_compute; reflexivity).
  destruct (X1_maps_in_step ToLower [op_Set k1 1; op_Delete k2] k1) as (_ & _ & _ & Hnone).
  split; [exact Hg | exact (Hnone Hg)].
Defined.

(** X2: a [Set] or a [Delete] with one key changes nothing for a key of
    another slot: [Get] and [GetInitialModel] with it give what they gave
    before. *)
Theorem X2_other_slot_untouched {T} (rm : Map T) (k1 k2 : Key) (v : T) :
  normalizeKey rm k1 <> normalizeKey rm k2 ->
  Map_Get k2 (Map_Set k1 v rm) = Map_Get k2 rm /\
  Map_GetInitialModel k2 (Map_Set k1 v rm) = Map_GetInitialModel k2 rm /\
  Map_Get k2 (Map_Delete k1 rm) = Map_Get k2 rm /\
  Map_GetInitialModel k2 (Map_Delete k1 rm) = Map_GetInitialModel k2 rm.
Proof.
  intros Hne. unfold Map_Get, Map_GetInitialModel. simpl.
  rewrite !lookup_insert_ne, !lookup_delete_ne by done. done.
Qed.

Lemma X2_other_slot_untouched_witness :
  let rm : Map nat := Map_Set (mkKey "llama.cpp" "ai/smollm2" BackendModeCompletion) 1 (New ToLower) in
  let k1 := mkKey "llama.cpp" "AI/SmolLM2" BackendModeEmbedding in
  let k2 := mkKey "llama.cpp" "ai/smollm2" BackendModeCompletion in
  normalizeKey rm k1 <> normalizeKey rm k2 /\
  Map_Get k2 (Map_Set k1 2 rm) = Some 1 /\
  Map_Get k2 (Map_Delete k1 rm) = Some 1.
Proof.
  intros rm k1 k2.
  assert (Hne : normalizeKey rm k1 <> normalizeKey rm k2) by discriminate.
  destruct (X2_other_slot_untouched rm k1 k2 2 Hne) as (Hs & _ & Hd & _).
  split; [exact Hne|]. split; [by rewrite Hs | by rewrite Hd].
Defined.

(** X3: a [Set] with a second spelling of a model takes the place of the
    first: the map has as many entries as before, both spellings find the
    new value, and [Items] has it under the normalized key. *)
Theorem X3_one_entry_per_slot {T} (rm : Map T) (k1 k2 : Key) (v1 v2 : T) :
  same_slot rm k1 k2 ->
  let rm' := Map_Set k2 v2 (Map_Set k1 v1 rm) in
  size (Map_Items rm') = size (Map_Items (Map_Set k1 v1 rm)) /\
  Map_Get k1 rm' = Some v2 /\ Map_Get k2 rm' = Some v2 /\
  Map_Items rm' !! normalizeKey rm k1 = Some v2.
Proof.
  intros Hs rm'. pose proof (same_slot_normalizeKey rm k1 k2 Hs) as E.
  rewrite !Items_m. subst rm'. unfold Map_Get, Map_Set.
  cbn [m].
  change (normalizeKey _ k2) with (normalizeKey rm k2).
  change (normalizeKey _ k1) with (normalizeKey rm k1).
  rewrite <- E. rewrite insert_insert_eq, !lookup_insert_eq.
  repeat split. by rewrite !map_size_insert.
Qed.

Lemma X3_one_entry_per_slot_witness :
  let rm : Map nat := New ToLower in
  let k1 := mkKey "llama.cpp" "AI/SmolLM2" BackendModeCompletion in
  let k2 := mkKey "llama.cpp" "ai/smollm2" BackendModeCompletion in
  same_slot rm k1 k2 /\
  size (Map_Items (Map_Set k2 2 (Map_Set k1 1 rm))) = 1 /\
  Map_Get k1 (Map_Set k2 2 (Map_Set k1 1 rm)) = Some 2.
Proof.
  intros rm k1 k2.
  assert (Hs : same_slot rm k1 k2) by (repeat split; reflexivity).
  destruct (X3_one_entry_per_slot rm k1 k2 1 2 Hs) as (Hsz & Hg & _).
  split; [exact Hs|]. split; [|exact Hg].
  rewrite Hsz. reflexivity.
Defined.

End runnermap_more.
(** * The capturing writer *)

Section writer.
Local Open Scope list_scope.

Lemma string_app_nil_r (s : string) : s +:+ "" = s.
Proof. induction s as [|c s IH]; [done|]. by rewrite string_app_cons, IH. Qed.

Lemma string_app_assoc (a b c : string) : (a +:+ b) +:+ c = a +:+ (b +:+ c).
Proof. induction a as [|x a IH]; [done|]. by rewrite !string_app_cons, IH. Qed.

Lemma is_Flusher_perform w c : is_Flusher (perform w c) = is_Flusher w.
Proof.
  destruct c, w as [c0|[inner body sc]]; simpl; try done.
  by destruct (is_Flusher inner).
Qed.

Lemma perform_all_recorder cs : forall inner body statusCode,
  perform_all cs (recorderWriter (mkResponseRecorder inner body statusCode)) =
  recorderWriter
    (mkResponseRecorder (perform_all (forwarded (is_Flusher inner) cs) inner)
                        (body +:+ written cs) (last_status statusCode cs)).
Proof.
  induction cs as [|c cs IH]; intros inner body statusCode.
  - simpl. by rewrite string_app_nil_r.
  - unfold perform_all in *. destruct c as [b|sc|]; cbn [fold_left perform].
    + cbn [Write]. rewrite IH. cbn [forwarded List.filter fold_left perform written last_status].
      rewrite string_app_assoc.
      pose proof (is_Flusher_perform inner (http.call_Write b)) as E.
      cbn [perform] in E. by rewrite E.
    + cbn [WriteHeader]. rewrite IH.
      cbn [forwarded List.filter fold_left perform written last_status].
      pose proof (is_Flusher_perform inner (http.call_WriteHeader sc)) as E.
      cbn [perform] in E. by rewrite E.
    + cbn [Flush forwarded List.filter written last_status].
      destruct (is_Flusher inner) eqn:E.
      * rewrite IH. cbn [fold_left perform].
        pose proof (is_Flusher_perform inner http.call_Flush) as E'.
        cbn [perform] in E'. by rewrite E', E.
      * rewrite IH. by rewrite E.
Qed.

End writer.

(** X4: a writer made by [NewResponseRecorder] and used for any calls of
    [Write], [WriteHeader] and [Flush] is still a recorder; its buffer holds
    the bytes of the [Write] calls in order, its status is the one of the
    last [WriteHeader], 200 when there was none, and the writer behind it
    has received the same calls, the [Flush] calls only when it is an
    [http.Flusher]. *)
Theorem X4_recorder_tracks (w : ResponseWriter) (cs : list http.call) :
  perform_all cs (NewResponseRecorder w) =
  recorderWriter
    (mkResponseRecorder (perform_all (forwarded (is_Flusher w) cs) w)
                        (written cs) (last_status http.StatusOK cs)).
Proof. unfold NewResponseRecorder. by rewrite perform_all_recorder. Qed.
(** * More on the stream reconstruction *)

Section streams.
Local Open Scope list_scope.

Lemma string_concat_cons_empty (x : string) (l : list string) :
  String.concat "" (x :: l) = x +:+ String.concat "" l.
Proof. destruct l as [|y l]; simpl; [by rewrite string_app_nil_r | done]. Qed.

Lemma fragments_cons chunk chunks :
  fragments (chunk :: chunks) = default "" (delta_content chunk) +:+ fragments chunks.
Proof. unfold fragments. cbn [map]. apply string_concat_cons_empty. Qed.

Lemma scan_lines_chunks ts : forall chunks post content lastChunk,
  Forall2 (fun t chunk => json_Unmarshal t = UnmarshalOk chunk) ts chunks ->
  scan_lines (map data_line ts ++ post) content lastChunk =
  scan_lines post (content +:+ fragments chunks) (default lastChunk (last chunks)).
Proof.
  induction ts as [|t ts IH]; intros chunks post content lastChunk Hall.
  - apply Forall2_nil_inv_l in Hall as ->. simpl. by rewrite string_app_nil_r.
  - apply Forall2_cons_inv_l in Hall as (chunk & chunks' & Hu & Hall & ->).
    cbn [map app]. unfold data_line at 1.
    rewrite (scan_lines_chunk _ _ _ _ _ Hu), (IH _ _ _ _ Hall).
    rewrite fragments_cons, string_app_assoc.
    f_equal. rewrite last_cons. by destruct (last chunks').
Qed.

Lemma scan_lines_after_done pre post post' : forall content lastChunk,
  scan_lines (pre ++ "data: [DONE]" :: post) content lastChunk =
  scan_lines (pre ++ "data: [DONE]" :: post') content lastChunk.
Proof.
  induction pre as [|line pre IH]; intros content lastChunk; [done|].
  cbn [app scan_lines]. repeat case_match; auto.
Qed.

Lemma materialize_no_first_choice content m :
  has_first_choice m = false -> materialize content m = m.
Proof.
  unfold has_first_choice, materialize.
  destruct (as_slice (map_get "choices" m)) as [[|[] ?]|]; simpl; done.
Qed.

Lemma single_line_data t : single_line t -> single_line (data_line t).
Proof.
  unfold single_line, data_line. intros Ht.
  assert (Hpre : forall p, single_line p -> strings_Contains (p +:+ t) nl = false).
  { induction p as [|c p IHp]; intros Hp; [done|].
    apply single_line_cons in Hp as [Hc Hp].
    rewrite string_app_cons. cbn [strings_Contains].
    rewrite HasPrefix_nl, bool_decide_eq_false_2 by done. by apply IHp. }
  apply Hpre. by vm_compute.
Qed.

End streams.

(** X5: what follows the terminator line has no part in the result: two
    bodies that agree up to the first [data: [DONE]] line give the same
    text, unless the body itself is returned. *)
Theorem X5_nothing_after_done (pre post post' : list string) :
  Forall single_line (pre ++ post)%list -> Forall single_line (pre ++ post')%list ->
  let body := String.concat nl (pre ++ "data: [DONE]" :: post)%list in
  let body' := String.concat nl (pre ++ "data: [DONE]" :: post')%list in
  convertStreamingResponse body = body \/
  convertStreamingResponse body = convertStreamingResponse body'.
Proof.
  intros Hl Hl' body body'.
  assert (Hdone : single_line "data: [DONE]") by (by vm_compute).
  assert (Hs : strings_Split body nl = (pre ++ "data: [DONE]" :: post)%list).
  { apply Split_concat; [by destruct pre|].
    apply Forall_app in Hl as [? ?]. apply Forall_app. split; [done|]. by constructor. }
  assert (Hs' : strings_Split body' nl = (pre ++ "data: [DONE]" :: post')%list).
  { apply Split_concat; [by destruct pre|].
    apply Forall_app in Hl' as [? ?]. apply Forall_app. split; [done|]. by constructor. }
  destruct (scan_lines (strings_Split body nl) "" None) as [content [lastChunk|]] eqn:E.
  - right.
    assert (E' : scan_lines (strings_Split body' nl) "" None = (content, Some lastChunk)).
    { rewrite Hs', (scan_lines_after_done pre post' post), <- Hs. exact E. }
    apply convertStreamingResponse_encodes in E, E'. congruence.
  - left. rewrite convertStreamingResponse_finalize, E. done.
Qed.

Lemma X5_nothing_after_done_witness :
  let chunk := dquote "data: {'choices':[{'delta':{'content':'Hi'}}]}" in
  let late := dquote "data: {'choices':[{'delta':{'content':' there'}}]}" in
  convertStreamingResponse (String.concat nl [chunk; "data: [DONE]"; late]) =
  convertStreamingResponse (String.concat nl [chunk; "data: [DONE]"]).
Proof.
  intros chunk late.
  destruct (X5_nothing_after_done [chunk] [late] []) as [H|H].
  - repeat constructor; by vm_compute.
  - repeat constructor; by vm_compute.
  - vm_compute in H. discriminate H.
  - exact H.
Defined.

(** X6: the content of the message is made of the fragments of all the
    chunks up to the terminator, in order, a chunk without a content
    fragment adding nothing; the rest of the result comes from the last
    chunk. *)
Theorem X6_fragments_in_order (ts : list string) (chunks : list (option object))
        (rest : list string) (lastChunk choice : object) (choices' : list value) :
  Forall single_line (ts ++ rest)%list ->
  Forall2 (fun t chunk => json_Unmarshal t = UnmarshalOk chunk) ts chunks ->
  last chunks = Some (Some lastChunk) ->
  map_get "choices" lastChunk = Some (VSlice (VMap choice :: choices')) ->
  let body := String.concat nl (map data_line ts ++ "data: [DONE]" :: rest)%list in
  json_Marshal (rebuild (fragments chunks) lastChunk) = Some (convertStreamingResponse body) /\
  exists choice',
    map_get "choices" (rebuild (fragments chunks) lastChunk) =
      Some (VSlice (VMap choice' :: choices')) /\
    map_get "message" choice' =
      Some (VMap [("role", VString "assistant"); ("content", VString (fragments chunks))]).
Proof.
  intros Hl Hall Hlast Hc body.
  apply Forall_app in Hl as [Hts Hrest].
  assert (Hs : scan_lines (strings_Split body nl) "" None = (fragments chunks, Some lastChunk)).
  { unfold body. rewrite Split_concat.
    - rewrite (scan_lines_chunks _ _ _ _ _ Hall), Hlast. done.
    - by destruct ts.
    - apply Forall_app. split.
      + apply Forall_map. eapply Forall_impl; [exact Hts|]. apply single_line_data.
      + constructor; [by vm_compute | done]. }
  split; [by apply convertStreamingResponse_encodes|].
  exists (first_choice (fragments chunks) choice). split.
  - apply rebuild_choices; [|done].
    eapply scan_lines_keys; [exact Hs | done].
  - apply first_choice_message.
Qed.

Lemma X6_fragments_in_order_witness :
  let ts := [dquote "{'choices':[{'delta':{'role':'assistant'}}]}";
             dquote "{'choices':[{'delta':{'content':'a'}}]}";
             dquote "{'choices':[{'delta':{'content':'b'}}]}";
             dquote "{'choices':[{'delta':{},'finish_reason':'stop'}]}"] in
  exists final choice' choices',
    json_Marshal final =
      Some (convertStreamingResponse (String.concat nl (map data_line ts ++ ["data: [DONE]"])%list)) /\
    map_get "choices" final = Some (VSlice (VMap choice' :: choices')) /\
    map_get "message" choice' =
      Some (VMap [("role", VString "assistant"); ("content", VString "ab")]).
Proof.
  intros ts.
  edestruct (X6_fragments_in_order ts) as (Hm & choice' & Hc & Hmsg).
  - repeat constructor; by vm_compute.
  - unfold ts. repeat (constructor; [vm_compute; reflexivity|]). constructor.
  - reflexivity.
  - reflexivity.
  - eexists _, choice', _. split; [exact Hm|]. split; [exact Hc | exact Hmsg].
Defined.

(** X7: when the last chunk has no first choice to write to (no [choices],
    an empty one, as in a chunk that only carries the usage, or one whose
    first element is not an object), the content gathered so far is left
    out: the result is the last chunk with its object field replaced. *)
Theorem X7_content_dropped (streamingBody content : string) (lastChunk : object) :
  scan_lines (strings_Split streamingBody nl) "" None = (content, Some lastChunk) ->
  has_first_choice lastChunk = false ->
  json_Marshal (map_set "object" (VString "chat.completion") lastChunk) =
    Some (convertStreamingResponse streamingBody).
Proof.
  intros Hs Hf.
  rewrite <- (convertStreamingResponse_encodes _ _ _ Hs). unfold rebuild.
  rewrite copy_chunk_id by (eapply scan_lines_keys; [exact Hs | done]).
  by rewrite materialize_no_first_choice.
Qed.

Lemma X7_content_dropped_witness :
  let body := String.concat nl
    [dquote "data: {'id':'c1','choices':[{'delta':{'content':'Hello'}}]}";
     dquote "data: {'id':'c1','choices':[],'usage':{'total_tokens':7}}";
     "data: [DONE]"] in
  convertStreamingResponse body =
    dquote "{'choices':[],'id':'c1','object':'chat.completion','usage':{'total_tokens':7}}".
Proof.
  intros body.
  assert (Hs : scan_lines (strings_Split body nl) "" None =
               ("Hello", Some [("id", VString "c1"); ("choices", VSlice []);
                               ("usage", VMap [("total_tokens",
                                  VFloat (S754_finite false 7881299347898368 (-50)))])]))
    by (vm_compute; reflexivity).
  pose proof (X7_content_dropped body _ _ Hs eq_refl) as Hm.
  apply (inj Some). rewrite <- Hm. vm_compute. reflexivity.
Defined.

(** X8: the writes to the first choice are the message, the removal of the
    delta and, when it has no finish reason, the finish reason "stop": a
    finish reason that is there, be it null, stays, and so does every other
    field of the first choice. *)
Theorem X8_first_choice_kept (streamingBody content : string) (lastChunk choice : object)
        (choices' : list value) :
  scan_lines (strings_Split streamingBody nl) "" None = (content, Some lastChunk) ->
  map_get "choices" lastChunk = Some (VSlice (VMap choice :: choices')) ->
  exists choice',
    json_Marshal (rebuild content lastChunk) = Some (convertStreamingResponse streamingBody) /\
    map_get "choices" (rebuild content lastChunk) = Some (VSlice (VMap choice' :: choices')) /\
    (forall reason, map_get "finish_reason" choice = Some reason ->
                    map_get "finish_reason" choice' = Some reason) /\
    (forall k, k <> "message" -> k <> "delta" -> k <> "finish_reason" ->
               map_get k choice' = map_get k choice).
Proof.
  intros Hs Hc. exists (first_choice content choice).
  split; [by apply convertStreamingResponse_encodes|].
  split; [apply rebuild_choices; [by eapply scan_lines_keys | done]|].
  split.
  - intros reason Hr. by rewrite first_choice_finish_reason, Hr.
  - intros k. apply first_choice_other.
Qed.

Lemma X8_first_choice_kept_witness :
  let body := String.concat nl
    [dquote "data: {'choices':[{'index':0,'delta':{'content':'Hi'},'finish_reason':'length'}]}";
     "data: [DONE]"] in
  convertStreamingResponse body =
    dquote "{'choices':[{'finish_reason':'length','index':0,'message':{'content':'Hi','role':'assistant'}}],'object':'chat.completion'}".
Proof.
  intros body.
  assert (Hs : scan_lines (strings_Split body nl) "" None =
               ("Hi", Some [("choices", VSlice [VMap [("index", VFloat (S754_zero false));
                                                      ("delta", VMap [("content", VString "Hi")]);
                                                      ("finish_reason", VString "length")]])]))
    by (vm_compute; reflexivity).
  destruct (X8_first_choice_kept body _ _ _ _ Hs eq_refl) as (choice' & Hm & _).
  apply (inj Some). rewrite <- Hm. vm_compute. reflexivity.
Defined.

(** X9: a data line that carries the JSON text [null] decodes without an
    error into a nil map, which takes the place of the last chunk: when no
    chunk follows it before the terminator or the end, the body is returned
    as it is, whatever chunks came before. *)
Theorem X9_null_discards (pre post : list string) :
  Forall single_line (pre ++ post)%list ->
  Forall (fun line => line <> "data: [DONE]") pre ->
  Forall (fun line => parses_as_chunk line = false) post ->
  let body := String.concat nl (pre ++ "data: null" :: post)%list in
  convertStreamingResponse body = body.
Proof.
  intros Hl Hpre Hpost body.
  apply Forall_app in Hl as [Hlpre Hlpost].
  rewrite convertStreamingResponse_finalize. unfold body at 2 3.
  rewrite Split_concat; [|by destruct pre|].
  2: { apply Forall_app. split; [done|]. constructor; [by vm_compute | done]. }
  assert (Hscan : forall content lastChunk,
            snd (scan_lines (pre ++ "data: null" :: post) content lastChunk) = None).
  { clear Hlpre. induction Hpre as [|line pre Hline _ IH]; intros content lastChunk.
    - cbn [app]. change "data: null" with ("data: " +:+ "null").
      rewrite (scan_lines_chunk "null" None) by (by vm_compute).
      by rewrite (scan_lines_no_chunk _ _ _ Hpost).
    - cbn [app scan_lines].
      destruct (strings_HasPrefix line "data: ") eqn:Hp; [|apply IH].
      destruct (String.eqb _ "[DONE]") eqn:Hd.
      + exfalso. apply Hline. apply String.eqb_eq in Hd.
        unfold strings_TrimPrefix in Hd. rewrite Hp in Hd.
        revert Hp Hd. clear. unfold strings_HasPrefix.
        destruct line as [|c1 [|c2 [|c3 [|c4 [|c5 [|c6 line]]]]]]; try done.
        cbn [String.prefix string_drop String.length].
        repeat (destruct (ascii_dec _ _) as [<-|]; [|done]). by intros _ ->.
      + destruct (json_Unmarshal _); apply IH. }
  specialize (Hscan "" None).
  destruct (scan_lines _ _ _) as [content lastChunk]. simpl in Hscan. by subst.
Qed.

Lemma X9_null_discards_witness :
  let body := String.concat nl
    [dquote "data: {'choices':[{'delta':{'content':'Hi'}}]}"; "data: null"; "data: [DONE]"] in
  convertStreamingResponse body = body.
Proof.
  intros body.
  apply (X9_null_discards [dquote "data: {'choices':[{'delta':{'content':'Hi'}}]}"]
                          ["data: [DONE]"]).
  - repeat constructor; by vm_compute.
  - repeat constructor. by vm_compute.
  - repeat constructor; by vm_compute.
Defined.

(** X10: the marker "data: " somewhere in a body is not enough to change
    what is stored for it: when no line of the body starts with the marker,
    the response that [RecordResponse] stores is the body as it is. *)
Theorem X10_marker_inside_a_line (responseBody : string) :
  Forall (fun line => strings_HasPrefix line "data: " = false) (strings_Split responseBody nl) ->
  response_of responseBody = responseBody.
Proof.
  intros Hl. unfold response_of. destruct (strings_Contains _ _); [|done].
  rewrite convertStreamingResponse_finalize.
  rewrite <- (app_nil_r (strings_Split responseBody nl)).
  by rewrite (scan_lines_other _ _ _ _ Hl).
Qed.

Lemma X10_marker_inside_a_line_witness :
  let body := dquote "{'choices':[{'message':{'content':'send data: now'}}]}" in
  strings_Contains body "data: " = true /\ response_of body = body.
Proof.
  intros body. split; [by vm_compute|].
  apply X10_marker_inside_a_line. repeat constructor; by vm_compute.
Defined.
(** * Any calls on a recorder *)

Section any_calls.
Context `{Collaborators}.
Local Open Scope list_scope.
Local Open Scope nat_scope.

Lemma wf_at r k p :
  wf r -> runnermap.m (records r) !! k = Some p ->
  exists d a,
    datas r !! p = Some d /\
    arrays r !! s_array (Records d) = Some a /\
    s_off (Records d) + s_len (Records d) <= length a /\
    s_len (Records d) <= 10 /\
    slots_at r p = take (s_len (Records d)) (drop (s_off (Records d)) a) /\
    Forall (ptr_ok (length (pairs r))) (slots_at r p).
Proof.
  intros Hwf Hk. pose proof (Hwf _ _ Hk) as Hok. unfold data_ok in Hok.
  destruct (datas r !! p) as [d|] eqn:Hd; [|done].
  unfold slice_ok in Hok.
  destruct (arrays r !! s_array (Records d)) as [a|] eqn:Ha; [|done].
  destruct Hok as (Hb & Hl & Hall).
  exists d, a. unfold slots_at, slots_of. rewrite Hd, Ha. done.
Qed.

Lemma slots_slots_at r runner p :
  runnermap.Map_Get runner (records r) = Some p -> slots r runner = slots_at r p.
Proof. intros Hg. unfold slots, slots_at. by rewrite Hg. Qed.

Lemma untouched_refl r k : untouched r r k.
Proof. split; [done|]. by intros p d _ Hd. Qed.

(** The history and the configuration of a key that is untouched. *)
Lemma untouched_frame r r' other :
  runnermap.normalizeFn (records r') = runnermap.normalizeFn (records r) ->
  wf r ->
  untouched r r' (runnermap.normalizeKey (records r) other) ->
  history r' other = history r other /\
  stored_config r' other = stored_config r other.
Proof.
  intros Hn Hwf [Hm Hu].
  unfold history, stored_config, slots, runnermap.Map_Get, runnermap.normalizeKey.
  rewrite Hn. fold (runnermap.normalizeKey (records r) other). rewrite Hm.
  destruct (runnermap.m (records r) !! _) as [p|] eqn:Hk; [|done].
  destruct (wf_at _ _ _ Hwf Hk) as (d & a & Hd & Ha & _ & _ & Hs & _).
  destruct (Hu p d eq_refl Hd) as (Hd' & Ha' & He).
  rewrite Hd', Hd. split; [|done].
  unfold slots_of. rewrite Ha'.
  apply map_ext_in. intros e He'. apply He.
  unfold slots_at, slots_of. rewrite Hd. by apply list_elem_of_In.
Qed.

Lemma untouched_at r r' k p :
  wf r -> untouched r r' k -> runnermap.m (records r) !! k = Some p ->
  datas r' !! p = datas r !! p /\ slots_at r' p = slots_at r p.
Proof.
  intros Hwf [_ Hu] Hk.
  destruct (wf_at _ _ _ Hwf Hk) as (d & a & Hd & Ha & _).
  destruct (Hu p d Hk Hd) as (Hd' & Ha' & _).
  split; [by rewrite Hd', Hd|].
  unfold slots_at, slots_of. by rewrite Hd', Hd, Ha'.
Qed.

(** The entry of [kn] after a step and the entry of another key. *)
Lemma separate_one r r' kn k p' p :
  wf r -> separate r -> k <> kn -> untouched r r' k ->
  runnermap.m (records r') !! kn = Some p' ->
  runnermap.m (records r) !! k = Some p ->
  (runnermap.m (records r) !! kn = Some p' \/ length (datas r) <= p') ->
  (forall d', datas r' !! p' = Some d' ->
     (exists q d, runnermap.m (records r) !! kn = Some q /\ datas r !! q = Some d /\
                  s_array (Records d') = s_array (Records d)) \/
     length (arrays r) <= s_array (Records d')) ->
  (forall e, e ∈ slots_at r' p' ->
     (exists q, runnermap.m (records r) !! kn = Some q /\ e ∈ slots_at r q) \/
     (exists n, e = Some n /\ length (pairs r) <= n)) ->
  p' <> p /\
  (forall d' d, datas r' !! p' = Some d' -> datas r' !! p = Some d ->
                s_array (Records d') <> s_array (Records d)) /\
  (forall e, e ∈ slots_at r' p' -> e ∉ slots_at r' p).
Proof.
  intros Hwf Hsep Hne Hu Hk' Hk Hp Harr Hslots.
  destruct (wf_at _ _ _ Hwf Hk) as (d & a & Hd & Ha & _ & _ & _ & Hall).
  destruct (untouched_at _ _ _ _ Hwf Hu Hk) as [Hd' Hs'].
  assert (Hlt : p < length (datas r)) by (by eapply lookup_lt_Some).
  assert (Halt : s_array (Records d) < length (arrays r)) by (by eapply lookup_lt_Some).
  repeat split.
  - destruct Hp as [Hold|Hfresh]; [|lia].
    by destruct (Hsep kn k p' p (not_eq_sym Hne) Hold Hk) as (? & _).
  - intros d1 d2 Hd1 Hd2. rewrite Hd', Hd in Hd2. injection Hd2 as <-.
    destruct (Harr d1 Hd1) as [(q & d0 & Hq & Hd0 & ->)|Hfresh]; [|lia].
    destruct (Hsep kn k q p (not_eq_sym Hne) Hq Hk) as (_ & Ha0 & _). by apply Ha0.
  - intros e He. rewrite Hs'.
    destruct (Hslots e He) as [(q & Hq & Heq)|(n & -> & Hn)].
    + destruct (Hsep kn k q p (not_eq_sym Hne) Hq Hk) as (_ & _ & Hdis). by apply Hdis.
    + intros Hin. eapply Forall_forall in Hall; [|exact Hin]. simpl in Hall. lia.
Qed.

Lemma separate_step r r' kn :
  wf r -> separate r ->
  (forall k, k <> kn -> untouched r r' k) ->
  (forall p', runnermap.m (records r') !! kn = Some p' ->
     (runnermap.m (records r) !! kn = Some p' \/ length (datas r) <= p') /\
     (forall d', datas r' !! p' = Some d' ->
        (exists q d, runnermap.m (records r) !! kn = Some q /\ datas r !! q = Some d /\
                     s_array (Records d') = s_array (Records d)) \/
        length (arrays r) <= s_array (Records d')) /\
     (forall e, e ∈ slots_at r' p' ->
        (exists q, runnermap.m (records r) !! kn = Some q /\ e ∈ slots_at r q) \/
        (exists n, e = Some n /\ length (pairs r) <= n))) ->
  separate r'.
Proof.
  intros Hwf Hsep Hothers Hown k1 k2 p1 p2 Hne H1 H2.
  destruct (runnermap.Key_eq_dec k1 kn) as [->|Hn1], (runnermap.Key_eq_dec k2 kn) as [->|Hn2];
    [done| | |].
  - destruct (Hown p1 H1) as (Hp & Harr & Hsl).
    pose proof (Hothers k2 Hn2) as Hu. rewrite (proj1 Hu) in H2.
    by apply (separate_one r r' kn k2 p1 p2).
  - destruct (Hown p2 H2) as (Hp & Harr & Hsl).
    pose proof (Hothers k1 Hn1) as Hu. rewrite (proj1 Hu) in H1.
    destruct (separate_one r r' kn k1 p2 p1 Hwf Hsep Hn1 Hu H2 H1 Hp Harr Hsl)
      as (Hpp & Haa & Hee).
    repeat split.
    + by apply not_eq_sym.
    + intros d1 d2 Hd1 Hd2. apply not_eq_sym. by apply Haa.
    + intros e He1 He2. by apply (Hee e He2).
  - pose proof (Hothers k1 Hn1) as Hu1. pose proof (Hothers k2 Hn2) as Hu2.
    rewrite (proj1 Hu1) in H1. rewrite (proj1 Hu2) in H2.
    destruct (untouched_at _ _ _ _ Hwf Hu1 H1) as [Hd1 Hs1].
    destruct (untouched_at _ _ _ _ Hwf Hu2 H2) as [Hd2 Hs2].
    destruct (Hsep k1 k2 p1 p2 Hne H1 H2) as (Hpp & Haa & Hee).
    rewrite Hd1, Hd2, Hs1, Hs2. done.
Qed.

Lemma untouched_data_ok r r' k p :
  wf r -> untouched r r' k -> length (pairs r) <= length (pairs r') ->
  runnermap.m (records r) !! k = Some p -> data_ok r' p.
Proof.
  intros Hwf [_ Hu] Hlen Hk.
  destruct (wf_at _ _ _ Hwf Hk) as (d & a & Hd & Ha & Hb & Hl & Hs & Hall).
  destruct (Hu p d Hk Hd) as (Hd' & Ha' & _).
  unfold data_ok, slice_ok. rewrite Hd', Ha', Ha. repeat split; [done..|].
  rewrite <- Hs. eapply Forall_impl; [exact Hall|].
  intros e. by apply ptr_ok_mono.
Qed.

(** A step that touches no key. *)
Lemma step_ok_all r r' :
  wf r -> separate r ->
  runnermap.normalizeFn (records r') = runnermap.normalizeFn (records r) ->
  length (pairs r) <= length (pairs r') ->
  (forall k, untouched r r' k) ->
  (forall q d, datas r !! q = Some d -> datas r' !! q = Some d) ->
  (forall j a, arrays r !! j = Some a -> arrays r' !! j = Some a) ->
  step_ok None r r'.
Proof.
  intros Hwf Hsep Hn Hlen Hu Hdat Harr. split; [|split; [|split; [done|split; [auto|]]]].
  - intros k p Hk. rewrite (proj1 (Hu k)) in Hk. by eapply untouched_data_ok.
  - intros k1 k2 p1 p2 Hne H1 H2.
    rewrite (proj1 (Hu k1)) in H1. rewrite (proj1 (Hu k2)) in H2.
    destruct (untouched_at _ _ _ _ Hwf (Hu k1) H1) as [Hd1 Hs1].
    destruct (untouched_at _ _ _ _ Hwf (Hu k2) H2) as [Hd2 Hs2].
    destruct (Hsep k1 k2 p1 p2 Hne H1 H2) as (Hpp & Haa & Hee).
    rewrite Hd1, Hd2, Hs1, Hs2. done.
  - split; [auto|]. split; [auto|].
    intros k p' Hk. rewrite (proj1 (Hu k)) in Hk. split; [by left|].
    intros d' Hd'. left. exists p', d'.
    destruct (untouched_at _ _ _ _ Hwf (Hu k) Hk) as [Hd _]. by rewrite <- Hd.
Qed.

(** A step that works on the entry of [kn]. *)
Lemma step_ok_key r r' kn :
  wf r -> separate r ->
  runnermap.normalizeFn (records r') = runnermap.normalizeFn (records r) ->
  length (pairs r) <= length (pairs r') ->
  (forall k, k <> kn -> untouched r r' k) ->
  (forall q d, datas r !! q = Some d ->
     (forall k, runnermap.m (records r) !! k <> Some q) -> datas r' !! q = Some d) ->
  (forall j a, arrays r !! j = Some a ->
     (forall k p d, runnermap.m (records r) !! k = Some p -> datas r !! p = Some d ->
                    s_array (Records d) <> j) ->
     arrays r' !! j = Some a) ->
  (forall p', runnermap.m (records r') !! kn = Some p' ->
     data_ok r' p' /\
     (runnermap.m (records r) !! kn = Some p' \/ length (datas r) <= p') /\
     (forall d', datas r' !! p' = Some d' ->
        (exists q d, runnermap.m (records r) !! kn = Some q /\ datas r !! q = Some d /\
                     s_array (Records d') = s_array (Records d)) \/
        length (arrays r) <= s_array (Records d')) /\
     (forall e, e ∈ slots_at r' p' ->
        (exists q, runnermap.m (records r) !! kn = Some q /\ e ∈ slots_at r q) \/
        (exists n, e = Some n /\ length (pairs r) <= n))) ->
  step_ok (Some kn) r r'.
Proof.
  intros Hwf Hsep Hn Hlen Hu Hdat Harr Hown.
  split; [|split; [|split; [done|split]]].
  - intros k p Hk. destruct (runnermap.Key_eq_dec k kn) as [->|Hne].
    + by destruct (Hown p Hk) as (? & _).
    + rewrite (proj1 (Hu k Hne)) in Hk. eapply untouched_data_ok; eauto.
  - apply (separate_step r r' kn); [done..|].
    intros p' Hp'. by destruct (Hown p' Hp') as (_ & ? & ? & ?).
  - intros k Hk. apply Hu. congruence.
  - split; [done|]. split; [done|].
    intros k p' Hk. destruct (runnermap.Key_eq_dec k kn) as [->|Hne].
    + by destruct (Hown p' Hk) as (_ & ? & ? & _).
    + rewrite (proj1 (Hu k Hne)) in Hk. split; [by left|].
      intros d' Hd'. left. exists p', d'.
      destruct (untouched_at _ _ _ _ Hwf (Hu k Hne) Hk) as [Hd _]. by rewrite <- Hd.
Qed.

(** The same step seen from a key it does not work on. *)
Lemma step_ok_other target r r' other :
  wf r -> step_ok target r r' ->
  target <> Some (runnermap.normalizeKey (records r) other) ->
  history r' other = history r other /\ stored_config r' other = stored_config r other.
Proof.
  intros Hwf (_ & _ & Hn & Hu & _) Ht. apply untouched_frame; [done..|]. by apply Hu.
Qed.

(** ** The calls, one by one *)

Lemma step_ok_log target f r : wf r -> separate r -> step_ok target r (with_log f r).
Proof.
  intros Hwf Hsep. destruct (step_ok_all r r Hwf Hsep) as (_ & _ & _ & _ & Hfp);
    [done | done | apply untouched_refl | auto | auto |].
  split; [exact Hwf|]. split; [exact Hsep|]. split; [done|]. split; [|exact Hfp].
  intros k _. apply (untouched_refl r k).
Qed.

Lemma app_untouched r ds arrs k :
  wf r -> untouched r (with_datas (fun h => h ++ ds) (with_arrays (fun h => h ++ arrs) r)) k.
Proof.
  intros Hwf. split; [done|]. intros p d Hk Hd. simpl.
  destruct (wf_at _ _ _ Hwf Hk) as (d0 & a & Hd0 & Ha & _).
  assert (d0 = d) as -> by congruence.
  split; [by apply lookup_app_l_Some|]. split; [|done].
  rewrite Ha. by apply lookup_app_l_Some.
Qed.

Lemma GetModelData_step r model :
  wf r -> separate r ->
  exists q r', GetModelData model r = Returned q r' /\ step_ok None r r'.
Proof.
  intros Hwf Hsep.
  destruct (runnermap.Map_Get (runnerKey model) (records r)) as [p|] eqn:Hg.
  - destruct (wf_Get _ _ _ Hwf Hg) as (d & a & Hd & Ha & Hb & _).
    eexists _, _. split; [by apply (GetModelData_Some r model p d a)|].
    apply step_ok_all; [done | done | done | done | | |].
    + intros k. by apply app_untouched.
    + intros q0 d0 Hq0. simpl. by apply lookup_app_l_Some.
    + intros j0 a0 Hj0. simpl. by apply lookup_app_l_Some.
  - exists None, r. split; [by apply GetModelData_None|].
    apply step_ok_all; [done | done | done | done | apply untouched_refl | auto | auto].
Qed.

Lemma handler_run r req :
  wf r ->
  let model := http.Values_Get (http.URL_Query req) "model" in
  exists rp,
    GetRecordsByModelHandler req r =
    Returned rp (if String.eqb model "" then r else state_of (GetModelData model r)).
Proof.
  intros Hwf model. unfold GetRecordsByModelHandler. fold model.
  destruct (String.eqb model "") eqn:E; [by eexists|].
  destruct (runnermap.Map_Get (runnerKey model) (records r)) as [p|] eqn:Hg.
  - destruct (wf_Get _ _ _ Hwf Hg) as (d & a & Hd & Ha & Hb & _).
    rewrite (bind_Returned _ _ _ _ _ (GetModelData_Some r model p d a Hg Hd Ha Hb)).
    rewrite (GetModelData_Some r model p d a Hg Hd Ha Hb). cbn [state_of].
    set (r1 := with_datas _ _).
    assert (Hq : datas r1 !! length (datas r) =
                 Some (mkModelData (Config d)
                         (mkSlice (length (arrays r)) 0 (s_len (Records d)))))
      by (by apply list_lookup_middle).
    rewrite (bind_Returned _ _ _ _ _ (load_data_Some _ _ _ Hq)).
    assert (Hes : arrays r1 !! s_array (mkSlice (length (arrays r)) 0 (s_len (Records d))) =
                  Some (take (s_len (Records d)) (drop (s_off (Records d)) a)))
      by (by apply list_lookup_middle).
    rewrite (bind_Returned _ _ _ _ _ (elements_Some _ _ _ Hes)).
    rewrite (bind_Returned _ _ _ _ _ (pointees_run _ _)).
    destruct (Encode _); by eexists.
  - rewrite (bind_Returned _ _ _ _ _ (GetModelData_None _ _ Hg)).
    rewrite (GetModelData_None _ _ Hg). by eexists.
Qed.

Lemma handler_step r req :
  wf r -> separate r ->
  exists rp r', GetRecordsByModelHandler req r = Returned rp r' /\ step_ok None r r'.
Proof.
  intros Hwf Hsep. destruct (handler_run r req Hwf) as [rp Hrun].
  eexists _, _. split; [exact Hrun|].
  destruct (String.eqb _ "");
    [apply step_ok_all; [done | done | done | done | apply untouched_refl | auto | auto]|].
  destruct (GetModelData_step r (http.Values_Get (http.URL_Query req) "model") Hwf Hsep)
    as (q & r' & -> & Hstep).
  exact Hstep.
Qed.

Lemma first_match_elem h id rs p : first_match h id rs = Some p -> Some p ∈ rs.
Proof.
  induction rs as [|e rs IH]; simpl; [done|].
  destruct (deref h e) as [v|]; [|done].
  destruct (String.eqb (ID v) id).
  - intros ->. apply elem_of_cons. by left.
  - intros Hm. apply elem_of_cons. right. by apply IH.
Qed.

Lemma RecordResponse_step r id runner rr :
  wf r -> separate r ->
  exists r',
    RecordResponse id runner (recorderWriter rr) r = Returned tt r' /\
    step_ok (Some (runnermap.normalizeKey (records r) runner)) r r'.
Proof.
  intros Hwf Hsep.
  destruct (first_match (pairs r) id (slots r runner)) as [pm|] eqn:Hm.
  - destruct (RecordResponse_match r id runner rr pm Hwf Hm) as (v & Hv & _ & Hrun).
    eexists. split; [exact Hrun|].
    destruct (runnermap.Map_Get runner (records r)) as [q|] eqn:Hg;
      [|by rewrite (slots_no_entry _ _ Hg) in Hm].
    apply first_match_elem in Hm. rewrite (slots_slots_at _ _ _ Hg) in Hm.
    apply step_ok_key; [done | done | done | simpl; by rewrite length_insert | | auto | auto |].
    + intros k Hne. split; [done|]. intros p d Hk Hd. simpl. repeat split; [done..|].
      intros e He. destruct e as [n|]; [|done]. simpl.
      apply list_lookup_insert_ne. intros <-.
      destruct (Hsep (runnermap.normalizeKey (records r) runner) k q p) as (_ & _ & Hdis);
        [by apply not_eq_sym | done | done |].
      by apply (Hdis (Some pm)).
    + intros p' Hp'. simpl in Hp'.
      assert (p' = q) as -> by (unfold runnermap.Map_Get in Hg; congruence).
      destruct (wf_at _ _ _ Hwf Hp') as (d & a & Hd & Ha & Hb & Hl & Hs & Hall).
      repeat split.
      * apply (data_ok_frame r); [by apply (Hwf _ _ Hp') | done |].
        intros t. simpl. by rewrite length_insert.
      * by left.
      * intros d' Hd'. left. exists q, d'. done.
      * intros e He. left. exists q. done.
  - destruct (runnermap.Map_Get runner (records r)) as [q|] eqn:Hg.
    + eexists. split; [apply RecordResponse_no_match; [done | by rewrite Hg | done]|].
      by apply step_ok_log.
    + eexists. split; [by apply RecordResponse_no_entry|]. by apply step_ok_log.
Qed.

Lemma RemoveModel_known r model p :
  runnermap.Map_Get (runnerKey model) (records r) = Some p ->
  RemoveModel model r =
  Returned tt
    (with_log (fun lg => lg ++ [(Info, "Removed records for model: " +:+ model)])
       (with_records (runnermap.Map_Delete (runnerKey model)) r)).
Proof. intros Hg. unfold RemoveModel, bind, records_Get, gets. by rewrite Hg. Qed.

Lemma RemoveModel_unknown r model :
  runnermap.Map_Get (runnerKey model) (records r) = None ->
  RemoveModel model r =
  Returned tt (with_log (fun lg => lg ++ [(Warn, "No records found for model: " +:+ model)]) r).
Proof. intros Hg. unfold RemoveModel, bind, records_Get, gets. by rewrite Hg. Qed.

Lemma RemoveModel_step r model :
  wf r -> separate r ->
  exists r',
    RemoveModel model r = Returned tt r' /\
    step_ok (Some (runnermap.normalizeKey (records r) (runnerKey model))) r r'.
Proof.
  intros Hwf Hsep.
  destruct (runnermap.Map_Get (runnerKey model) (records r)) as [p|] eqn:Hg.
  - eexists. split; [by apply (RemoveModel_known r model p)|].
    apply step_ok_key; [done | done | done | done | | auto | auto |].
    + intros k Hne. split; [simpl; by apply lookup_delete_ne|]. by intros q d _ Hd.
    + intros p' Hp'. simpl in Hp'. by rewrite lookup_delete_eq in Hp'.
  - eexists. split; [by apply RemoveModel_unknown|]. by apply step_ok_log.
Qed.

Lemma SetConfigForModel_nil r runner :
  SetConfigForModel runner None r =
  Returned tt
    (with_log (fun lg => lg ++ [(Warn, "SetConfigForModel called with nil config for model "
                                         +:+ runnermap.Model runner)]) r).
Proof. reflexivity. Qed.

Lemma SetConfigForModel_known r runner c p d :
  runnermap.Map_Get runner (records r) = Some p ->
  datas r !! p = Some d ->
  SetConfigForModel runner (Some c) r =
  Returned tt (with_datas (fun h => <[p := mkModelData c (Records d)]> h) r).
Proof.
  intros Hg Hd. unfold SetConfigForModel.
  rewrite (bind_Returned _ _ _ _ _ (records_Get_run _ _)). rewrite Hg.
  rewrite (bind_Returned _ _ r tt r) by reflexivity.
  rewrite (bind_Returned _ _ _ _ _ (records_Get_run _ _)). rewrite Hg.
  rewrite (bind_Returned _ _ _ _ _ (load_data_Some _ _ _ Hd)).
  by apply (store_data_Some _ _ d).
Qed.

Lemma SetConfigForModel_new r runner c :
  runnermap.Map_Get runner (records r) = None ->
  SetConfigForModel runner (Some c) r =
  Returned tt
    (with_datas (fun h => <[length (datas r) := mkModelData c (mkSlice (length (arrays r)) 0 0)]> h)
       (with_records (runnermap.Map_Set runner (length (datas r)))
          (with_datas (fun h => h ++ [mkModelData BackendConfiguration_zero
                                        (mkSlice (length (arrays r)) 0 0)])
             (with_arrays (fun h => h ++ [replicate 10 None]) r)))).
Proof.
  intros Hg. unfold SetConfigForModel.
  rewrite (bind_Returned _ _ _ _ _ (records_Get_run _ _)). rewrite Hg.
  rewrite (bind_Returned (bind new_ModelData _) _ r tt
             (with_records (runnermap.Map_Set runner (length (datas r)))
                (with_datas (fun h => h ++ [mkModelData BackendConfiguration_zero
                                              (mkSlice (length (arrays r)) 0 0)])
                   (with_arrays (fun h => h ++ [replicate 10 None]) r))))
    by reflexivity.
  set (r3 := with_records _ _).
  assert (Hg3 : runnermap.Map_Get runner (records r3) = Some (length (datas r)))
    by (by apply Get_Set_same).
  rewrite (bind_Returned _ _ _ _ _ (records_Get_run _ _)). rewrite Hg3.
  assert (Hd3 : datas r3 !! length (datas r) =
                Some (mkModelData BackendConfiguration_zero (mkSlice (length (arrays r)) 0 0)))
    by (by apply list_lookup_middle).
  rewrite (bind_Returned _ _ _ _ _ (load_data_Some _ _ _ Hd3)).
  by rewrite (store_data_Some _ _ _ _ Hd3).
Qed.

(** What a new entry is made of: a cell and an array at the end. *)
Lemma new_entry_step r runner (d' : ModelData) r' :
  wf r -> separate r ->
  runnermap.Map_Get runner (records r) = None ->
  records r' = runnermap.Map_Set runner (length (datas r)) (records r) ->
  (forall p d, datas r !! p = Some d -> datas r' !! p = Some d) ->
  (forall i a, arrays r !! i = Some a -> arrays r' !! i = Some a) ->
  pairs r' = pairs r \/ (exists v, pairs r' = pairs r ++ [v]) ->
  datas r' !! length (datas r) = Some d' ->
  length (arrays r) <= s_array (Records d') ->
  data_ok r' (length (datas r)) ->
  (forall e, e ∈ slots_at r' (length (datas r)) ->
             exists n, e = Some n /\ length (pairs r) <= n) ->
  step_ok (Some (runnermap.normalizeKey (records r) runner)) r r'.
Proof.
  intros Hwf Hsep Hg Hrec Hdat Harr Hpairs Hd' Hfresh Hok Hsl.
  assert (Hlen : length (pairs r) <= length (pairs r')).
  { destruct Hpairs as [->|[v ->]]; [done|]. rewrite length_app. lia. }
  apply step_ok_key; [done | done | by rewrite Hrec | done | | auto | auto |].
  - intros k Hne. split.
    + rewrite Hrec. simpl. by apply lookup_insert_ne.
    + intros p d Hk Hd. split; [by apply Hdat|].
      destruct (wf_at _ _ _ Hwf Hk) as (d0 & a & Hd0 & Ha & _ & _ & _ & Hall).
      assert (d0 = d) as -> by congruence.
      split; [rewrite Ha; by apply Harr|].
      intros e He. eapply Forall_forall in Hall; [|exact He].
      destruct e as [n|]; [|done]. simpl in *.
      destruct Hpairs as [->|[v ->]]; [done|]. by apply lookup_app_l.
  - intros p' Hp'. rewrite Hrec in Hp'. simpl in Hp'.
    rewrite lookup_insert_eq in Hp'. injection Hp' as <-.
    split; [done|]. split; [by right|]. split.
    + intros d0 Hd0. right. congruence.
    + intros e He. right. by apply Hsl.
Qed.

Lemma SetConfigForModel_step r runner config :
  wf r -> separate r ->
  exists r',
    SetConfigForModel runner config r = Returned tt r' /\
    step_ok (Some (runnermap.normalizeKey (records r) runner)) r r'.
Proof.
  intros Hwf Hsep. destruct config as [c|];
    [|eexists; split; [apply SetConfigForModel_nil | by apply step_ok_log]].
  destruct (runnermap.Map_Get runner (records r)) as [p|] eqn:Hg.
  - pose proof Hg as Hk. unfold runnermap.Map_Get in Hk.
    destruct (wf_at _ _ _ Hwf Hk) as (d & a & Hd & Ha & Hb & Hl & Hs & Hall).
    assert (Hp : p < length (datas r)) by (by eapply lookup_lt_Some).
    eexists. split; [by apply (SetConfigForModel_known r runner c p d)|].
    apply step_ok_key; [done | done | done | done | | | auto |].
    + intros k Hne. split; [done|]. intros q d0 Hq Hd0. simpl.
      split; [|done]. rewrite list_lookup_insert_ne; [done|]. intros <-.
      by destruct (Hsep _ _ p p (not_eq_sym Hne) Hk Hq) as (? & _).
    + intros q0 d0 Hq0 Hfree. simpl. rewrite list_lookup_insert_ne; [done|].
      intros <-. by apply (Hfree _ Hk).
    + intros p' Hp'. simpl in Hp'. assert (p' = p) as -> by congruence.
      assert (Hd' : <[p := mkModelData c (Records d)]> (datas r) !! p =
                    Some (mkModelData c (Records d)))
        by (by apply list_lookup_insert_eq).
      repeat split.
      * unfold data_ok. simpl. rewrite Hd'. simpl. unfold slice_ok. rewrite Ha.
        repeat split; [done..|]. by rewrite <- Hs.
      * by left.
      * intros d' Hd0. simpl in Hd0. rewrite Hd' in Hd0. injection Hd0 as <-.
        left. by exists p, d.
      * intros e He. left. exists p. split; [done|].
        unfold slots_at in *. simpl in He. rewrite Hd' in He. by rewrite Hd.
  - eexists. split; [by apply SetConfigForModel_new|].
    set (d' := mkModelData c (mkSlice (length (arrays r)) 0 0)).
    assert (Hd' : forall h : list ModelData,
              <[length (datas r) := d']> (datas r ++ h) !! length (datas r) =
              if decide (h = []) then None else Some d').
    { intros h. destruct h as [|x h]; simpl.
      - rewrite app_nil_r. apply lookup_ge_None_2. by rewrite length_insert.
      - apply list_lookup_insert_eq. rewrite length_app. simpl. lia. }
    apply (new_entry_step r runner d'); try done; simpl.
    + intros p d Hd. rewrite list_lookup_insert_ne.
      * by apply lookup_app_l_Some.
      * apply lookup_lt_Some in Hd. lia.
    + intros i a Ha. by apply lookup_app_l_Some.
    + by left.
    + by rewrite (Hd' [_]).
    + unfold data_ok. simpl. rewrite (Hd' [_]). simpl. unfold slice_ok. simpl.
      rewrite list_lookup_middle by done. simpl.
      repeat split; [lia..|constructor].
    + intros e. unfold slots_at. simpl. rewrite (Hd' [_]). simpl. unfold slots_of. simpl.
      rewrite list_lookup_middle by done. by intros ?%elem_of_nil.
Qed.

(** [append] writes to the array of its slice or makes a new one. *)
Lemma append_frame r s x a :
  arrays r !! s_array s = Some a ->
  s_off s + s_len s <= length a ->
  exists s' r',
    append s x r = Returned s' r' /\
    records r' = records r /\ pairs r' = pairs r /\ datas r' = datas r /\
    (s_array s' = s_array s \/ s_array s' = length (arrays r)) /\
    (forall j b, j <> s_array s' -> arrays r !! j = Some b -> arrays r' !! j = Some b).
Proof.
  intros Ha Hb. unfold append.
  rewrite (bind_Returned _ _ _ _ _ (load_array_Some _ _ _ Ha)).
  rewrite (bind_Returned _ _ _ _ _ (cap_Some _ _ _ Ha)).
  destruct (s_len s <? length a - s_off s) eqn:E.
  - rewrite (bind_Returned _ _ _ _ _ (modify_run _ _)).
    eexists _, _. split; [reflexivity|]. simpl.
    do 3 (split; [done|]). split; [by left|].
    intros j b Hj Hb'. by rewrite list_lookup_insert_ne.
  - rewrite (bind_Returned _ _ _ _ _ (elements_Some _ _ _ Ha)).
    rewrite (bind_Returned _ _ _ _ _ (gets_run _ _)).
    rewrite (bind_Returned _ _ _ _ _ (modify_run _ _)).
    eexists _, _. split; [reflexivity|]. simpl.
    do 3 (split; [done|]). split; [by right|].
    intros j b _ Hb'. by apply lookup_app_l_Some.
Qed.

Lemma RecordRequest_tail_frame r runner n id p d a :
  runnermap.Map_Get runner (records r) = Some p ->
  datas r !! p = Some d ->
  arrays r !! s_array (Records d) = Some a ->
  s_off (Records d) + s_len (Records d) <= length a ->
  exists r' d',
    RecordRequest_tail runner n id r = Returned id r' /\
    records r' = records r /\ pairs r' = pairs r /\
    datas r' = <[p := d']> (datas r) /\ Config d' = Config d /\
    (s_array (Records d') = s_array (Records d) \/
     s_array (Records d') = length (arrays r)) /\
    (forall j b, j <> s_array (Records d') -> arrays r !! j = Some b ->
                 arrays r' !! j = Some b).
Proof.
  intros Hg Hd Ha Hb.
  destruct (append_frame r (Records d) (Some n) a Ha Hb)
    as (s1 & r1 & Happ & Hrec1 & Hpairs1 & Hdat1 & Hs1 & Hfr1).
  unfold RecordRequest_tail.
  rewrite (bind_Returned _ _ r (Some p) r) by (unfold records_Get, gets; by rewrite Hg).
  rewrite (bind_Returned _ _ r d r) by (by apply load_data_Some).
  rewrite (bind_Returned _ _ _ _ _ Happ).
  assert (Hd1 : datas r1 !! p = Some d) by (by rewrite Hdat1).
  assert (Hp : p < length (datas r)) by (by eapply lookup_lt_Some).
  rewrite (bind_Returned _ _ _ _ _ (store_data_Some _ _ _ _ Hd1)).
  set (r2 := with_datas _ r1).
  assert (Hd2 : datas r2 !! p = Some (mkModelData (Config d) s1)).
  { subst r2. simpl. rewrite Hdat1. by apply list_lookup_insert_eq. }
  rewrite (bind_Returned _ _ _ _ _ (load_data_Some _ _ _ Hd2)). cbn [Records Config].
  destruct (10 <? s_len s1) eqn:E.
  - assert (Hsl : slice_from s1 1 r2 =
                  Returned (mkSlice (s_array s1) (s_off s1 + 1) (s_len s1 - 1)) r2).
    { unfold slice_from. apply Nat.ltb_lt in E.
      by replace (s_len s1 <? 1) with false by (symmetry; apply Nat.ltb_ge; lia). }
    rewrite (bind_Returned (bind (slice_from s1 1) _) _ r2 tt _)
      by (rewrite (bind_Returned _ _ _ _ _ Hsl); apply (store_data_Some _ _ _ _ Hd2)).
    eexists _, (mkModelData (Config d) (mkSlice (s_array s1) (s_off s1 + 1) (s_len s1 - 1))).
    split; [reflexivity|]. simpl. do 2 (split; [done|]).
    split; [rewrite Hdat1; by rewrite list_insert_insert_eq|]. done.
  - rewrite (bind_Returned _ _ r2 tt r2) by reflexivity.
    eexists _, (mkModelData (Config d) s1).
    split; [reflexivity|]. simpl. do 2 (split; [done|]). split; [by rewrite Hdat1|]. done.
Qed.

Lemma elem_of_last10 {A} (x : A) l : x ∈ last10 l -> x ∈ l.
Proof.
  unfold last10. intros Hx. rewrite <- (take_drop (length l - 10) l).
  apply elem_of_app. by right.
Qed.

Lemma RecordRequest_step r runner req body now_id now :
  wf r -> separate r ->
  exists id r',
    RecordRequest runner req body now_id now r = Returned id r' /\
    step_ok (Some (runnermap.normalizeKey (records r) runner)) r r'.
Proof.
  intros Hwf Hsep.
  destruct (RecordRequest_spec r runner req body now_id now Hwf)
    as (r' & Hrun & Hwf' & _ & Hpairs & Hslots & Hn).
  eexists _, r'. split; [exact Hrun|].
  rewrite RecordRequest_unfold in Hrun.
  rewrite (bind_Returned _ _ _ _ _ (new_pair_run _ _)) in Hrun.
  set (v := new_record runner req body now_id now) in *.
  set (r1 := with_pairs _ r) in *.
  rewrite (bind_Returned _ _ _ _ _ (records_Get_run _ _)) in Hrun.
  change (records r1) with (records r) in Hrun.
  assert (Hown : forall q, runnermap.Map_Get runner (records r') = Some q ->
            forall e, e ∈ slots_at r' q ->
              e ∈ slots r runner \/ exists n, e = Some n /\ length (pairs r) <= n).
  { intros q Hq e He. rewrite <- (slots_slots_at _ _ _ Hq), Hslots in He.
    apply elem_of_last10, elem_of_app in He as [He|He]; [by left|].
    apply list_elem_of_singleton in He as ->. right. by eexists. }
  destruct (runnermap.Map_Get runner (records r)) as [p|] eqn:Hg.
  - rewrite (bind_Returned _ _ r1 tt r1) in Hrun by reflexivity.
    pose proof Hg as Hk. unfold runnermap.Map_Get in Hk.
    destruct (wf_at _ _ _ Hwf Hk) as (d & a & Hd & Ha & Hb & Hl & Hs & Hall).
    destruct (RecordRequest_tail_frame r1 runner (length (pairs r))
                (runnermap.Model runner +:+ "_" +:+ pretty now_id) p d a Hg Hd Ha Hb)
      as (r'' & d' & Hrun' & Hrec & _ & Hdat & _ & Harr & Hfr).
    rewrite Hrun' in Hrun. injection Hrun as ->.
    change (records r1) with (records r) in Hrec.
    change (datas r1) with (datas r) in Hdat.
    change (arrays r1) with (arrays r) in Harr, Hfr.
    assert (Hp : p < length (datas r)) by (by eapply lookup_lt_Some).
    assert (Hd' : datas r' !! p = Some d') by (rewrite Hdat; by apply list_lookup_insert_eq).
    assert (Halt : s_array (Records d) < length (arrays r)) by (by eapply lookup_lt_Some).
    apply step_ok_key; [done | done | done | rewrite Hpairs, length_app; lia | | | |].
    + intros k Hne. split; [by rewrite Hrec|]. intros q d0 Hq Hd0.
      destruct (Hsep _ _ p q (not_eq_sym Hne) Hk Hq) as (Hpq & Haq & _).
      destruct (wf_at _ _ _ Hwf Hq) as (d1 & a1 & Hd1 & Ha1 & _ & _ & _ & Hall1).
      assert (d1 = d0) as -> by congruence.
      split; [rewrite Hdat; by rewrite list_lookup_insert_ne|]. split.
      * rewrite Ha1. apply Hfr; [|done].
        specialize (Haq d d0 Hd Hd0). apply lookup_lt_Some in Ha1.
        destruct Harr as [->| ->]; [by apply not_eq_sym | lia].
      * intros e He. eapply Forall_forall in Hall1; [|exact He].
        destruct e as [n|]; [|done]. simpl in *. rewrite Hpairs. by apply lookup_app_l.
    + intros q0 d0 Hq0 Hfree. rewrite Hdat. rewrite list_lookup_insert_ne; [done|].
      intros <-. by apply (Hfree _ Hk).
    + intros j0 a0 Hj0 Hfree. apply Hfr; [|done].
      specialize (Hfree _ p d Hk Hd). apply lookup_lt_Some in Hj0.
      destruct Harr as [->| ->]; [by apply not_eq_sym | lia].
    + intros p' Hp'. rewrite Hrec in Hp'. assert (p' = p) as -> by congruence.
      split; [apply (Hwf' (runnermap.normalizeKey (records r) runner)); by rewrite Hrec|].
      split; [by left|]. split.
      * intros d0 Hd0. assert (d0 = d') as -> by congruence.
        destruct Harr as [E|E]; [left; by exists p, d | right; lia].
      * intros e He. destruct (Hown p) with (e := e) as [Hin|Hfresh]; [| done | |by right].
        { by rewrite Hrec. }
        left. exists p. split; [done|]. by rewrite <- (slots_slots_at _ _ _ Hg).
  - set (pn := length (datas r)) in *.
    rewrite (bind_Returned (bind new_ModelData _) _ r1 tt
               (with_records (runnermap.Map_Set runner (length (datas r)))
                  (with_datas (fun h => h ++ [mkModelData BackendConfiguration_zero
                                                (mkSlice (length (arrays r)) 0 0)])
                     (with_arrays (fun h => h ++ [replicate 10 None]) r1)))) in Hrun
      by reflexivity.
    set (r3 := with_records _ _) in *.
    destruct (RecordRequest_tail_frame r3 runner (length (pairs r))
                (runnermap.Model runner +:+ "_" +:+ pretty now_id) pn
                (mkModelData BackendConfiguration_zero (mkSlice (length (arrays r)) 0 0))
                (replicate 10 None))
      as (r'' & d' & Hrun' & Hrec & _ & Hdat & _ & Harr & Hfr).
    { by apply Get_Set_same. }
    { simpl. by apply list_lookup_middle. }
    { simpl. by apply list_lookup_middle. }
    { simpl. lia. }
    rewrite Hrun' in Hrun. injection Hrun as ->.
    simpl in Hrec, Hdat, Harr, Hfr.
    assert (Hd' : datas r' !! pn = Some d').
    { rewrite Hdat. apply list_lookup_insert_eq. rewrite length_app. simpl. lia. }
    assert (Hq : runnermap.Map_Get runner (records r') = Some pn).
    { rewrite Hrec. by apply Get_Set_same. }
    apply (new_entry_step r runner d'); try done.
    + intros q d0 Hd0. rewrite Hdat. rewrite list_lookup_insert_ne.
      * by apply lookup_app_l_Some.
      * apply lookup_lt_Some in Hd0. lia.
    + intros i a Hi. apply Hfr; [|by apply lookup_app_l_Some].
      apply lookup_lt_Some in Hi. rewrite length_app in Harr. simpl in Harr. lia.
    + right. by exists v.
    + rewrite length_app in Harr. simpl in Harr. lia.
    + apply (Hwf' (runnermap.normalizeKey (records r') runner)). exact Hq.
    + intros e He. destruct (Hown pn Hq e He) as [Hin|Hfresh]; [|done].
      rewrite (slots_no_entry _ _ Hg) in Hin. by apply elem_of_nil in Hin.
Qed.

(** ** Any list of calls *)

Lemma not_same_slot r k other :
  ~ runnermap.same_slot (records r) k other ->
  Some (runnermap.normalizeKey (records r) k) <>
  Some (runnermap.normalizeKey (records r) other).
Proof.
  intros Hns [= Hb Hm Hmode]. apply Hns. by repeat split.
Qed.

Lemma run_call_step c r :
  wf r -> separate r ->
  exists r',
    run_call c r = Returned tt r' /\
    step_ok (runnermap.normalizeKey (records r) <$> key_of c) r r'.
Proof.
  intros Hwf Hsep. destruct c as [runner config|runner req body now_id now|id runner rr
                                  |model|model|req]; simpl.
  - by apply SetConfigForModel_step.
  - destruct (RecordRequest_step r runner req body now_id now Hwf Hsep)
      as (id & r' & Hrun & Hstep).
    exists r'. split; [|done]. by rewrite (bind_Returned _ _ _ _ _ Hrun).
  - by apply RecordResponse_step.
  - destruct (GetModelData_step r model Hwf Hsep) as (q & r' & Hrun & Hstep).
    exists r'. split; [|done]. by rewrite (bind_Returned _ _ _ _ _ Hrun).
  - by apply RemoveModel_step.
  - destruct (handler_step r req Hwf Hsep) as (rp & r' & Hrun & Hstep).
    exists r'. split; [|done]. by rewrite (bind_Returned _ _ _ _ _ Hrun).
Qed.

Lemma run_calls_inv cs : forall r,
  wf r -> separate r ->
  exists r', run_calls cs r = Returned tt r' /\ wf r' /\ separate r'.
Proof.
  induction cs as [|c cs IH]; intros r Hwf Hsep; simpl.
  - by exists r.
  - destruct (run_call_step c r Hwf Hsep) as (r1 & Hrun & Hwf1 & Hsep1 & _).
    destruct (IH r1 Hwf1 Hsep1) as (r' & Hrun' & Hwf' & Hsep').
    exists r'. split; [|done]. by rewrite (bind_Returned _ _ _ _ _ Hrun).
Qed.

Lemma separate_NewOpenAIRecorder f : separate (NewOpenAIRecorder f).
Proof. intros k1 k2 p1 p2 _ Hk. simpl in Hk. by rewrite lookup_empty in Hk. Qed.

Lemma wf_history r runner :
  wf r -> length (history r runner) <= 10 /\ Forall is_Some (history r runner).
Proof.
  intros Hwf. unfold history.
  destruct (runnermap.Map_Get runner (records r)) as [p|] eqn:Hg.
  - destruct (wf_Get _ _ _ Hwf Hg) as (d & a & _ & _ & _ & Hl & Hall & ->).
    split; [rewrite length_map, length_take; lia|].
    apply Forall_map. eapply Forall_impl; [exact Hall|].
    intros e He. destruct (ptr_ok_deref _ _ He) as (n & v & -> & Hv). by exists v.
  - rewrite (slots_no_entry _ _ Hg). split; [simpl; lia | constructor].
Qed.

End any_calls.

(** X11: whatever calls are made on a new recorder, with writers that
    [NewResponseRecorder] has made, none of them panics, and at the end every
    key has at most ten records, none of them a nil pointer. *)
Theorem X11_calls_never_panic `{Collaborators} (f : string -> string) (cs : list call) :
  exists r,
    run_calls cs (NewOpenAIRecorder f) = Returned tt r /\
    forall runner,
      (length (history r runner) <= 10)%nat /\ Forall is_Some (history r runner).
Proof.
  destruct (run_calls_inv cs (NewOpenAIRecorder f)) as (r & Hrun & Hwf & _).
  - apply wf_NewOpenAIRecorder.
  - apply separate_NewOpenAIRecorder.
  - exists r. split; [done|]. intros runner. by apply wf_history.
Qed.

(** X12: a call that works on the entry of one key leaves the history and
    the configuration of every key of another slot as they were, in any
    state that calls on a new recorder lead to; a query leaves them so for
    every key. *)
Theorem X12_keys_do_not_interfere `{Collaborators} (f : string -> string) (cs : list call)
        (c : call) (r : OpenAIRecorder) :
  run_calls cs (NewOpenAIRecorder f) = Returned tt r ->
  exists r',
    run_call c r = Returned tt r' /\
    forall other,
      (forall k, key_of c = Some k -> ~ runnermap.same_slot (records r) k other) ->
      history r' other = history r other /\
      stored_config r' other = stored_config r other.
Proof.
  intros Hrun.
  destruct (run_calls_inv cs (NewOpenAIRecorder f)) as (r0 & Hrun0 & Hwf & Hsep).
  { apply wf_NewOpenAIRecorder. }
  { apply separate_NewOpenAIRecorder. }
  rewrite Hrun in Hrun0. injection Hrun0 as <-.
  destruct (run_call_step c r Hwf Hsep) as (r' & Hrun' & Hstep).
  exists r'. split; [done|]. intros other Hother.
  apply (step_ok_other _ _ _ _ Hwf Hstep).
  destruct (key_of c) as [k|]; [|done]. simpl.
  apply not_same_slot. by apply Hother.
Qed.

Lemma X12_keys_do_not_interfere_witness :
  let embedding := runnermap.mkKey "llama.cpp" "ai/smollm2" runnermap.BackendModeEmbedding in
  let cs := [call_RecordRequest example_key example_request "one" 1%Z 1%Z;
             call_SetConfigForModel example_key (Some 4096%Z);
             call_RecordRequest embedding example_request "two" 2%Z 2%Z] in
  let r := state_of (run_calls cs (NewOpenAIRecorder ToLower)) in
  exists r',
    run_call (call_RecordRequest embedding example_request "three" 3%Z 3%Z) r = Returned tt r' /\
    history r' example_key = history r example_key /\
    stored_config r' example_key = Some 4096%Z.
Proof.
  intros embedding cs r.
  assert (Hv : value_of (run_calls cs (NewOpenAIRecorder ToLower)) = Some tt)
    by (vm_compute; reflexivity).
  destruct (X12_keys_do_not_interfere ToLower cs
              (call_RecordRequest embedding example_request "three" 3%Z 3%Z) r
              (Returned_state_of _ _ Hv)) as (r' & Hrun & Hother).
  destruct (Hother example_key) as [Hh Hc].
  { intros k [= <-] (_ & Hmode & _). discriminate Hmode. }
  exists r'. split; [exact Hrun|]. split; [exact Hh|].
  rewrite Hc. vm_compute. reflexivity.
Defined.
(** * The methods of the recorder, one after the other *)

Section methods.
Context `{Collaborators}.
Local Open Scope list_scope.
Local Open Scope nat_scope.

Lemma SetConfigForModel_spec r runner c :
  wf r ->
  exists r',
    SetConfigForModel runner (Some c) r = Returned tt r' /\
    wf r' /\
    stored_config r' runner = Some c /\
    history r' runner = history r runner /\
    pairs r' = pairs r /\ log r' = log r.
Proof.
  intros Hwf.
  destruct (runnermap.Map_Get runner (records r)) as [p|] eqn:Hg.
  - destruct (wf_Get _ _ _ Hwf Hg) as (d & a & Hd & Ha & Hb & Hl & Hall & Hs).
    assert (Hp : p < length (datas r)) by (by eapply lookup_lt_Some).
    eexists. split; [by apply (SetConfigForModel_known r runner c p d)|].
    assert (Hd' : <[p := mkModelData c (Records d)]> (datas r) !! p =
                  Some (mkModelData c (Records d)))
      by (by apply list_lookup_insert_eq).
    split; [|split; [|split; [|done]]].
    + intros k q Hk. destruct (decide (q = p)) as [->|Hne].
      * unfold data_ok. simpl. rewrite Hd'. simpl. unfold slice_ok. by rewrite Ha.
      * apply (data_ok_frame r); [by apply (Hwf k) | |done].
        simpl. by apply list_lookup_insert_ne.
    + unfold stored_config. simpl. by rewrite Hg, Hd'.
    + unfold history, slots. simpl. by rewrite Hg, Hd', Hd.
  - eexists. split; [by apply SetConfigForModel_new|].
    set (d' := mkModelData c (mkSlice (length (arrays r)) 0 0)).
    assert (Hd' : <[length (datas r) := d']>
                    (datas r ++ [mkModelData BackendConfiguration_zero
                                   (mkSlice (length (arrays r)) 0 0)])
                  !! length (datas r) = Some d').
    { apply list_lookup_insert_eq. rewrite length_app. simpl. lia. }
    assert (Hg' : forall rm : runnermap.Map nat,
              runnermap.Map_Get runner (runnermap.Map_Set runner (length (datas r)) rm) =
              Some (length (datas r))) by (intros rm; by apply Get_Set_same).
    split; [|split; [|split; [|done]]].
    + intros k q Hk. simpl in Hk.
      apply lookup_insert_Some in Hk as [[_ <-]|[_ Hk]].
      * unfold data_ok. simpl. rewrite Hd'. simpl. unfold slice_ok. simpl.
        rewrite list_lookup_middle by done. simpl. repeat split; [lia..|constructor].
      * pose proof (Hwf k q Hk) as Hok.
        apply (data_ok_frame r); [done | |].
        -- simpl. rewrite list_lookup_insert_ne.
           ++ apply lookup_app_l. by apply data_ok_lt.
           ++ apply data_ok_lt in Hok. lia.
        -- intros t Ht. simpl. by apply slice_ok_arrays_app.
    + unfold stored_config. simpl. by rewrite Hg', Hd'.
    + unfold history, slots. simpl. rewrite Hg', Hd', Hg. simpl.
      unfold slots_of. simpl. by rewrite list_lookup_middle.
Qed.

(** The configuration after a capture: the one that was there, the zero
    value in a new entry. *)
Lemma RecordRequest_config r runner req body now_id now :
  wf r ->
  exists id r',
    RecordRequest runner req body now_id now r = Returned id r' /\
    stored_config r' runner =
      Some (default BackendConfiguration_zero (stored_config r runner)).
Proof.
  intros Hwf. rewrite RecordRequest_unfold.
  rewrite (bind_Returned _ _ _ _ _ (new_pair_run _ _)).
  set (r1 := with_pairs _ r).
  rewrite (bind_Returned _ _ _ _ _ (records_Get_run _ _)).
  change (records r1) with (records r).
  unfold stored_config at 2.
  destruct (runnermap.Map_Get runner (records r)) as [p|] eqn:Hg.
  - rewrite (bind_Returned _ _ r1 tt r1) by reflexivity.
    destruct (wf_Get _ _ _ Hwf Hg) as (d & a & Hd & Ha & Hb & _).
    destruct (RecordRequest_tail_frame r1 runner (length (pairs r))
                (runnermap.Model runner +:+ "_" +:+ pretty now_id) p d a Hg Hd Ha Hb)
      as (r' & d' & Hrun & Hrec & _ & Hdat & Hcfg & _).
    eexists _, r'. split; [exact Hrun|].
    unfold stored_config. rewrite Hrec. change (records r1) with (records r). rewrite Hg.
    rewrite Hdat, Hd. simpl. rewrite list_lookup_insert_eq by (by eapply lookup_lt_Some).
    simpl. by rewrite Hcfg.
  - rewrite (bind_Returned (bind new_ModelData _) _ r1 tt
               (with_records (runnermap.Map_Set runner (length (datas r)))
                  (with_datas (fun h => h ++ [mkModelData BackendConfiguration_zero
                                                (mkSlice (length (arrays r)) 0 0)])
                     (with_arrays (fun h => h ++ [replicate 10 None]) r1))))
      by reflexivity.
    set (r3 := with_records _ _).
    destruct (RecordRequest_tail_frame r3 runner (length (pairs r))
                (runnermap.Model runner +:+ "_" +:+ pretty now_id) (length (datas r))
                (mkModelData BackendConfiguration_zero (mkSlice (length (arrays r)) 0 0))
                (replicate 10 None))
      as (r' & d' & Hrun & Hrec & _ & Hdat & Hcfg & _).
    { by apply Get_Set_same. }
    { simpl. by apply list_lookup_middle. }
    { simpl. by apply list_lookup_middle. }
    { simpl. lia. }
    eexists _, r'. split; [exact Hrun|].
    unfold stored_config. rewrite Hrec. simpl.
    rewrite (Get_Set_same (records r) runner runner) by done.
    rewrite Hdat. simpl. rewrite list_lookup_insert_eq by (rewrite length_app; simpl; lia).
    simpl. by rewrite Hcfg.
Qed.

Lemma first_match_fresh h v tl id rs rest :
  Forall (ptr_ok (length h)) rs ->
  Forall (fun e => forall v0, deref h e = Some v0 -> ID v0 <> id) rs ->
  ID v = id ->
  first_match (h ++ v :: tl) id (rs ++ Some (length h) :: rest) = Some (length h).
Proof.
  intros Hok Hfresh Hid. induction Hok as [|e rs He _ IH]; simpl.
  - rewrite list_lookup_middle by done. apply String.eqb_eq in Hid. by rewrite Hid.
  - apply Forall_cons in Hfresh as [Hne Hfresh].
    destruct e as [n|]; [|done]. simpl in He.
    destruct (lookup_lt_is_Some_2 h n He) as [v0 Hv0]. simpl in *.
    rewrite (lookup_app_l_Some _ _ _ _ Hv0).
    specialize (Hne v0 Hv0). apply String.eqb_neq in Hne. rewrite Hne. by apply IH.
Qed.

Lemma RecordRequest_then_RecordResponse r runner req body now_id now rr :
  wf r ->
  let id := runnermap.Model runner +:+ "_" +:+ pretty now_id in
  let v := new_record runner req body now_id now in
  Forall (fun e => forall v0, e = Some v0 -> ID v0 <> id) (history r runner) ->
  exists r1 r2,
    RecordRequest runner req body now_id now r = Returned id r1 /\
    RecordResponse id runner (recorderWriter rr) r1 = Returned tt r2 /\
    history r1 runner = last10 (history r runner ++ [Some v]) /\
    history r2 runner =
      last10 (history r runner ++
              [Some (set_StatusCode (rr_statusCode rr)
                       (set_Response (response_of (rr_body rr)) v))]) /\
    log r2 = log r.
Proof.
  intros Hwf id v Hfresh.
  destruct (RecordRequest_spec r runner req body now_id now Hwf)
    as (r1 & Hrun1 & Hwf1 & Hlog1 & Hpairs1 & Hslots1 & _).
  fold id v in Hrun1, Hpairs1.
  pose proof (wf_slots r runner Hwf) as Hok.
  assert (Hk : length (slots r runner ++ [Some (length (pairs r))]) - 10
               <= length (slots r runner)) by (rewrite length_app; simpl; lia).
  assert (Hdrop : slots r1 runner =
                  drop (length (slots r runner ++ [Some (length (pairs r))]) - 10)
                       (slots r runner) ++ [Some (length (pairs r))]).
  { rewrite Hslots1. unfold last10. by rewrite drop_app_le. }
  assert (Hm : first_match (pairs r1) id (slots r1 runner) = Some (length (pairs r))).
  { rewrite Hpairs1, Hdrop. apply (first_match_fresh _ _ [] _ _ []); [by apply Forall_drop| |done].
    apply Forall_drop. unfold history in Hfresh. apply Forall_map in Hfresh.
    eapply Forall_impl; [exact Hfresh|]. intros e He v0 Hv0. by apply He. }
  destruct (RecordResponse_match r1 id runner rr _ Hwf1 Hm) as (v' & Hv' & _ & Hrun2).
  assert (v' = v) as ->.
  { rewrite Hpairs1, list_lookup_middle in Hv' by done. congruence. }
  eexists r1, _. split; [exact Hrun1|]. split; [exact Hrun2|].
  split; [by apply history_RecordRequest|]. split; [|done].
  unfold history. cbn [pairs with_pairs]. change (slots (with_pairs _ r1) runner)
    with (slots r1 runner).
  rewrite Hslots1, last10_map, map_app. f_equal. f_equal.
  - apply map_ext_in. intros e He%list_elem_of_In.
    eapply Forall_forall in Hok; [|exact He].
    destruct e as [n|]; [|done]. simpl in *.
    rewrite list_lookup_insert_ne by lia. rewrite Hpairs1. by apply lookup_app_l.
  - simpl. rewrite list_lookup_insert_eq; [done|].
    rewrite Hpairs1, length_app. simpl. lia.
Qed.

End methods.

(** X13: [SetConfigForModel] with a configuration keeps it for the key,
    making the entry when there is none, and leaves the records and the log
    as they are; a capture that follows does not change it.  A capture for a
    key without an entry makes one with the zero configuration. *)
Theorem X13_config_kept `{Collaborators} (r : OpenAIRecorder) (runner : runnermap.Key)
        (c : BackendConfiguration) (req : http.Request) (body : string) (now_id now : Time) :
  wf r ->
  (exists r1 id r2,
     SetConfigForModel runner (Some c) r = Returned tt r1 /\
     stored_config r1 runner = Some c /\
     history r1 runner = history r runner /\
     pairs r1 = pairs r /\ log r1 = log r /\
     RecordRequest runner req body now_id now r1 = Returned id r2 /\
     stored_config r2 runner = Some c) /\
  (runnermap.Map_Get runner (records r) = None ->
   exists id r2,
     RecordRequest runner req body now_id now r = Returned id r2 /\
     stored_config r2 runner = Some BackendConfiguration_zero).
Proof.
  intros Hwf. split.
  - destruct (SetConfigForModel_spec r runner c Hwf)
      as (r1 & Hrun1 & Hwf1 & Hcfg1 & Hh1 & Hp1 & Hl1).
    destruct (RecordRequest_config r1 runner req body now_id now Hwf1)
      as (id & r2 & Hrun2 & Hcfg2).
    exists r1, id, r2. rewrite Hcfg1 in Hcfg2. done.
  - intros Hg.
    destruct (RecordRequest_config r runner req body now_id now Hwf)
      as (id & r2 & Hrun2 & Hcfg2).
    exists id, r2. split; [done|]. rewrite Hcfg2. unfold stored_config. by rewrite Hg.
Qed.

Lemma X13_config_kept_witness :
  let r := example_recorder 3 in
  exists r1 id r2,
    SetConfigForModel example_key (Some 4096%Z) r = Returned tt r1 /\
    history r1 example_key = history r example_key /\
    RecordRequest example_key example_request "four" 4%Z 4%Z r1 = Returned id r2 /\
    stored_config r2 example_key = Some 4096%Z.
Proof.
  intros r.
  destruct (X13_config_kept r example_key 4096%Z example_request "four" 4%Z 4%Z
              (wf_example_recorder 3))
    as [(r1 & id & r2 & Hrun1 & _ & Hh & _ & _ & Hrun2 & Hcfg) _].
  exists r1, id, r2.
  split; [exact Hrun1|]. split; [exact Hh|]. split; [exact Hrun2 | exact Hcfg].
Defined.

(** X14: [RemoveModel] takes the entry of the model away, whatever it held:
    the key has no history and no configuration afterwards and a query finds
    nothing; the log tells whether there was an entry.  The records of other
    cells are not written to, and a capture that follows starts a history of
    one record. *)
Theorem X14_model_removed `{Collaborators} (r : OpenAIRecorder) (model : string)
        (req : http.Request) (body : string) (now_id now : Time) :
  wf r ->
  exists r1 id r2,
    RemoveModel model r = Returned tt r1 /\
    history r1 (runnerKey model) = [] /\
    stored_config r1 (runnerKey model) = None /\
    GetModelData model r1 = Returned None r1 /\
    pairs r1 = pairs r /\
    log r1 =
      (log r ++
       [match runnermap.Map_Get (runnerKey model) (records r) with
        | Some _ => (Info, "Removed records for model: " +:+ model)
        | None => (Warn, "No records found for model: " +:+ model)
        end])%list /\
    RecordRequest (runnerKey model) req body now_id now r1 = Returned id r2 /\
    history r2 (runnerKey model) = [Some (new_record (runnerKey model) req body now_id now)].
Proof.
  intros Hwf.
  assert (Hstep : exists r1,
            RemoveModel model r = Returned tt r1 /\ wf r1 /\
            runnermap.Map_Get (runnerKey model) (records r1) = None /\
            pairs r1 = pairs r /\
            log r1 =
              (log r ++
               [match runnermap.Map_Get (runnerKey model) (records r) with
                | Some _ => (Info, "Removed records for model: " +:+ model)
                | None => (Warn, "No records found for model: " +:+ model)
                end])%list).
  { destruct (runnermap.Map_Get (runnerKey model) (records r)) as [p|] eqn:Hg.
    - eexists. split; [by apply (RemoveModel_known r model p)|].
      split; [|split; [|done]].
      + intros k q Hk. simpl in Hk. apply lookup_delete_Some in Hk as [_ Hk].
        by apply (Hwf k q).
      + unfold runnermap.Map_Get. simpl. apply lookup_delete_eq.
    - eexists. split; [by apply RemoveModel_unknown|]. done. }
  destruct Hstep as (r1 & Hrun1 & Hwf1 & Hg1 & Hp1 & Hl1).
  destruct (RecordRequest_spec r1 (runnerKey model) req body now_id now Hwf1)
    as (r2 & Hrun2 & Hwf2 & _ & Hpairs2 & Hslots2 & _).
  assert (Hh1 : history r1 (runnerKey model) = []).
  { unfold history. by rewrite (slots_no_entry _ _ Hg1). }
  eexists r1, _, r2. split; [done|]. split; [done|].
  split; [unfold stored_config; by rewrite Hg1|].
  split; [by apply GetModelData_None|].
  do 3 (split; [done|]).
  rewrite (history_RecordRequest r1 r2 _ _ Hwf1 Hpairs2 Hslots2), Hh1. done.
Qed.

Lemma X14_model_removed_witness :
  let r := example_recorder 3 in
  exists r1 id r2,
    RemoveModel "ai/smollm2" r = Returned tt r1 /\
    history r1 example_key = [] /\
    RecordRequest example_key example_request "four" 4%Z 4%Z r1 = Returned id r2 /\
    history r2 example_key = [Some (new_record example_key example_request "four" 4%Z 4%Z)].
Proof.
  intros r.
  destruct (X14_model_removed r "ai/smollm2" example_request "four" 4%Z 4%Z
              (wf_example_recorder 3))
    as (r1 & id & r2 & Hrun1 & Hh1 & _ & _ & _ & _ & Hrun2 & Hh2).
  exists r1, id, r2.
  split; [exact Hrun1|]. split; [exact Hh1|]. split; [exact Hrun2 | exact Hh2].
Defined.

(** X15: a request captured and then answered through a writer made by
    [NewResponseRecorder]: when no record of the key has the id already, the
    record of the request is the one that gets the response, which is what
    the calls have written, reconstructed if it was streamed, with the last
    status they have set; no error is logged. *)
Theorem X15_request_then_response `{Collaborators} (r : OpenAIRecorder)
        (runner : runnermap.Key) (req : http.Request) (body : string) (now_id now : Time)
        (w : ResponseWriter) (cs : list http.call) :
  wf r ->
  let id := runnermap.Model runner +:+ "_" +:+ pretty now_id in
  Forall (fun e => forall v0, e = Some v0 -> ID v0 <> id) (history r runner) ->
  exists r1 r2,
    RecordRequest runner req body now_id now r = Returned id r1 /\
    RecordResponse id runner (perform_all cs (NewResponseRecorder w)) r1 = Returned tt r2 /\
    history r2 runner =
      last10 (history r runner ++
              [Some (set_StatusCode (last_status http.StatusOK cs)
                       (set_Response (response_of (written cs))
                          (new_record runner req body now_id now)))])%list /\
    log r2 = log r.
Proof.
  intros Hwf id Hfresh. unfold NewResponseRecorder. rewrite perform_all_recorder.
  destruct (RecordRequest_then_RecordResponse r runner req body now_id now
              (mkResponseRecorder (perform_all (forwarded (is_Flusher w) cs) w)
                 ("" +:+ written cs) (last_status http.StatusOK cs)) Hwf Hfresh)
    as (r1 & r2 & Hrun1 & Hrun2 & _ & Hh & Hlog).
  exists r1, r2. split; [exact Hrun1|]. split; [exact Hrun2|]. split; [exact Hh | exact Hlog].
Qed.

Lemma X15_request_then_response_witness :
  let r := example_recorder 2 in
  let w := otherWriter (http.mkConn [] true) in
  let cs := [http.call_WriteHeader 201; http.call_Write "{"; http.call_Flush;
             http.call_Write "}"] in
  exists r1 r2,
    RecordRequest example_key example_request "three" 3%Z 3%Z r = Returned "ai/smollm2_3" r1 /\
    RecordResponse "ai/smollm2_3" example_key (perform_all cs (NewResponseRecorder w)) r1 =
      Returned tt r2 /\
    history r2 example_key =
      last10 (history r example_key ++
              [Some (set_StatusCode 201 (set_Response "{}"
                       (new_record example_key example_request "three" 3%Z 3%Z)))])%list.
Proof.
  intros r w cs.
  assert (Hh : history r example_key =
               [Some (record_of example_key (example_capture 1));
                Some (record_of example_key (example_capture 2))])
    by (vm_compute; reflexivity).
  destruct (X15_request_then_response r example_key example_request "three" 3%Z 3%Z w cs
              (wf_example_recorder 2)) as (r1 & r2 & Hrun1 & Hrun2 & Hh2 & _).
  { rewrite Hh. repeat constructor; intros v0 [= <-]; by vm_compute. }
  exists r1, r2. split; [exact Hrun1|]. split; [exact Hrun2 | exact Hh2].
Defined.
(** * Ids that meet, and what a query can see *)

Section queries_more.
Context `{Collaborators}.
Local Open Scope list_scope.
Local Open Scope nat_scope.

Lemma stored_config_None r runner :
  wf r -> stored_config r runner = None ->
  runnermap.Map_Get runner (records r) = None.
Proof.
  intros Hwf. unfold stored_config.
  destruct (runnermap.Map_Get runner (records r)) as [p|] eqn:Hg; [|done].
  destruct (wf_Get _ _ _ Hwf Hg) as (d & a & Hd & _). by rewrite Hd.
Qed.

Lemma handler_unknown r req :
  let model := http.Values_Get (http.URL_Query req) "model" in
  model <> "" ->
  runnermap.Map_Get (runnerKey model) (records r) = None ->
  GetRecordsByModelHandler req r =
  Returned (reply_Error ("No records found for model '" +:+ model +:+ "'")
                        http.StatusNotFound) r.
Proof.
  intros model Hne Hg. unfold GetRecordsByModelHandler. fold model.
  apply String.eqb_neq in Hne. rewrite Hne.
  by rewrite (bind_Returned _ _ _ _ _ (GetModelData_None r model Hg)).
Qed.

(** No key of the llama.cpp backend in completion mode is in the map. *)
Lemma run_calls_blind cs : forall r,
  wf r -> separate r ->
  Forall (fun c => forall k, key_of c = Some k ->
            runnermap.Backend k <> llamacpp_Name \/
            runnermap.Mode k <> runnermap.BackendModeCompletion) cs ->
  (forall model, runnermap.Map_Get (runnerKey model) (records r) = None) ->
  exists r',
    run_calls cs r = Returned tt r' /\ wf r' /\
    forall model, runnermap.Map_Get (runnerKey model) (records r') = None.
Proof.
  induction cs as [|c cs IH]; intros r Hwf Hsep Hall Hnone; simpl.
  - by exists r.
  - apply Forall_cons in Hall as [Hc Hall].
    destruct (run_call_step c r Hwf Hsep) as (r1 & Hrun & Hwf1 & Hsep1 & Hn & Hu & _).
    rewrite (bind_Returned _ _ _ _ _ Hrun).
    apply IH; [done..|]. intros model.
    specialize (Hnone model). unfold runnermap.Map_Get, runnermap.normalizeKey in *.
    rewrite Hn. fold (runnermap.normalizeKey (records r) (runnerKey model)).
    destruct (Hu (runnermap.normalizeKey (records r) (runnerKey model))) as [-> _]; [|done].
    destruct (key_of c) as [k|] eqn:Hk; [|done]. simpl.
    intros [= Hb _ Hm]. destruct (Hc k eq_refl) as [Hne|Hne]; by apply Hne.
Qed.

End queries_more.



(** X17: a query finds the entry through the normalized model: two
    spellings with one normal form are answered with the same configuration
    and the same records, each with the model as it was asked for, or both
    with 404. *)
Theorem X17_query_by_any_spelling `{Collaborators} (r : OpenAIRecorder)
        (req1 req2 : http.Request) :
  wf r ->
  let model1 := http.Values_Get (http.URL_Query req1) "model" in
  let model2 := http.Values_Get (http.URL_Query req2) "model" in
  model1 <> "" -> model2 <> "" ->
  runnermap.normalizeFn (records r) model1 = runnermap.normalizeFn (records r) model2 ->
  exists rp1 rp2 r1 r2,
    GetRecordsByModelHandler req1 r = Returned rp1 r1 /\
    GetRecordsByModelHandler req2 r = Returned rp2 r2 /\
    ((rp1 = reply_Error ("No records found for model '" +:+ model1 +:+ "'") http.StatusNotFound /\
      rp2 = reply_Error ("No records found for model '" +:+ model2 +:+ "'") http.StatusNotFound) \/
     exists cfg,
       rp1 = reply_for model1 cfg (history r (runnerKey model1)) /\
       rp2 = reply_for model2 cfg (history r (runnerKey model1))).
Proof.
  intros Hwf model1 model2 Hne1 Hne2 Hn.
  assert (Hg : runnermap.Map_Get (runnerKey model2) (records r) =
               runnermap.Map_Get (runnerKey model1) (records r)).
  { unfold runnermap.Map_Get, runnermap.normalizeKey. simpl. by rewrite Hn. }
  assert (Hh : history r (runnerKey model2) = history r (runnerKey model1)).
  { unfold history, slots. by rewrite Hg. }
  destruct (runnermap.Map_Get (runnerKey model1) (records r)) as [p|] eqn:Hg1.
  - destruct (wf_Get _ _ _ Hwf Hg1) as (d & a & Hd & Ha & Hb & _).
    destruct (handler_known r req1 p d a Hne1 Hg1 Hd Ha Hb) as (r1 & Hrun1 & _).
    destruct (handler_known r req2 p d a Hne2 Hg Hd Ha Hb) as (r2 & Hrun2 & _).
    eexists _, _, r1, r2. split; [exact Hrun1|]. split; [exact Hrun2|].
    right. exists (Config d). fold model2. by rewrite Hh.
  - eexists _, _, r, r.
    split; [by apply handler_unknown|]. split; [by apply handler_unknown|]. by left.
Qed.

Lemma X17_query_by_any_spelling_witness :
  let r := example_recorder 2 in
  let req1 := http.mkRequest "GET" "/requests" {["model" := ["ai/smollm2"]]} "" in
  let req2 := http.mkRequest "GET" "/requests" {["model" := ["AI/SmolLM2"]]} "" in
  exists rp1 rp2 r1 r2 cfg,
    GetRecordsByModelHandler req1 r = Returned rp1 r1 /\
    GetRecordsByModelHandler req2 r = Returned rp2 r2 /\
    rp1 = reply_for "ai/smollm2" cfg (history r example_key) /\
    rp2 = reply_for "AI/SmolLM2" cfg (history r example_key).
Proof.
  intros r req1 req2.
  destruct (X17_query_by_any_spelling r req1 req2 (wf_example_recorder 2))
    as (rp1 & rp2 & r1 & r2 & Hrun1 & Hrun2 & [[H404 _]|(cfg & Hrp1 & Hrp2)]).
  - by vm_compute.
  - by vm_compute.
  - vm_compute. reflexivity.
  - exfalso. rewrite H404 in Hrun1.
    assert (Hv : (status_of <$> value_of (GetRecordsByModelHandler req1 r)) = Some 200%Z)
      by (vm_compute; reflexivity).
    rewrite Hrun1 in Hv. discriminate Hv.
  - exists rp1, rp2, r1, r2, cfg.
    split; [exact Hrun1|]. split; [exact Hrun2|]. split; [exact Hrp1 | exact Hrp2].
Defined.

(** X18: the queries look at the llama.cpp backend in completion mode only.
    A recorder whose calls were all made with keys of another backend or
    another mode answers every query with 400 or 404, whatever it has
    recorded. *)
Theorem X18_only_llamacpp_completion `{Collaborators} (f : string -> string)
        (cs : list call) (req : http.Request) :
  Forall (fun c => forall k, key_of c = Some k ->
            runnermap.Backend k <> llamacpp_Name \/
            runnermap.Mode k <> runnermap.BackendModeCompletion) cs ->
  exists r rp,
    run_calls cs (NewOpenAIRecorder f) = Returned tt r /\
    GetRecordsByModelHandler req r = Returned rp r /\
    (status_of rp = http.StatusBadRequest \/ status_of rp = http.StatusNotFound).
Proof.
  intros Hall.
  destruct (run_calls_blind cs (NewOpenAIRecorder f)) as (r & Hrun & Hwf & Hnone);
    [apply wf_NewOpenAIRecorder | apply separate_NewOpenAIRecorder | done | done |].
  exists r.
  destruct (String.eqb (http.Values_Get (http.URL_Query req) "model") "") eqn:E.
  - exists (reply_Error "A 'model' query parameter is required" http.StatusBadRequest).
    split; [done|]. split; [|by left].
    unfold GetRecordsByModelHandler. by rewrite E.
  - apply String.eqb_neq in E.
    eexists. split; [done|]. split; [by apply handler_unknown|]. by right.
Qed.

Lemma X18_only_llamacpp_completion_witness :
  let embedding := runnermap.mkKey "llama.cpp" "ai/smollm2" runnermap.BackendModeEmbedding in
  let cs := [call_RecordRequest embedding example_request "one" 1%Z 1%Z;
             call_SetConfigForModel embedding (Some 4096%Z)] in
  let req := http.mkRequest "GET" "/requests" {["model" := ["ai/smollm2"]]} "" in
  exists r rp,
    run_calls cs (NewOpenAIRecorder ToLower) = Returned tt r /\
    GetRecordsByModelHandler req r = Returned rp r /\
    (status_of rp = 400%Z \/ status_of rp = 404%Z).
Proof.
  intros embedding cs req.
  apply (X18_only_llamacpp_completion ToLower cs req).
  unfold cs.
  apply Forall_cons. split; [intros k [= <-]; by right|].
  apply Forall_cons. split; [intros k [= <-]; by right|].
  apply Forall_nil_2.
Defined.
(** * What a query has returned, and what comes too late *)

Section later_calls.
Context `{Collaborators}.
Local Open Scope list_scope.
Local Open Scope nat_scope.

(** A detached cell stays as it is, and detached, through a step. *)
Lemma detached_step target r r' q :
  wf r -> step_ok target r r' -> detached r q ->
  detached r' q /\
  datas r' !! q = datas r !! q /\
  slots_at r' q = slots_at r q.
Proof.
  intros Hwf (_ & _ & _ & _ & Hdat & Harr & Hown) (dq & Hq & [a Ha] & Hfree).
  assert (Hq' : datas r' !! q = Some dq).
  { apply Hdat; [done|]. intros k Hk. by destruct (Hfree k q Hk) as [? _]. }
  assert (Ha' : arrays r' !! s_array (Records dq) = Some a).
  { apply Harr; [done|]. intros k p d Hk Hd. by destruct (Hfree k p Hk) as [_ ?]; auto. }
  split; [|split; [by rewrite Hq', Hq|]].
  - exists dq. split; [done|]. split; [by eexists|].
    intros k p' Hk. destruct (Hown k p' Hk) as [Hp Harr'].
    assert (Hlt : q < length (datas r)) by (by eapply lookup_lt_Some).
    assert (Halt : s_array (Records dq) < length (arrays r)) by (by eapply lookup_lt_Some).
    split.
    + destruct Hp as [Hold|Hfresh]; [|lia]. by destruct (Hfree k p' Hold) as [? _].
    + intros d' Hd'. destruct (Harr' d' Hd') as [(p & d & Hp0 & Hd0 & ->)|Hfresh]; [|lia].
      destruct (Hfree k p Hp0) as [_ Hne]. by apply Hne.
  - unfold slots_at, slots_of. by rewrite Hq', Hq, Ha', Ha.
Qed.

Lemma detached_run_calls cs : forall r q,
  wf r -> separate r -> detached r q ->
  exists r',
    run_calls cs r = Returned tt r' /\
    datas r' !! q = datas r !! q /\ slots_at r' q = slots_at r q.
Proof.
  induction cs as [|c cs IH]; intros r q Hwf Hsep Hq; simpl.
  - by exists r.
  - destruct (run_call_step c r Hwf Hsep) as (r1 & Hrun & Hstep).
    destruct (detached_step _ r r1 q Hwf Hstep Hq) as (Hq1 & Hd1 & Hs1).
    destruct Hstep as (Hwf1 & Hsep1 & _).
    destruct (IH r1 q Hwf1 Hsep1 Hq1) as (r' & Hrun' & Hd' & Hs').
    exists r'. split; [by rewrite (bind_Returned _ _ _ _ _ Hrun)|].
    split; congruence.
Qed.

Lemma GetModelData_detached r model q r1 :
  wf r -> GetModelData model r = Returned (Some q) r1 -> detached r1 q.
Proof.
  intros Hwf Hrun.
  destruct (runnermap.Map_Get (runnerKey model) (records r)) as [p|] eqn:Hg;
    [|by rewrite (GetModelData_None _ _ Hg) in Hrun].
  destruct (wf_Get _ _ _ Hwf Hg) as (d & a & Hd & Ha & Hb & _).
  rewrite (GetModelData_Some r model p d a Hg Hd Ha Hb) in Hrun.
  injection Hrun as <- <-.
  eexists. split; [simpl; by apply list_lookup_middle|]. simpl.
  split; [rewrite list_lookup_middle by done; by eexists|].
  intros k p' Hk. destruct (wf_at _ _ _ Hwf Hk) as (d0 & a0 & Hd0 & Ha0 & _).
  apply lookup_lt_Some in Hd0 as Hlt. apply lookup_lt_Some in Ha0 as Halt.
  split; [lia|]. intros d1 Hd1.
  rewrite (lookup_app_l_Some _ _ _ _ Hd0) in Hd1. injection Hd1 as <-. lia.
Qed.

Lemma first_match_none h id rs :
  Forall (fun e => exists v, deref h e = Some v /\ ID v <> id) rs ->
  first_match h id rs = None.
Proof.
  induction 1 as [|e rs (v & Hv & Hne) _ IH]; simpl; [done|].
  rewrite Hv. apply String.eqb_neq in Hne. by rewrite Hne.
Qed.

End later_calls.

(** X19: the sequence a query has returned is the caller's: no later call
    on the recorder, be it a capture, a removal or a new configuration,
    changes its configuration or the pointers it holds.  (The records behind
    the pointers are the recorder's and get their responses.) *)
Theorem X19_snapshot_stays `{Collaborators} (f : string -> string) (before after : list call)
        (r r1 : OpenAIRecorder) (model : string) (q : nat) :
  run_calls before (NewOpenAIRecorder f) = Returned tt r ->
  GetModelData model r = Returned (Some q) r1 ->
  exists r2,
    run_calls after r1 = Returned tt r2 /\
    datas r2 !! q = datas r1 !! q /\
    slots_at r2 q = slots_at r1 q /\
    slots_at r1 q = slots r (runnerKey model).
Proof.
  intros Hrun Hq.
  destruct (run_calls_inv before (NewOpenAIRecorder f)) as (r0 & Hrun0 & Hwf & Hsep);
    [apply wf_NewOpenAIRecorder | apply separate_NewOpenAIRecorder |].
  rewrite Hrun in Hrun0. injection Hrun0 as <-.
  destruct (GetModelData_step r model Hwf Hsep) as (q' & r1' & Hq' & Hwf1 & Hsep1 & _).
  rewrite Hq in Hq'. injection Hq' as <- <-.
  pose proof (GetModelData_detached r model q r1 Hwf Hq) as Hdet.
  destruct (detached_run_calls after r1 q Hwf1 Hsep1 Hdet) as (r2 & Hrun2 & Hd2 & Hs2).
  exists r2. split; [done|]. split; [done|]. split; [done|].
  destruct (runnermap.Map_Get (runnerKey model) (records r)) as [p|] eqn:Hg;
    [|by rewrite (GetModelData_None _ _ Hg) in Hq].
  destruct (wf_Get _ _ _ Hwf Hg) as (d & a & Hd & Ha & Hb & _ & _ & Hs).
  rewrite (GetModelData_Some r model p d a Hg Hd Ha Hb) in Hq.
  injection Hq as <- <-. rewrite Hs.
  unfold slots_at, slots_of. simpl. rewrite !list_lookup_middle by done. simpl.
  rewrite drop_0, take_ge; [done|]. rewrite length_take, length_drop. lia.
Qed.

Lemma X19_snapshot_stays_witness :
  let before := [call_RecordRequest example_key example_request "one" 1%Z 1%Z;
                 call_RecordRequest example_key example_request "two" 2%Z 2%Z] in
  let after := [call_RecordRequest example_key example_request "three" 3%Z 3%Z;
                call_SetConfigForModel example_key (Some 4096%Z);
                call_RemoveModel "ai/smollm2"] in
  let r := state_of (run_calls before (NewOpenAIRecorder ToLower)) in
  let r1 := state_of (GetModelData "ai/smollm2" r) in
  exists r2,
    run_calls after r1 = Returned tt r2 /\
    slots_at r2 1 = slots r example_key /\
    history r2 example_key = [].
Proof.
  intros before after r r1.
  assert (Hv : value_of (run_calls before (NewOpenAIRecorder ToLower)) = Some tt)
    by (vm_compute; reflexivity).
  assert (Hq : value_of (GetModelData "ai/smollm2" r) = Some (Some 1))
    by (vm_compute; reflexivity).
  destruct (X19_snapshot_stays ToLower before after r r1 "ai/smollm2" 1
              (Returned_state_of _ _ Hv) (Returned_state_of _ _ Hq))
    as (r2 & Hrun2 & _ & Hs2 & Hs1).
  exists r2. split; [exact Hrun2|]. split; [by rewrite Hs2|].
  assert (Hh : history (state_of (run_calls after r1)) example_key = [])
    by (vm_compute; reflexivity).
  rewrite Hrun2 in Hh. exact Hh.
Defined.

(** X20: a response that comes after ten later requests for its key finds
    its record gone: the ten records kept are the later ones, none of them
    is changed, and an error is logged. *)
Theorem X20_response_after_eviction `{Collaborators} (r : OpenAIRecorder)
        (runner : runnermap.Key) (req : http.Request) (body : string) (now_id now : Time)
        (cs : list capture) (rr : responseRecorder) :
  wf r ->
  let id := runnermap.Model runner +:+ "_" +:+ pretty now_id in
  length cs = 10%nat ->
  Forall (fun c => ID (record_of runner c) <> id) cs ->
  exists r1 ids r2 msg r3,
    RecordRequest runner req body now_id now r = Returned id r1 /\
    capture_all runner cs r1 = Returned ids r2 /\
    RecordResponse id runner (recorderWriter rr) r2 = Returned tt r3 /\
    history r2 runner = map (fun c => Some (record_of runner c)) cs /\
    history r3 runner = history r2 runner /\
    log r3 = (log r2 ++ [(Error, msg)])%list.
Proof.
  intros Hwf id Hlen Hfresh.
  destruct (RecordRequest_spec r runner req body now_id now Hwf)
    as (r1 & Hrun1 & Hwf1 & _).
  destruct (capture_all_spec runner cs r1 Hwf1) as (ids & r2 & Hrun2 & Hwf2 & _ & Hh2).
  assert (Hh : history r2 runner = map (fun c => Some (record_of runner c)) cs).
  { rewrite Hh2. unfold last10. rewrite length_app, length_map, Hlen.
    replace (length (history r1 runner) + 10 - 10)%nat with (length (history r1 runner)) by lia.
    by rewrite drop_app_length. }
  assert (Hm : first_match (pairs r2) id (slots r2 runner) = None).
  { apply first_match_none. unfold history in Hh.
    assert (Hall : Forall (fun o => exists v, o = Some v /\ ID v <> id)
                          (map (deref (pairs r2)) (slots r2 runner))).
    { rewrite Hh.
      apply (proj2 (Forall_map (fun c => Some (record_of runner c))
                     (fun o => exists v, o = Some v /\ ID v <> id) cs)).
      eapply Forall_impl; [exact Hfresh|].
      intros c Hc. by eexists. }
    apply (proj1 (Forall_map (deref (pairs r2))
                   (fun o => exists v, o = Some v /\ ID v <> id) (slots r2 runner))) in Hall.
    exact Hall. }
  exists r1, ids, r2.
  destruct (runnermap.Map_Get runner (records r2)) as [p|] eqn:Hg.
  - eexists _, _. split; [exact Hrun1|]. split; [exact Hrun2|].
    split; [apply RecordResponse_no_match; [done | by rewrite Hg | done]|].
    done.
  - eexists _, _. split; [exact Hrun1|]. split; [exact Hrun2|].
    split; [by apply RecordResponse_no_entry|]. done.
Qed.

Lemma X20_response_after_eviction_witness :
  let r := NewOpenAIRecorder ToLower in
  let cs := map example_capture (seq 1 10) in
  let rr := mkResponseRecorder (otherWriter (http.mkConn [] true)) "late" 200 in
  exists r1 ids r2 msg r3,
    RecordRequest example_key example_request "zero" 0%Z 0%Z r = Returned "ai/smollm2_0" r1 /\
    capture_all example_key cs r1 = Returned ids r2 /\
    RecordResponse "ai/smollm2_0" example_key (recorderWriter rr) r2 = Returned tt r3 /\
    history r3 example_key = map (fun c => Some (record_of example_key c)) cs /\
    log r3 = (log r2 ++ [(Error, msg)])%list.
Proof.
  intros r cs rr.
  destruct (X20_response_after_eviction r example_key example_request "zero" 0%Z 0%Z cs rr
              (wf_NewOpenAIRecorder ToLower))
    as (r1 & ids & r2 & msg & r3 & Hrun1 & Hrun2 & Hrun3 & Hh2 & Hh3 & Hlog).
  - reflexivity.
  - unfold cs. simpl. repeat constructor; by vm_compute.
  - exists r1, ids, r2, msg, r3.
    split; [exact Hrun1|]. split; [exact Hrun2|]. split; [exact Hrun3|].
    split; [by rewrite Hh3 | exact Hlog].
Defined.
